(** * Oracle, the homelab AI support agent: a shallow embedding of
      [roles/ai-support-agent/files/agent/main.py] and [config.py].

    The development follows the layout of the Python source:
    - [Py]       : the few Python values and string helpers the agent uses;
    - [Sessions] : [ChannelSession] and [SessionManager];
    - [Approval] : [ApprovalView];
    - [Config]   : the fields of [Config] the agent reads;
    - [Executor] : [ClaudeCodeExecutor] over an explicit world
                   (temporary files, child processes, a clock);
    - [Calendar] : [strftime], for the incident identifiers;
    - [Agent]    : [OracleAgent] (alerts, incidents, conversations) and
                   the [/remediate] command;
    - [Samples]  : concrete inputs for the runs evaluated below.
    The properties come after the model, component by component.

    Conventions.  Floats are read as exact rationals ([Q]); instants are
    microseconds since the epoch ([Z]), the resolution of [datetime];
    text is [string].  Whatever the environment decides (what the child
    process prints, whether Discord accepts a message, which button is
    pressed, what [uuid4] draws) is an explicit input of the model. *)

From stdpp Require Import gmap strings list.
From Stdlib Require Import ZArith QArith String Ascii List Lia Lqa.
From Stdlib Require Import DecimalString DecimalNat.

Set Warnings "-register-all".
Local Open Scope string_scope.
Local Open Scope Z_scope.

(* ===================================================================== *)
(** * Python values                                                       *)
(* ===================================================================== *)

Module Py.

(** What [json.loads] can produce, which is also all that ever lands in a
    result dictionary of the executor.  A nested [dict] keeps its items in
    insertion order, keys already unique. *)
Inductive pyval : Type :=
| PNone
| PBool (b : bool)
| PInt (z : Z)
| PFloat (q : Q)
| PStr (s : string)
| PList (l : list pyval)
| PDict (d : list (string * pyval)).

(** [type(v).__name__] *)
Definition type_name (v : pyval) : string :=
  match v with
  | PNone => "NoneType"
  | PBool _ => "bool"
  | PInt _ => "int"
  | PFloat _ => "float"
  | PStr _ => "str"
  | PList _ => "list"
  | PDict _ => "dict"
  end.

(** Truthiness, as [if v:] tests it. *)
Definition truthy (v : pyval) : bool :=
  match v with
  | PNone => false
  | PBool b => b
  | PInt z => negb (z =? 0)
  | PFloat q => negb (Qeq_bool q 0)
  | PStr s => negb (String.length s =? 0)%nat
  | PList l => negb (List.length l =? 0)%nat
  | PDict d => negb (List.length d =? 0)%nat
  end.

(** [d.get(k, default)] on a decoded JSON object. *)
Fixpoint dict_get (d : list (string * pyval)) (k : string) (default : pyval) : pyval :=
  match d with
  | [] => default
  | (k', v) :: d' => if String.eqb k' k then v else dict_get d' k default
  end.

(** [s[:n]] for [n >= 0]. *)
Definition str_prefix (n : nat) (s : string) : string := String.substring 0 n s.

(** [",".join(l)] and friends. *)
Definition join (sep : string) (l : list string) : string := String.concat sep l.

(** [str(n)] for an [int]. *)
Definition str_of_int (z : Z) : string := NilZero.string_of_int (Z.to_int z).

(** [sub in s] for strings. *)
Definition str_contains (sub s : string) : bool :=
  match String.index 0 sub s with Some _ => true | None => false end.

(** The line feed, written "\n" in the source. *)
Definition nl : string := String (Ascii.ascii_of_nat 10) EmptyString.

(** Exceptions, by the classes the handlers of the agent tell apart.
    [exn_msg] is [str(e)].  Task cancellation and interpreter exit
    ([BaseException]) are outside the model. *)
Inductive exn_class : Type :=
| TimeoutError
| FileNotFoundError
| OtherException (name : string).

Record exn := mkExn { exn_cls : exn_class; exn_msg : string }.

Definition type_error (msg : string) : exn := mkExn (OtherException "TypeError") msg.

(** A computation that returns or raises. *)
Inductive outcome (A : Type) : Type :=
| Ok (a : A)
| Raises (e : exn).
Arguments Ok {A} a.
Arguments Raises {A} e.

(** The number a value stands for in float arithmetic, if any. *)
Definition as_number (v : pyval) : option Q :=
  match v with
  | PInt z => Some (inject_Z z)
  | PFloat q => Some q
  | PBool b => Some (if b then 1%Q else 0%Q)
  | _ => None
  end.

(** [acc += v] for a float accumulator and a decoded JSON value. *)
Definition float_add (acc : Q) (v : pyval) : outcome Q :=
  match as_number v with
  | Some q => Ok (acc + q)%Q
  | None => Raises (type_error
           ("unsupported operand type(s) for +=: 'float' and '" ++ type_name v ++ "'"))
  end.

(** [v > 0] for a value that has already been added to a float. *)
Definition is_positive (v : pyval) : bool :=
  match as_number v with
  | Some q => negb (Qle_bool q 0)
  | None => false
  end.

(** [len(v)] *)
Definition py_len (v : pyval) : outcome nat :=
  match v with
  | PStr s => Ok (String.length s)
  | PList l => Ok (List.length l)
  | PDict d => Ok (List.length d)
  | _ => Raises (type_error ("object of type '" ++ type_name v ++ "' has no len()"))
  end.

(** [v[:n]] inside an f-string: text and lists can be sliced, the rest
    raises. *)
Definition slice_to (n : nat) (v : pyval) : outcome pyval :=
  match v with
  | PStr s => Ok (PStr (str_prefix n s))
  | PList l => Ok (PList (firstn n l))
  | PDict _ => Raises (type_error "unhashable type: 'slice'")
  | _ => Raises (type_error ("'" ++ type_name v ++ "' object is not subscriptable"))
  end.

(** The block that prepares a phase output for an embed:
    [if len(output) > 3500: output = output[:3500] + "\n\n... (truncated)"]
    followed by [output[:4096]]. *)
Definition embed_text (v : pyval) : outcome pyval :=
  match v with
  | PStr s =>
      let s' := if (3500 <? String.length s)%nat
                then str_prefix 3500 s ++ nl ++ nl ++ "... (truncated)" else s in
      Ok (PStr (str_prefix 4096 s'))
  | PList l =>
      if (3500 <? List.length l)%nat
      then Raises (type_error "can only concatenate list (not 'str') to list")
      else Ok (PList (firstn 4096 l))
  | PDict _ => Raises (type_error "unhashable type: 'slice'")
  | _ => Raises (type_error ("object of type '" ++ type_name v ++ "' has no len()"))
  end.

End Py.

(* ===================================================================== *)
(** * Session management                                                  *)
(* ===================================================================== *)

Module Sessions.

(** Instants are microseconds since the epoch. *)
Definition datetime := Z.

(** [ChannelSession] (a dataclass). *)
Record ChannelSession := mkChannelSession {
  session_id : string;
  channel_id : Z;
  created_at : datetime;
  last_used : datetime;
  message_count : Z;
  total_cost : Q
}.

(** [SessionManager].  [uuid_drawn] is not a field of the Python class: it
    counts how many values [uuid.uuid4()] has handed out so far, so that the
    next draw is the next element of the environment's stream. *)
Record SessionManager := mkSessionManager {
  sessions : gmap Z ChannelSession;
  session_timeout : Z;
  uuid_drawn : nat
}.

(** [SessionManager(session_timeout_minutes)] *)
Definition init (session_timeout_minutes : Z) : SessionManager :=
  {| sessions := ∅; session_timeout := session_timeout_minutes; uuid_drawn := 0 |}.

(** [(now - session.last_used).total_seconds() / 60] *)
Definition age_minutes (now : datetime) (s : ChannelSession) : Q :=
  ((inject_Z (now - last_used s) / inject_Z 1000000) / inject_Z 60)%Q.

(** [age_minutes < self.session_timeout] *)
Definition is_live (timeout : Z) (now : datetime) (s : ChannelSession) : bool :=
  negb (Qle_bool (inject_Z timeout) (age_minutes now s)).

Section WithUuid.

(** The values successive calls of [str(uuid.uuid4())] return. *)
Variable uuid4 : nat -> string.

(** [ChannelSession(session_id=.., channel_id=.., message_count=1)]; each of
    the two [default_factory] fields reads the clock on its own. *)
Definition new_session (tok : string) (c : Z) (t_created t_last : datetime) : ChannelSession :=
  {| session_id := tok; channel_id := c; created_at := t_created;
     last_used := t_last; message_count := 1; total_cost := 0 |}.

(** [get_or_create_session].  [now] is the clock reading at the top of the
    method, [t_created] and [t_last] the two readings of the constructor,
    which are only taken on the creation path. *)
Definition get_or_create_session (now t_created t_last : datetime) (c : Z)
    (m : SessionManager) : (string * bool) * SessionManager :=
  let create :=
    let new_session_id := uuid4 (uuid_drawn m) in
    ((new_session_id, false),
     {| sessions := <[c := new_session new_session_id c t_created t_last]> (sessions m);
        session_timeout := session_timeout m;
        uuid_drawn := S (uuid_drawn m) |}) in
  match sessions m !! c with
  | Some session =>
      if is_live (session_timeout m) now session then
        let session' :=
          {| session_id := session_id session; channel_id := channel_id session;
             created_at := created_at session; last_used := now;
             message_count := message_count session + 1;
             total_cost := total_cost session |} in
        ((session_id session, true),
         {| sessions := <[c := session']> (sessions m);
            session_timeout := session_timeout m;
            uuid_drawn := uuid_drawn m |})
      else create
  | None => create
  end.

(** [reset_session] *)
Definition reset_session (t_created t_last : datetime) (c : Z)
    (m : SessionManager) : string * SessionManager :=
  let new_session_id := uuid4 (uuid_drawn m) in
  (new_session_id,
   {| sessions := <[c := new_session new_session_id c t_created t_last]> (sessions m);
      session_timeout := session_timeout m;
      uuid_drawn := S (uuid_drawn m) |}).

(** [get_session_info]: a read; the manager is returned as it was. *)
Definition get_session_info (c : Z) (m : SessionManager)
    : option ChannelSession * SessionManager :=
  (sessions m !! c, m).

(** [update_cost] *)
Definition update_cost (c : Z) (cost : Q) (m : SessionManager) : SessionManager :=
  match sessions m !! c with
  | Some s =>
      {| sessions :=
           <[c := {| session_id := session_id s; channel_id := channel_id s;
                     created_at := created_at s; last_used := last_used s;
                     message_count := message_count s;
                     total_cost := (total_cost s + cost)%Q |}]> (sessions m);
         session_timeout := session_timeout m;
         uuid_drawn := uuid_drawn m |}
  | None => m
  end.

(** One call on a manager, with what the environment supplies to it. *)
Inductive call : Type :=
| GetOrCreate (now t_created t_last : datetime) (c : Z)
| Reset (t_created t_last : datetime) (c : Z)
| UpdateCost (c : Z) (cost : Q)
| GetInfo (c : Z).

Definition run_call (k : call) (m : SessionManager) : SessionManager :=
  match k with
  | GetOrCreate now tc tl c => snd (get_or_create_session now tc tl c m)
  | Reset tc tl c => snd (reset_session tc tl c m)
  | UpdateCost c cost => update_cost c cost m
  | GetInfo c => snd (get_session_info c m)
  end.

(** The managers a process can reach from a fresh one. *)
Inductive reachable (timeout : Z) : SessionManager -> Prop :=
| reach_init : reachable timeout (init timeout)
| reach_call k m : reachable timeout m -> reachable timeout (run_call k m).

Definition run_calls (ks : list call) (m : SessionManager) : SessionManager :=
  fold_left (fun m k => run_call k m) ks m.

(** Every stored token is one of the draws made so far. *)
Definition tokens_issued (m : SessionManager) : Prop :=
  forall c s, sessions m !! c = Some s ->
    exists i, (i < uuid_drawn m)%nat /\ session_id s = uuid4 i.

End WithUuid.

(** Every session sits under its own channel and has been used at least
    once. *)
Definition well_keyed (m : SessionManager) : Prop :=
  forall c s, sessions m !! c = Some s -> channel_id s = c /\ 1 <= message_count s.

(** What [get_session_info] and [update_cost] must leave alone. *)
Definition token_and_count (s : ChannelSession) : string * Z :=
  (session_id s, message_count s).

End Sessions.

(* ===================================================================== *)
(** * The approval view                                                   *)
(* ===================================================================== *)

Module Approval.

(** A Discord user, as the mention that names it. *)
Definition user := string.

(** [ApprovalView].  [finished] is the state [discord.ui.View] keeps for
    [stop()] and [wait()]; the other fields are those of [__init__]. *)
Record ApprovalView := mkApprovalView {
  action_description : string;
  command_to_run : Py.pyval;
  timeout : Z;
  approved : option bool;
  responder : option user;
  finished : bool
}.

(** [ApprovalView(action_description, command_to_run, timeout)] *)
Definition init (action : string) (command : Py.pyval) (timeout : Z) : ApprovalView :=
  {| action_description := action; command_to_run := command; timeout := timeout;
     approved := None; responder := None; finished := false |}.

Definition set_decision (b : bool) (u : option user) (v : ApprovalView) : ApprovalView :=
  {| action_description := action_description v; command_to_run := command_to_run v;
     timeout := timeout v; approved := Some b; responder := u; finished := finished v |}.

(** [self.stop()] *)
Definition stop (v : ApprovalView) : ApprovalView :=
  {| action_description := action_description v; command_to_run := command_to_run v;
     timeout := timeout v; approved := approved v; responder := responder v;
     finished := true |}.

(** [approve_button]: the decision is stored, the confirmation is sent, and
    only then is the view stopped; [sent] tells whether Discord accepted the
    confirmation (when it did not, the handler raised before [stop()]). *)
Definition approve_button (u : user) (sent : bool) (v : ApprovalView) : ApprovalView :=
  let v' := set_decision true (Some u) v in
  if sent then stop v' else v'.

(** [deny_button] *)
Definition deny_button (u : user) (sent : bool) (v : ApprovalView) : ApprovalView :=
  let v' := set_decision false (Some u) v in
  if sent then stop v' else v'.

(** [details_button]: an ephemeral message, no change of state. *)
Definition details_button (u : user) (sent : bool) (v : ApprovalView) : ApprovalView := v.

(** [on_timeout]: only [approved] is written. *)
Definition on_timeout (v : ApprovalView) : ApprovalView :=
  {| action_description := action_description v; command_to_run := command_to_run v;
     timeout := timeout v; approved := Some false; responder := responder v;
     finished := finished v |}.

(** A button press reaching the view before its deadline. *)
Inductive click : Type :=
| ClickApprove (u : user) (sent : bool)
| ClickDeny (u : user) (sent : bool)
| ClickDetails (u : user) (sent : bool).

Definition is_decision (k : click) : bool :=
  match k with
  | ClickApprove _ _ | ClickDeny _ _ => true
  | ClickDetails _ _ => false
  end.

Definition handle (k : click) (v : ApprovalView) : ApprovalView :=
  match k with
  | ClickApprove u sent => approve_button u sent v
  | ClickDeny u sent => deny_button u sent v
  | ClickDetails u sent => details_button u sent v
  end.

(** Discord dispatches presses to a view until it is finished. *)
Fixpoint deliver (ks : list click) (v : ApprovalView) : ApprovalView :=
  match ks with
  | [] => v
  | k :: ks' => if finished v then v else deliver ks' (handle k v)
  end.

(** What the command that awaited [view.wait()] finds, and what the view
    is once everything pending has run.  [ks] are the presses made before
    the deadline.  When none of them stopped the view the deadline fires:
    the library wakes the waiter and schedules [on_timeout];
    [timeout_first] says whether [on_timeout] ran before the waiter looked
    at the view. *)
Record waited := mkWaited {
  seen : ApprovalView;
  final : ApprovalView;
  timed_out : bool
}.

Definition wait (ks : list click) (timeout_first : bool) (v : ApprovalView) : waited :=
  let v' := deliver ks v in
  if finished v' then {| seen := v'; final := v'; timed_out := false |}
  else {| seen := if timeout_first then on_timeout v' else v';
          final := on_timeout v'; timed_out := true |}.

End Approval.

(* ===================================================================== *)
(** * Configuration                                                       *)
(* ===================================================================== *)

Module Config.

(** The fields of [Config] the agent logic reads. *)
Record Config := mkConfig {
  environment : string;
  codebase_path : string;
  auto_respond : bool;
  auto_remediate : bool
}.

Definition lower_ascii (a : ascii) : ascii :=
  let n := nat_of_ascii a in
  if ((65 <=? n) && (n <=? 90))%nat then ascii_of_nat (n + 32) else a.

(** [str.lower()], on ASCII text. *)
Fixpoint lower (s : string) : string :=
  match s with
  | EmptyString => EmptyString
  | String a s' => String (lower_ascii a) (lower s')
  end.

(** [allow_edit_tools]: [self.environment.lower() == "dev"] *)
Definition allow_edit_tools (c : Config) : bool :=
  String.eqb (lower (environment c)) "dev".

Definition set_auto_remediate (b : bool) (c : Config) : Config :=
  {| environment := environment c; codebase_path := codebase_path c;
     auto_respond := auto_respond c; auto_remediate := b |}.

End Config.

(* ===================================================================== *)
(** * The executor                                                        *)
(* ===================================================================== *)

Module Executor.
Import Py.

(** ** The world the executor acts on *)

Inductive proc_status : Type :=
| Running
| Exited (returncode : Z).

Record process := mkProcess {
  p_cmd : list string;
  p_cwd : string;
  p_status : proc_status
}.

(** Files present in the temporary directory, the child processes started
    so far (a process id is a position in [procs]) and the clock, in
    microseconds. *)
Record world := mkWorld {
  files : gset string;
  procs : list process;
  clock : Z
}.

(** The child [pid] has ended. *)
Definition terminated (w : world) (pid : nat) : Prop :=
  exists p rc, procs w !! pid = Some p /\ p_status p = Exited rc.

Definition set_status (pid : nat) (st : proc_status) (ps : list process) : list process :=
  match ps !! pid with
  | Some p => <[pid := {| p_cmd := p_cmd p; p_cwd := p_cwd p; p_status := st |}]> ps
  | None => ps
  end.

(** What the environment does during one call of [execute]. *)
Record call_env := mkCallEnv {
  (** [tempfile.NamedTemporaryFile(..., delete=False)]: the name of the file
      it created, or the exception it raised *)
  tmp_create : outcome string;
  (** [write] and [close] of the system prompt *)
  tmp_write : option exn;
  (** [asyncio.create_subprocess_exec] *)
  spawn : option exn;
  (** the child: microseconds it runs for, what it prints, how it exits *)
  run_us : Z;
  stdout_text : string;
  stderr_text : string;
  returncode : Z;
  (** [os.unlink] of the system prompt file *)
  unlink : option exn
}.

(** The parameters of [execute]; [max_budget_usd] is kept as [str()] prints
    the float. *)
Record exec_args := mkExecArgs {
  prompt : string;
  allowed_tools : option (list string);
  disallowed_tools : option (list string);
  max_budget_usd : string;
  timeout : Z;
  skip_permissions : bool;
  session_id : option string;
  resume_session : bool
}.

(** The defaults of the signature of [execute]. *)
Definition default_args (p : string) : exec_args :=
  {| prompt := p; allowed_tools := None; disallowed_tools := None;
     max_budget_usd := "1.0"; timeout := 450; skip_permissions := false;
     session_id := None; resume_session := false |}.

Definition nonempty_str (o : option string) : bool :=
  match o with
  | Some s => negb (String.length s =? 0)%nat
  | None => false
  end.

Definition nonempty_list (o : option (list string)) : bool :=
  match o with
  | Some l => negb (List.length l =? 0)%nat
  | None => false
  end.

Definition from_opt {A} (d : A) (o : option A) : A :=
  match o with Some a => a | None => d end.

(** [_get_disallowed_tools] *)
Definition _get_disallowed_tools (cfg : Config.Config) : option (list string) :=
  let always_disallowed := ["AskUserQuestion"] in
  if Config.allow_edit_tools cfg
  then Some always_disallowed
  else Some (always_disallowed ++ ["Write"; "Edit"; "MultiEdit"])%list.

(** The argument list up to the budget, in the order the source appends. *)
Definition build_cmd (a : exec_args) : list string :=
  (["claude"; "--print"; "--output-format"; "json"]
   ++ (if resume_session a && nonempty_str (session_id a) then ["-r"] else [])
   ++ (if nonempty_str (session_id a)
       then ["--session-id"; from_opt EmptyString (session_id a)] else [])
   ++ (if skip_permissions a then ["--dangerously-skip-permissions"] else [])
   ++ ["--max-turns"; "15"]
   ++ ["--model"; "claude-opus-4-5-20250514"]
   ++ (if nonempty_list (allowed_tools a)
       then ["--allowedTools"; join "," (from_opt [] (allowed_tools a))] else [])
   ++ (if nonempty_list (disallowed_tools a)
       then ["--disallowedTools"; join "," (from_opt [] (disallowed_tools a))] else [])
   ++ ["--max-budget-usd"; max_budget_usd a])%list.

(** The argument list the child is started with. *)
Definition full_cmd (a : exec_args) (env : call_env) (name : string) : list string :=
  ((match tmp_write env with
    | None => build_cmd a ++ ["--system-prompt"; name]
    | Some _ => build_cmd a
    end) ++ [prompt a])%list.

(** The value that follows [flag] in an argument list. *)
Fixpoint arg_of (flag : string) (cmd : list string) : option string :=
  match cmd with
  | f :: rest =>
      if String.eqb f flag
      then match rest with v :: _ => Some v | [] => None end
      else arg_of flag rest
  | [] => None
  end.

(** ** Result dictionaries *)

Abbreviation result := (gmap string pyval).

(** [result.get(k, default)] *)
Definition get (r : result) (k : string) (default : pyval) : pyval :=
  match r !! k with Some v => v | None => default end.

(** [result[k]] *)
Definition item (r : result) (k : string) : outcome pyval :=
  match r !! k with
  | Some v => Ok v
  | None => Raises (mkExn (OtherException "KeyError") ("'" ++ k ++ "'"))
  end.

(** [result['success']] as a condition; every dictionary [execute] builds
    has the key. *)
Definition succeeded (r : result) : bool := truthy (get r "success" PNone).

(** The three [except] clauses of [execute]. *)
Definition on_exception (timeout : Z) (e : exn) : result :=
  match exn_cls e with
  | TimeoutError =>
      list_to_map
        [("success", PBool false); ("output", PStr EmptyString);
         ("error", PStr ("Claude CLI timed out after " ++ str_of_int timeout ++ " seconds"))]
  | FileNotFoundError =>
      list_to_map
        [("success", PBool false); ("output", PStr EmptyString);
         ("error", PStr "Claude CLI not found. Ensure it is installed and in PATH.")]
  | OtherException _ =>
      list_to_map
        [("success", PBool false); ("output", PStr EmptyString);
         ("error", PStr (exn_msg e))]
  end.

(** What [json.loads] does with a text. *)
Inductive json_outcome : Type :=
| Decoded (v : pyval)
| JSONDecodeError
| DecodeRaises (e : exn).

(** [asyncio.wait_for(process.communicate(), timeout)]: the child is
    awaited for at most [timeout] seconds. *)
Definition completes_in_time (env : call_env) (timeout : Z) : bool :=
  run_us env <? timeout * 1000000.

Section WithJson.

(** [json.loads], a function of the standard library. *)
Variable json_loads : string -> json_outcome.

(** The message of the decode-failure path. *)
Definition error_msg (env : call_env) : pyval :=
  let error_msg := if (String.length (stderr_text env) =? 0)%nat
                   then PNone else PStr (stderr_text env) in
  if negb (returncode env =? 0) && negb (truthy error_msg) then
    if negb (String.length (stdout_text env) =? 0)%nat
    then PStr ("Command failed (exit code " ++ str_of_int (returncode env)
               ++ "). Output: " ++ str_prefix 500 (stdout_text env))
    else PStr ("Command failed with exit code " ++ str_of_int (returncode env))
  else error_msg.

(** The part of [execute] after the temporary file was removed: decoding
    the output of a child that has exited. *)
Definition parse_output (a : exec_args) (env : call_env) : result :=
  match json_loads (stdout_text env) with
  | Decoded (PDict d) =>
      list_to_map
        [("success", PBool (returncode env =? 0));
         ("output", dict_get d "result" (PStr (stdout_text env)));
         ("cost", dict_get d "cost_usd" (PInt 0));
         ("session_id", dict_get d "session_id" (PStr EmptyString));
         ("num_turns", dict_get d "num_turns" (PInt 0));
         ("raw", PDict d)]
  | Decoded v =>
      on_exception (timeout a)
        (mkExn (OtherException "AttributeError")
               ("'" ++ type_name v ++ "' object has no attribute 'get'"))
  | JSONDecodeError =>
      list_to_map
        [("success", PBool (returncode env =? 0));
         ("output", PStr (stdout_text env));
         ("cost", PInt 0);
         ("session_id", PStr EmptyString);
         ("error", error_msg env)]
  | DecodeRaises e => on_exception (timeout a) e
  end.

(** [execute].  [cwd] is [str(self.codebase_path)]. *)
Definition execute (cwd : string) (a : exec_args) (env : call_env) (w : world)
    : result * world :=
  let cmd := build_cmd a in
  match tmp_create env with
  | Raises e => (on_exception (timeout a) e, w)
  | Ok name =>
      let w1 := {| files := {[name]} ∪ files w; procs := procs w; clock := clock w |} in
      let cmd := match tmp_write env with
                 | None => (cmd ++ ["--system-prompt"; name])%list
                 | Some _ => cmd
                 end in
      let cmd := (cmd ++ [prompt a])%list in
      match spawn env with
      | Some e => (on_exception (timeout a) e, w1)
      | None =>
          let pid := List.length (procs w1) in
          let child := {| p_cmd := cmd; p_cwd := cwd; p_status := Running |} in
          let w2 := {| files := files w1; procs := (procs w1 ++ [child])%list;
                       clock := clock w1 |} in
          if completes_in_time env (timeout a) then
            let w3 := {| files := files w2;
                         procs := set_status pid (Exited (returncode env)) (procs w2);
                         clock := clock w2 + run_us env |} in
            let w4 := match unlink env with
                      | None => {| files := files w3 ∖ {[name]}; procs := procs w3;
                                   clock := clock w3 |}
                      | Some _ => w3
                      end in
            (parse_output a env, w4)
          else
            let w3 := {| files := files w2; procs := procs w2;
                         clock := clock w2 + Z.max 0 (timeout a * 1000000) |} in
            (on_exception (timeout a) (mkExn TimeoutError EmptyString), w3)
      end
  end.

End WithJson.

End Executor.

(* ===================================================================== *)
(** * Calendar time, for [strftime]                                       *)
(* ===================================================================== *)

Module Calendar.

(** Days since 1970-01-01 to (year, month, day) in the proleptic Gregorian
    calendar, which is the calendar of [datetime]. *)
Definition civil_from_days (days : Z) : Z * Z * Z :=
  let z := days + 719468 in
  let era := z / 146097 in
  let doe := z - era * 146097 in
  let yoe := (doe - doe / 1460 + doe / 36524 - doe / 146096) / 365 in
  let y := yoe + era * 400 in
  let doy := doe - (365 * yoe + yoe / 4 - yoe / 100) in
  let mp := (5 * doy + 2) / 153 in
  let d := doy - (153 * mp + 2) / 5 + 1 in
  let m := if mp <? 10 then mp + 3 else mp - 9 in
  (if m <=? 2 then y + 1 else y, m, d).

Definition pad2 (n : Z) : string :=
  if n <? 10 then "0" ++ Py.str_of_int n else Py.str_of_int n.

Definition pad4 (n : Z) : string :=
  if n <? 10 then "000" ++ Py.str_of_int n
  else if n <? 100 then "00" ++ Py.str_of_int n
  else if n <? 1000 then "0" ++ Py.str_of_int n
  else Py.str_of_int n.

(** [t.strftime('%Y%m%d%H%M%S')] for an instant [t] in microseconds, UTC. *)
Definition strftime_YmdHMS (t : Z) : string :=
  let secs := t / 1000000 in
  let days := secs / 86400 in
  let rem := secs mod 86400 in
  let '(y, m, d) := civil_from_days days in
  pad4 y ++ pad2 m ++ pad2 d
  ++ pad2 (rem / 3600) ++ pad2 ((rem mod 3600) / 60) ++ pad2 (rem mod 60).

End Calendar.

(* ===================================================================== *)
(** * The agent                                                           *)
(* ===================================================================== *)

Module Agent.
Import Py.

(** [alert_data], the dictionary [_parse_alert] builds. *)
Record alert := mkAlert {
  title : string;
  level : string;
  description : string;
  channel : string;
  fields : list (string * string);
  timestamp : string
}.

(** Where the agent reports on an incident: the thread it opened on the
    alert, or the alert's channel when the thread could not be opened. *)
Inductive thread_ref : Type :=
| IncidentThread (incident_id : string)
| SourceChannel.

(** An entry of [active_incidents]. *)
Record incident := mkIncident {
  inc_id : string;
  inc_alert : alert;
  status : string;
  started_at : Z;
  thread : option thread_ref;
  cost_usd : Q
}.

(** The state of [OracleAgent] the incident logic and the commands use. *)
Record OracleAgent := mkOracleAgent {
  config : Config.Config;
  active_incidents : gmap string incident;
  auto_respond : bool;
  total_cost_usd : Q;
  session_manager : Sessions.SessionManager
}.

(** [OracleAgent(config)] *)
Definition init (cfg : Config.Config) : OracleAgent :=
  {| config := cfg; active_incidents := ∅;
     auto_respond := Config.auto_respond cfg; total_cost_usd := 0;
     session_manager := Sessions.init 30 |}.

(** The prompt texts: each f-string of the source as a function of what it
    interpolates. *)
Record templates := mkTemplates {
  investigate_prompt : alert -> string;
  diagnostics_prompt : alert -> pyval -> string;
  remediation_prompt : alert -> pyval -> string;
  conversation_prompt : bool -> string -> string -> string;
  analysis_prompt : string -> string;
  execute_prompt : string -> string
}.

(** What the agent did to the outside, in order. *)
Inductive event : Type :=
| Executed (a : Executor.exec_args)
| Sent (label : string)
| Scheduled (incident_id : string).

(** The agent, the world, the views it opened, and how far it has consumed
    its environment. *)
Record state := mkState {
  bot : OracleAgent;
  world : Executor.world;
  views : list Approval.ApprovalView;
  n_exec : nat;
  n_discord : nat;
  log : list event
}.

(** The environment of a run: what happens at the k-th call of [execute],
    and whether the k-th call to Discord raises. *)
Record environment := mkEnvironment {
  exec_env : nat -> Executor.call_env;
  discord_env : nat -> option exn
}.

Definition with_bot (f : OracleAgent -> OracleAgent) (st : state) : state :=
  {| bot := f (bot st); world := world st; views := views st;
     n_exec := n_exec st; n_discord := n_discord st; log := log st |}.

Definition set_incidents (m : gmap string incident) (b : OracleAgent) : OracleAgent :=
  {| config := config b; active_incidents := m;
     auto_respond := auto_respond b; total_cost_usd := total_cost_usd b;
     session_manager := session_manager b |}.

Definition set_total_cost (q : Q) (b : OracleAgent) : OracleAgent :=
  {| config := config b; active_incidents := active_incidents b;
     auto_respond := auto_respond b; total_cost_usd := q;
     session_manager := session_manager b |}.

Definition set_session_manager (m : Sessions.SessionManager) (b : OracleAgent) : OracleAgent :=
  {| config := config b; active_incidents := active_incidents b;
     auto_respond := auto_respond b; total_cost_usd := total_cost_usd b;
     session_manager := m |}.

Definition set_status (s : string) (i : incident) : incident :=
  {| inc_id := inc_id i; inc_alert := inc_alert i; status := s;
     started_at := started_at i; thread := thread i; cost_usd := cost_usd i |}.

Definition set_thread (t : thread_ref) (i : incident) : incident :=
  {| inc_id := inc_id i; inc_alert := inc_alert i; status := status i;
     started_at := started_at i; thread := Some t; cost_usd := cost_usd i |}.

Definition set_cost (q : Q) (i : incident) : incident :=
  {| inc_id := inc_id i; inc_alert := inc_alert i; status := status i;
     started_at := started_at i; thread := thread i; cost_usd := q |}.

(** The calls of [execute] among the events of a log. *)
Definition executions (l : list event) : list Executor.exec_args :=
  omap (fun e => match e with Executed a => Some a | _ => None end) l.

(** ** A state and exception monad *)

Definition M (A : Type) : Type := state -> outcome A * state.

Definition ret {A} (a : A) : M A := fun st => (Ok a, st).

Definition raise {A} (e : exn) : M A := fun st => (Raises e, st).

Definition bind {A B} (m : M A) (k : A -> M B) : M B :=
  fun st => match m st with
            | (Ok a, st') => k a st'
            | (Raises e, st') => (Raises e, st')
            end.

(** [try: m  except Exception as e: h e] *)
Definition try_except {A} (m : M A) (h : exn -> M A) : M A :=
  fun st => match m st with
            | (Ok a, st') => (Ok a, st')
            | (Raises e, st') => h e st'
            end.

Definition lift {A} (o : outcome A) : M A := fun st => (o, st).

Definition read {A} (f : state -> A) : M A := fun st => (Ok (f st), st).

Definition modify (f : state -> state) : M unit := fun st => (Ok tt, f st).

Declare Scope agent_scope.
Delimit Scope agent_scope with agent.
Notation "x <- m ;; k" := (bind m (fun x => k))
  (at level 100, m at next level, right associativity) : agent_scope.
Notation "m ;;; k" := (bind m (fun _ => k))
  (at level 100, right associativity) : agent_scope.
Local Open Scope agent_scope.

Section WithEnvironment.

Variable json_loads : string -> Executor.json_outcome.
Variable uuid4 : nat -> string.
Variable tpl : templates.
Variable env : environment.

(** One awaited call to Discord ([send], [create_thread], [defer], ...):
    it goes through or raises, as the environment has it. *)
Definition discord (label : string) : M unit :=
  fun st =>
    let st' := {| bot := bot st; world := world st; views := views st;
                  n_exec := n_exec st; n_discord := S (n_discord st);
                  log := log st |} in
    match discord_env env (n_discord st) with
    | Some e => (Raises e, st')
    | None => (Ok tt,
               {| bot := bot st'; world := world st'; views := views st';
                  n_exec := n_exec st'; n_discord := n_discord st';
                  log := (log st' ++ [Sent label])%list |})
    end.

(** [await self.claude_executor.execute(...)] *)
Definition execute (a : Executor.exec_args) : M Executor.result :=
  fun st =>
    let '(r, w') :=
      Executor.execute json_loads (Config.codebase_path (config (bot st))) a
        (exec_env env (n_exec st)) (world st) in
    (Ok r,
     {| bot := bot st; world := w'; views := views st;
        n_exec := S (n_exec st); n_discord := n_discord st;
        log := (log st ++ [Executed a])%list |}).

Definition get_config : M Config.Config := read (fun st => config (bot st)).

(** The arguments of each call of [execute] in the source. *)

(** in [investigate_alert] *)
Definition investigate_args (cfg : Config.Config) (alert_data : alert) : Executor.exec_args :=
  {| Executor.prompt := investigate_prompt tpl alert_data;
     Executor.allowed_tools := None;
     Executor.disallowed_tools := Executor._get_disallowed_tools cfg;
     Executor.max_budget_usd := "1.0";
     Executor.timeout := 180;
     Executor.skip_permissions := false;
     Executor.session_id := None;
     Executor.resume_session := false |}.

(** in [run_diagnostics]; [shown] is [analysis[:3000]] *)
Definition diagnostics_args (cfg : Config.Config) (alert_data : alert) (shown : pyval)
    : Executor.exec_args :=
  {| Executor.prompt := diagnostics_prompt tpl alert_data shown;
     Executor.allowed_tools := Some ["Read"; "Glob"; "Grep"; "Bash"];
     Executor.disallowed_tools := Executor._get_disallowed_tools cfg;
     Executor.max_budget_usd := "1.0";
     Executor.timeout := 120;
     Executor.skip_permissions := false;
     Executor.session_id := None;
     Executor.resume_session := false |}.

(** in [attempt_remediation]; [shown] is [diagnostics[:3000]] *)
Definition remediation_args (cfg : Config.Config) (alert_data : alert) (shown : pyval)
    : Executor.exec_args :=
  {| Executor.prompt := remediation_prompt tpl alert_data shown;
     Executor.allowed_tools := Some ["Read"; "Glob"; "Grep"; "Bash"];
     Executor.disallowed_tools := Executor._get_disallowed_tools cfg;
     Executor.max_budget_usd := "1.0";
     Executor.timeout := 120;
     Executor.skip_permissions := false;
     Executor.session_id := None;
     Executor.resume_session := false |}.

(** in [_handle_agent_conversation] *)
Definition conversation_args (cfg : Config.Config) (author content : string)
    (session_id : string) (is_resume : bool) : Executor.exec_args :=
  {| Executor.prompt :=
       conversation_prompt tpl (Config.allow_edit_tools cfg) author content;
     Executor.allowed_tools := None;
     Executor.disallowed_tools := Executor._get_disallowed_tools cfg;
     Executor.max_budget_usd := "1.0";
     Executor.timeout := 180;
     Executor.skip_permissions := false;
     Executor.session_id := Some session_id;
     Executor.resume_session := is_resume |}.

(** in [remediate_command], phase 1 (analysis) *)
Definition analysis_args (action : string) : Executor.exec_args :=
  {| Executor.prompt := analysis_prompt tpl action;
     Executor.allowed_tools := None;
     Executor.disallowed_tools := Some ["Write"; "Edit"; "MultiEdit"];
     Executor.max_budget_usd := "0.05";
     Executor.timeout := 120;
     Executor.skip_permissions := true;
     Executor.session_id := None;
     Executor.resume_session := false |}.

(** in [remediate_command], phase 3 (execution) *)
Definition remediation_exec_args (cfg : Config.Config) (action : string)
    : Executor.exec_args :=
  {| Executor.prompt := execute_prompt tpl action;
     Executor.allowed_tools := None;
     Executor.disallowed_tools := Executor._get_disallowed_tools cfg;
     Executor.max_budget_usd := "0.1";
     Executor.timeout := 300;
     Executor.skip_permissions := true;
     Executor.session_id := None;
     Executor.resume_session := false |}.

(** The call of [execute] that step 1 of a run on the incident [i] makes,
    with its result. *)
Definition first_call (i : incident) (st : state) : Executor.result * Executor.world :=
  Executor.execute json_loads (Config.codebase_path (config (bot st)))
    (investigate_args (config (bot st)) (inc_alert i))
    (exec_env env (n_exec st)) (world st).

(** [investigate_alert] *)
Definition investigate_alert (alert_data : alert) : M Executor.result :=
  cfg <- get_config ;;
  execute (investigate_args cfg alert_data).

(** [run_diagnostics] *)
Definition run_diagnostics (alert_data : alert) (analysis : pyval) : M Executor.result :=
  shown <- lift (slice_to 3000 analysis) ;;
  cfg <- get_config ;;
  execute (diagnostics_args cfg alert_data shown).

(** [attempt_remediation], as the agent calls it (no approved actions). *)
Definition attempt_remediation (alert_data : alert) (diagnostics : pyval)
    : M Executor.result :=
  shown <- lift (slice_to 3000 diagnostics) ;;
  cfg <- get_config ;;
  execute (remediation_args cfg alert_data shown).

(** [incident['cost_usd'] += v] on the entry of [incident_id] *)
Definition add_incident_cost (incident_id : string) (v : pyval) : M unit :=
  fun st =>
    match active_incidents (bot st) !! incident_id with
    | None => (Ok tt, st)
    | Some i =>
        match float_add (cost_usd i) v with
        | Raises e => (Raises e, st)
        | Ok q =>
            (Ok tt, with_bot (set_incidents
                      (<[incident_id := set_cost q i]> (active_incidents (bot st)))) st)
        end
    end.

(** [incident['status'] = s] *)
Definition set_incident_status (incident_id : string) (s : string) : M unit :=
  modify (with_bot (fun b =>
    set_incidents (alter (set_status s) incident_id (active_incidents b)) b)).

(** [self.total_cost_usd += v] *)
Definition add_total_cost (v : pyval) : M unit :=
  fun st =>
    match float_add (total_cost_usd (bot st)) v with
    | Raises e => (Raises e, st)
    | Ok q => (Ok tt, with_bot (set_total_cost q) st)
    end.

(** [a or b] *)
Definition py_or (a b : pyval) : pyval := if truthy a then a else b.

(** Posts the output of a successful phase, or the issue of a failed one. *)
Definition report_phase (r : Executor.result) (ok_label issue_label : string) : M unit :=
  if Executor.succeeded r then
    output <- lift (Executor.item r "output") ;;
    _ <- lift (embed_text output) ;;
    discord ok_label
  else discord issue_label.

(** Steps 2 and 3 and the summary of [_investigate_incident], which run
    once step 1 has succeeded. *)
Definition after_investigation (incident_id : string) (alert_data : alert)
    (investigation : Executor.result) : M unit :=
  discord "Step 2" ;;;
  analysis <- lift (Executor.item investigation "output") ;;
  diagnostics <- run_diagnostics alert_data analysis ;;
  add_incident_cost incident_id (Executor.get diagnostics "cost" (PInt 0)) ;;;
  report_phase diagnostics "Diagnostic Results" "Diagnostics issue" ;;;
  cfg <- get_config ;;
  (if Config.auto_remediate cfg then
     discord "Step 3" ;;;
     remediation <- attempt_remediation alert_data
                      (py_or (Executor.get diagnostics "output" (PStr EmptyString))
                             (Executor.get investigation "output" (PStr EmptyString))) ;;
     add_incident_cost incident_id (Executor.get remediation "cost" (PInt 0)) ;;;
     report_phase remediation "Remediation Results" "Remediation Issue" ;;;
     set_incident_status incident_id
       (if Executor.succeeded remediation then "resolved" else "needs_review")
   else
     discord "Manual Action Required" ;;;
     set_incident_status incident_id "needs_action") ;;;
  cost <- read (fun st =>
            match active_incidents (bot st) !! incident_id with
            | Some i => cost_usd i
            | None => 0%Q
            end) ;;
  modify (with_bot (fun b => set_total_cost (total_cost_usd b + cost)%Q b)) ;;;
  discord "Incident Summary".

(** [_investigate_incident] *)
Definition _investigate_incident (incident_id : string) : M unit :=
  found <- read (fun st => active_incidents (bot st) !! incident_id) ;;
  match found with
  | None => ret tt
  | Some incident =>
      let alert_data := inc_alert incident in
      try_except
        (discord "Step 1" ;;;
         investigation <- investigate_alert alert_data ;;
         add_incident_cost incident_id (Executor.get investigation "cost" (PInt 0)) ;;;
         if Executor.succeeded investigation then
           output <- lift (Executor.item investigation "output") ;;
           _ <- lift (embed_text output) ;;
           discord "Initial Analysis" ;;;
           after_investigation incident_id alert_data investigation
         else
           discord "Investigation Issue")
        (fun e =>
           discord "Investigation Error" ;;;
           set_incident_status incident_id "error")
  end.

(** [self.active_incidents[incident_id]['thread'] = t] *)
Definition set_incident_thread (incident_id : string) (t : thread_ref) : M unit :=
  modify (with_bot (fun b =>
    set_incidents (alter (set_thread t) incident_id (active_incidents b)) b)).

(** The identifier [handle_alert] gives an incident created at [now]. *)
Definition incident_id_at (now : Z) : string := "INC-" ++ Calendar.strftime_YmdHMS now.

(** [handle_alert].  [parsed] is what [_parse_alert(message)] returned,
    [now_id] and [now_started] the two clock readings, the first of which
    names the incident. *)
Definition handle_alert (parsed : option alert) (now_id now_started : Z)
    : M (option string) :=
  match parsed with
  | None => ret None
  | Some alert_data =>
      let incident_id := incident_id_at now_id in
      modify (with_bot (fun b =>
        set_incidents
          (<[incident_id :=
               {| inc_id := incident_id; inc_alert := alert_data;
                  status := "investigating"; started_at := now_started;
                  thread := None; cost_usd := 0 |}]> (active_incidents b)) b)) ;;;
      try_except
        (discord "create_thread" ;;;
         set_incident_thread incident_id (IncidentThread incident_id) ;;;
         discord "Claude AI Agent Investigating")
        (fun _ => set_incident_thread incident_id SourceChannel) ;;;
      auto <- read (fun st => auto_respond (bot st)) ;;
      (if auto : bool then
         modify (fun st =>
           {| bot := bot st; world := world st; views := views st;
              n_exec := n_exec st; n_discord := n_discord st;
              log := (log st ++ [Scheduled incident_id])%list |})
       else discord "Auto-respond is disabled") ;;;
      ret (Some incident_id)
  end.

(** Sends one message per label, in order. *)
Fixpoint discord_all (labels : list string) : M unit :=
  match labels with
  | [] => ret tt
  | l :: ls => discord l ;;; discord_all ls
  end.

(** The replies of a conversation turn for an output of length [n]: one
    message up to 1900 characters, otherwise chunks of 1900, at most five
    of them, and a marker when more remain. *)
Definition reply_labels (n : nat) : list string :=
  if (1900 <? n)%nat then
    let chunks := ((n + 1899) / 1900)%nat in
    (["reply chunk"] ++ repeat "send chunk" (Nat.min chunks 5 - 1)
     ++ (if (5 <? chunks)%nat then ["... (response truncated)"] else []))%list
  else ["reply"].

(** [_handle_agent_conversation].  [author] and [content] are those of the
    message, [c] its channel; the three instants are the clock readings of
    [get_or_create_session]. *)
Definition _handle_agent_conversation (author content : string) (c : Z)
    (now t_created t_last : Z) : M unit :=
  discord "typing" ;;;
  mgr <- read (fun st => session_manager (bot st)) ;;
  let '((session_id, is_resume), mgr') :=
    Sessions.get_or_create_session uuid4 now t_created t_last c mgr in
  modify (with_bot (set_session_manager mgr')) ;;;
  cfg <- get_config ;;
  result <- execute (conversation_args cfg author content session_id is_resume) ;;
  let cost := Executor.get result "cost" (PInt 0) in
  add_total_cost cost ;;;
  modify (with_bot (fun b =>
    set_session_manager
      (Sessions.update_cost c (Executor.from_opt 0%Q (as_number cost))
         (session_manager b)) b)) ;;;
  if Executor.succeeded result then
    output <- lift (Executor.item result "output") ;;
    n <- lift (py_len output) ;;
    discord_all (reply_labels n) ;;;
    (if is_positive cost then discord "cost footer" else ret tt)
  else discord "reply error".

(** Bookkeeping of the model, with no counterpart in the source: keeps the
    view a command created, as it is once the command and the callbacks of
    the view have run, so that its final state can be inspected. *)
Definition record_view (v : Approval.ApprovalView) : M unit :=
  modify (fun st =>
    {| bot := bot st; world := world st; views := (views st ++ [v])%list;
       n_exec := n_exec st; n_discord := n_discord st; log := log st |}).

(** Phase 2 of [remediate_command]: who approved, if anyone did.  [None]
    is the [return] after the time-out notice. *)
Definition request_approval (invoker : Approval.user) (action : string)
    (skip_approval : bool) (analysis_output : pyval)
    (clicks : list Approval.click) (timeout_first : bool)
    : M (option (bool * option Approval.user)) :=
  if skip_approval then ret (Some (true, Some invoker))
  else
    _ <- lift (slice_to 2000 analysis_output) ;;
    command <- lift (slice_to 1900 analysis_output) ;;
    let view := Approval.init action command 300 in
    discord "Remediation Approval Required" ;;;
    let w := Approval.wait clicks timeout_first view in
    record_view (Approval.final w) ;;;
    match Approval.approved (Approval.seen w) with
    | None => discord "Approval timed out. Remediation cancelled." ;;; ret None
    | Some b => ret (Some (b, Approval.responder (Approval.seen w)))
    end.

(** [remediate_command].  [invoker] is [interaction.user]; [clicks] and
    [timeout_first] are what happens to the approval view while the command
    waits on it. *)
Definition remediate_command (invoker : Approval.user) (action : string)
    (skip_approval : bool) (clicks : list Approval.click) (timeout_first : bool)
    : M unit :=
  discord "defer" ;;;
  discord "Oracle Analyzing" ;;;
  analysis_result <- execute (analysis_args action) ;;
  add_total_cost (Executor.get analysis_result "cost" (PInt 0)) ;;;
  if negb (Executor.succeeded analysis_result) then discord "Analysis failed"
  else
    analysis_output <- lift (Executor.item analysis_result "output") ;;
    decision <- request_approval invoker action skip_approval analysis_output
                  clicks timeout_first ;;
    match decision with
    | None => ret tt
    | Some (false, _) => ret tt
    | Some (true, approver) =>
        _ <- match approver with
             | Some u => ret u
             | None => raise (mkExn (OtherException "AttributeError")
                                "'NoneType' object has no attribute 'mention'")
             end ;;
        discord "Executing Remediation" ;;;
        cfg <- get_config ;;
        exec_result <- execute (remediation_exec_args cfg action) ;;
        add_total_cost (Executor.get exec_result "cost" (PInt 0)) ;;;
        (if Executor.succeeded exec_result then
           output <- lift (Executor.item exec_result "output") ;;
           _ <- lift (slice_to 1800 output) ;;
           ret tt
         else ret tt) ;;;
        discord "Remediation result"
    end.

End WithEnvironment.

End Agent.


(* ===================================================================== *)
(** * Vocabulary for the properties of the session manager               *)
(* ===================================================================== *)

Module SessionCalls.

(** The channel a call is made for. *)
Definition channel_of (k : Sessions.call) : Z :=
  match k with
  | Sessions.GetOrCreate _ _ _ c => c
  | Sessions.Reset _ _ c => c
  | Sessions.UpdateCost c _ => c
  | Sessions.GetInfo c => c
  end.

End SessionCalls.

(* ===================================================================== *)
(** * The approval view, continued                                        *)
(* ===================================================================== *)

Module ApprovalLogic.

Definition is_approve (k : Approval.click) : bool :=
  match k with
  | Approval.ClickApprove _ _ => true
  | _ => false
  end.


End ApprovalLogic.

(* ===================================================================== *)
(** * Reasoning about runs of the agent                                   *)
(* ===================================================================== *)

Module AgentLogic.
Import Py Agent.

(** [wp m Q E st]: run from [st], the computation [m] either returns a
    value and a state that satisfy [Q], or raises an exception in a state
    that satisfy [E]. *)
Definition wp {A} (m : M A) (Q : A -> state -> Prop) (E : exn -> state -> Prop)
    (st : state) : Prop :=
  match m st with
  | (Ok a, st') => Q a st'
  | (Raises e, st') => E e st'
  end.

(** The states the primitive steps lead to. *)

(** a call to Discord was made and raised *)
Definition refused (st : state) : state :=
  {| bot := bot st; world := world st; views := views st;
     n_exec := n_exec st; n_discord := S (n_discord st); log := log st |}.

(** a call to Discord was made and went through *)
Definition sent (label : string) (st : state) : state :=
  {| bot := bot st; world := world st; views := views st;
     n_exec := n_exec st; n_discord := S (n_discord st);
     log := (log st ++ [Sent label])%list |}.

(** [execute] was called with [a] and left the world [w'] *)
Definition executed (a : Executor.exec_args) (w' : Executor.world) (st : state) : state :=
  {| bot := bot st; world := w'; views := views st;
     n_exec := S (n_exec st); n_discord := n_discord st;
     log := (log st ++ [Executed a])%list |}.

(** What a run of [_investigate_incident] on the incident [i], stored
    under [incident_id], may have changed between [st] and [st']: nothing
    but the cost and the status of that incident, the total cost, the world
    of the executor and the counters. *)
Definition investigation_frame (incident_id : string) (i : incident) (st st' : state) : Prop :=
  config (bot st') = config (bot st) /\
  auto_respond (bot st') = auto_respond (bot st) /\
  session_manager (bot st') = session_manager (bot st) /\
  views st' = views st /\
  (forall id', id' <> incident_id ->
     active_incidents (bot st') !! id' = active_incidents (bot st) !! id') /\
  exists i', active_incidents (bot st') !! incident_id = Some i' /\
             (inc_id i', inc_alert i', started_at i', thread i')
             = (inc_id i, inc_alert i, started_at i, thread i).

(** Where a run of [_investigate_incident] may leave the status of the
    incident, and how many calls of [execute] it may make, depending on
    the [auto_remediate] flag at its start. *)
Definition investigation_outcome (incident_id : string) (i : incident) (st st' : state) : Prop :=
  (exists i', active_incidents (bot st') !! incident_id = Some i' /\
     (status i' = status i \/ status i' = "error" \/
      (Config.auto_remediate (config (bot st)) = false /\ status i' = "needs_action") \/
      (Config.auto_remediate (config (bot st)) = true /\
       (status i' = "resolved" \/ status i' = "needs_review")))) /\
  (n_exec st <= n_exec st'
   <= n_exec st + (if Config.auto_remediate (config (bot st)) then 3 else 2))%nat.

(** The total cost after a run of [_investigate_incident]: untouched, with
    the status of the incident as it was or [error], or raised by the cost
    the incident has accumulated. *)
Definition investigation_ledger (incident_id : string) (i : incident) (st st' : state) : Prop :=
  exists i', active_incidents (bot st') !! incident_id = Some i' /\
    ((total_cost_usd (bot st') = total_cost_usd (bot st) /\
      (status i' = status i \/ status i' = "error")) \/
     (total_cost_usd (bot st') == total_cost_usd (bot st) + cost_usd i')%Q).

(** The analysis call of a run of [/remediate] started in [st], with its
    result: the two messages that precede it do not touch what it reads. *)
Definition analysis_call (json_loads : string -> Executor.json_outcome)
    (tpl : templates) (env : environment) (action : string) (st : state)
    : Executor.result * Executor.world :=
  Executor.execute json_loads (Config.codebase_path (config (bot st)))
    (analysis_args tpl action) (exec_env env (n_exec st)) (world st).

(** What a run of [/remediate] may have executed and opened between [st]
    and [st']: nothing, the analysis, or the analysis and the remediation,
    the latter only after a successful analysis and with the bypass or a
    press of approve; an approval view only without the bypass and after a
    successful analysis. *)
Definition remediation_gate (json_loads : string -> Executor.json_outcome)
    (tpl : templates) (env : environment) (action : string) (skip_approval : bool)
    (clicks : list Approval.click) (st st' : state) : Prop :=
  (exists l, executions (log st') = (executions (log st) ++ l)%list /\
     (l = [] \/ l = [analysis_args tpl action] \/
      (l = [analysis_args tpl action; remediation_exec_args tpl (config (bot st)) action] /\
       Executor.succeeded (fst (analysis_call json_loads tpl env action st)) = true /\
       (skip_approval = true \/ existsb ApprovalLogic.is_approve clicks = true)))) /\
  (views st' = views st \/
   (skip_approval = false /\
    Executor.succeeded (fst (analysis_call json_loads tpl env action st)) = true /\
    exists v, views st' = (views st ++ [v])%list)).


(** The investigations scheduled among the events of a log. *)
Definition scheduled (l : list event) : list string :=
  omap (fun e => match e with Scheduled id => Some id | _ => None end) l.

End AgentLogic.

(* ===================================================================== *)
(** * Long outputs                                                        *)
(* ===================================================================== *)

Module Text.
Import Py.

(** [[s[i:i+n] for i in range(0, len(s), n)]], the chunks of the replies
    and of the task results ([n] is 1900 there). *)
Definition chunks (n : nat) (s : string) : list string :=
  map (fun k => String.substring (k * n) n s)
      (seq 0 ((String.length s + n - 1) / n)).

(** The texts of the reply to a conversation turn whose output is the text
    [s]: the output itself up to 1900 characters, otherwise its first five
    chunks and a marker when more remain. *)
Definition reply_texts (s : string) : list string :=
  if (1900 <? String.length s)%nat then
    (firstn 5 (chunks 1900 s)
     ++ (if (5 <? List.length (chunks 1900 s))%nat
         then ["... (response truncated)"] else []))%list
  else [s].



End Text.

(* ===================================================================== *)
(** * The other slash commands                                            *)
(* ===================================================================== *)

Module Commands.
Import Py Agent.
Local Open Scope agent_scope.

Section WithEnvironment.

Variable json_loads : string -> Executor.json_outcome.
Variable env : environment.

(** The prompt of [/ask-oracle], as a function of the question. *)
Variable ask_prompt : string -> string.





(** [investigate_command] *)
Definition investigate_command (incident_id : option string) : M unit :=
  discord env "defer" ;;;
  known <- read (fun st =>
             match incident_id with
             | Some id => negb (String.length id =? 0)%nat
                          && bool_decide (is_Some (active_incidents (bot st) !! id))
             | None => false
             end) ;;
  if known : bool then
    modify (fun st =>
      {| bot := bot st; world := world st; views := views st;
         n_exec := n_exec st; n_discord := n_discord st;
         log := (log st ++ [Scheduled (Executor.from_opt EmptyString incident_id)])%list |}) ;;;
    discord env "Started investigation"
  else discord env "Please reply to an alert message or provide a valid incident ID.".

Definition set_auto_respond (b : bool) (a : OracleAgent) : OracleAgent :=
  {| config := config a; active_incidents := active_incidents a;
     auto_respond := b; total_cost_usd := total_cost_usd a;
     session_manager := session_manager a |}.

Definition set_config (c : Config.Config) (a : OracleAgent) : OracleAgent :=
  {| config := c; active_incidents := active_incidents a;
     auto_respond := auto_respond a; total_cost_usd := total_cost_usd a;
     session_manager := session_manager a |}.

(** [toggle_auto_command] *)
Definition toggle_auto_command (feature : string) : M unit :=
  if String.eqb feature "respond" then
    modify (with_bot (fun b => set_auto_respond (negb (auto_respond b)) b)) ;;;
    discord env "Auto-respond is now"
  else if String.eqb feature "remediate" then
    modify (with_bot (fun b =>
      set_config (Config.set_auto_remediate
                    (negb (Config.auto_remediate (config b))) (config b)) b)) ;;;
    discord env "Auto-remediate is now"
  else ret tt.

End WithEnvironment.

End Commands.

(* ===================================================================== *)
(** * Incoming messages                                                   *)
(* ===================================================================== *)

Module Alerts.
Import Py Agent.
Local Open Scope agent_scope.

(** A [discord.Embed], by what the agent reads of it; [e_color] is the
    value of its colour. *)
Record embed := mkEmbed {
  e_title : option string;
  e_description : option string;
  e_fields : list (string * string);
  e_color : option Z
}.

(** A [discord.Message], by what the agent reads of it. *)
Record message := mkMessage {
  author_is_self : bool;
  author_name : string;
  channel_id : Z;
  channel_name : string;
  content : string;
  embeds : list embed;
  created_at : string
}.

(** The emoji of the source, as UTF-8 text. *)
Definition utf8 (bytes : list nat) : string :=
  fold_right (fun b s => String (Ascii.ascii_of_nat b) s) EmptyString bytes.

Definition police_light : string := utf8 [240; 159; 154; 168]%nat.
Definition warning_sign : string := utf8 [226; 154; 160; 239; 184; 143]%nat.
Definition red_circle : string := utf8 [240; 159; 148; 180]%nat.

(** [s or default] for an optional text. *)
Definition text_or (default : string) (o : option string) : string :=
  match o with
  | Some s => if (String.length s =? 0)%nat then default else s
  | None => default
  end.

(** [d[k] = v] on a dictionary kept in insertion order. *)
Fixpoint dict_set (k v : string) (d : list (string * string)) : list (string * string) :=
  match d with
  | [] => [(k, v)]
  | (k', v') :: d' => if String.eqb k' k then (k', v) :: d' else (k', v') :: dict_set k v d'
  end.

(** [{f.name: f.value for f in fields}] *)
Definition dict_of_fields (fields : list (string * string)) : list (string * string) :=
  fold_left (fun d f => dict_set (fst f) (snd f) d) fields [].

Section WithLibrary.

(** [str.upper] *)
Variable upper : string -> string.

(** [discord.Color.red().value] and [discord.Color.orange().value] *)
Variable red orange : Z.

(** [_determine_alert_level] *)
Definition _determine_alert_level (e : embed) : string :=
  let by_title :=
    let title := upper (text_or EmptyString (e_title e)) in
    if str_contains "CRITICAL" title
       || str_contains police_light (text_or EmptyString (e_title e)) then "critical"
    else if str_contains "WARNING" title
            || str_contains warning_sign (text_or EmptyString (e_title e)) then "warning"
    else "info" in
  match e_color e with
  | Some c =>
      if c =? red then "critical"
      else if c =? orange then "warning"
      else by_title
  | None => by_title
  end.

(** [_parse_alert].  The keys [raw_content] and [author] of the dictionary
    are read nowhere in the program and are left out of [alert]. *)
Definition _parse_alert (m : message) : alert :=
  match embeds m with
  | e :: _ =>
      {| title := text_or "Unknown Alert" (e_title e);
         level := _determine_alert_level e;
         description := text_or EmptyString (e_description e);
         channel := channel_name m;
         fields := dict_of_fields (e_fields e);
         timestamp := created_at m |}
  | [] =>
      {| title := if (String.length (content m) =? 0)%nat then "Unknown Alert"
                  else str_prefix 100 (content m);
         level := "warning";
         description := content m;
         channel := channel_name m;
         fields := [];
         timestamp := created_at m |}
  end.

Definition alert_indicators : list string :=
  [police_light; warning_sign; red_circle;
   "CRITICAL"; "WARNING"; "ERROR"; "ALERT"; "DOWN"].

(** [_is_alert_message] *)
Definition _is_alert_message (m : message) : bool :=
  let content_upper := upper (content m) in
  existsb (fun indicator =>
             str_contains indicator content_upper || str_contains indicator (content m))
          alert_indicators.

(** [id] as a condition: a channel identifier that is set and not 0. *)
Definition set_id (o : option Z) : bool :=
  match o with
  | Some c => negb (c =? 0)
  | None => false
  end.

(** [message.channel.id in [c for c in alert_channels if c]] *)
Definition in_alert_channel (channels : gmap string Z) (m : message) : bool :=
  existsb (fun o => set_id o && (channel_id m =? Executor.from_opt 0 o))
    [channels !! "alerts"; channels !! "critical";
     channels !! "infrastructure"; channels !! "docker"].

(** The test that sends a message to the conversation handler. *)
Definition is_conversation (channels : gmap string Z) (command_prefix : string)
    (m : message) : bool :=
  (set_id (channels !! "ai_agent")
   && (channel_id m =? Executor.from_opt 0 (channels !! "ai_agent")))
  && (negb (String.prefix command_prefix (content m))
      && negb (String.prefix "/" (content m))).

Variable json_loads : string -> Executor.json_outcome.
Variable uuid4 : nat -> string.
Variable tpl : templates.
Variable env : environment.

(** [on_message].  [channels] and [command_prefix] are those of the
    configuration; the instants are the clock readings of the handler the
    message is routed to; [process_commands] is a call into the library,
    counted with the calls to Discord. *)
Definition on_message (channels : gmap string Z) (command_prefix : string)
    (m : message) (now t1 t2 : Z) : M unit :=
  if author_is_self m then ret tt
  else if is_conversation channels command_prefix m then
    _handle_agent_conversation json_loads uuid4 tpl env
      (author_name m) (content m) (channel_id m) now t1 t2
  else
    (if in_alert_channel channels m then
       if negb (List.length (embeds m) =? 0)%nat || _is_alert_message m then
         _ <- handle_alert env (Some (_parse_alert m)) now t1 ;; ret tt
       else ret tt
     else ret tt) ;;;
    discord env "process_commands".

End WithLibrary.

End Alerts.

(* ===================================================================== *)
(** * Loading the configuration                                           *)
(* ===================================================================== *)

Module Env.
Import Py.

(** [Config], with all its fields. *)
Record FullConfig := mkFullConfig {
  discord_token : string;
  guild_id : option Z;
  command_prefix : string;
  environment : string;
  channels : gmap string Z;
  auto_provision_channels : bool;
  agent_category_name : string;
  agent_channel_name : string;
  codebase_path : string;
  auto_respond : bool;
  auto_remediate : bool
}.

(** The part the agent logic reads. *)
Definition to_config (c : FullConfig) : Config.Config :=
  {| Config.environment := environment c; Config.codebase_path := codebase_path c;
     Config.auto_respond := auto_respond c; Config.auto_remediate := auto_remediate c |}.

(** [os.environ.get(name, default)] *)
Definition getenv (environ : gmap string string) (name default : string) : string :=
  match environ !! name with Some v => v | None => default end.

(** [value] as a condition: set and not empty. *)
Definition nonempty (o : option string) : bool :=
  match o with
  | Some s => negb (String.length s =? 0)%nat
  | None => false
  end.

Definition channel_mappings : list (string * string) :=
  [("alerts", "CHANNEL_ALERTS"); ("critical", "CHANNEL_CRITICAL");
   ("status", "CHANNEL_STATUS"); ("infrastructure", "CHANNEL_INFRASTRUCTURE");
   ("docker", "CHANNEL_DOCKER"); ("ai_agent", "CHANNEL_AI_AGENT")].

Section WithInt.

(** [int(s)] for a text: the integer, or [ValueError]. *)
Variable int_of_str : string -> outcome Z.

(** An integer variable that can be loaded: when it is set and not empty,
    [int] accepts it. *)
Definition parses (environ : gmap string string) (var : string) : Prop :=
  nonempty (environ !! var) = true ->
  exists n, int_of_str (getenv environ var EmptyString) = Ok n.

(** The loop that fills [channels]. *)
Fixpoint load_channels (environ : gmap string string) (mappings : list (string * string))
    (channels : gmap string Z) : outcome (gmap string Z) :=
  match mappings with
  | [] => Ok channels
  | (key, env_var) :: rest =>
      if nonempty (environ !! env_var) then
        match int_of_str (getenv environ env_var EmptyString) with
        | Ok n => load_channels environ rest (<[key := n]> channels)
        | Raises e => Raises e
        end
      else load_channels environ rest channels
  end.

(** [Config.from_env] *)
Definition from_env (environ : gmap string string) : outcome FullConfig :=
  if negb (nonempty (environ !! "DISCORD_TOKEN")) then
    Raises (mkExn (OtherException "ValueError")
              "DISCORD_TOKEN environment variable is required")
  else
    match (if nonempty (environ !! "DISCORD_GUILD_ID")
           then match int_of_str (getenv environ "DISCORD_GUILD_ID" EmptyString) with
                | Ok n => Ok (Some n)
                | Raises e => Raises e
                end
           else Ok None) with
    | Raises e => Raises e
    | Ok guild =>
        match load_channels environ channel_mappings ∅ with
        | Raises e => Raises e
        | Ok chans =>
            Ok {| discord_token := getenv environ "DISCORD_TOKEN" EmptyString;
                  guild_id := guild;
                  command_prefix := getenv environ "COMMAND_PREFIX" "!";
                  environment := getenv environ "ENVIRONMENT" "dev";
                  channels := chans;
                  auto_provision_channels :=
                    String.eqb (Config.lower (getenv environ "AUTO_PROVISION_CHANNELS" "true"))
                      "true";
                  agent_category_name := getenv environ "AGENT_CATEGORY_NAME" "AI Agent";
                  agent_channel_name := getenv environ "AGENT_CHANNEL_NAME" "claude-agent";
                  codebase_path := getenv environ "CODEBASE_PATH" "/app/codebase";
                  auto_respond :=
                    String.eqb (Config.lower (getenv environ "AUTO_RESPOND" "true")) "true";
                  auto_remediate :=
                    String.eqb (Config.lower (getenv environ "AUTO_REMEDIATE" "false")) "true"
               |}
        end
    end.

(** [get_channel] *)
Definition get_channel (c : FullConfig) (name : string) : option Z := channels c !! name.

End WithInt.

End Env.
(* ===================================================================== *)
(** * Sample inputs                                                       *)
(* ===================================================================== *)

Module Samples.

(** A sample stream of tokens for concrete runs: the draw number, in
    decimal, after a fixed prefix. *)
Definition sample_uuid4 (n : nat) : string :=
  "session-" ++ NilEmpty.string_of_uint (Nat.to_uint n).

(** A manager after two turns in channel 7, a reset of channel 9, a cost
    update and an expired turn in channel 7. *)
Definition sample_manager : Sessions.SessionManager :=
  Sessions.run_calls sample_uuid4
    [Sessions.GetOrCreate 0 1 2 7; Sessions.GetOrCreate 10 11 12 7;
     Sessions.Reset 20 21 9; Sessions.UpdateCost 7 (1 # 20);
     Sessions.GetInfo 9; Sessions.GetOrCreate 3000000000 3000000001 3000000002 7]
    (Sessions.init 30).

(** The double quote, to write JSON texts. *)
Definition dq : string := String (Ascii.ascii_of_nat 34) EmptyString.

(** What the engine prints when it stops on an error after having spent
    money: a JSON object with its partial result and cost. *)
Definition failure_report : string :=
  "{" ++ dq ++ "result" ++ dq ++ ": " ++ dq ++ "Budget exceeded" ++ dq ++ ", "
      ++ dq ++ "cost_usd" ++ dq ++ ": 0.02}".

(** What it prints on an ordinary run. *)
Definition success_report : string :=
  "{" ++ dq ++ "result" ++ dq ++ ": " ++ dq ++ "All containers are up" ++ dq ++ ", "
      ++ dq ++ "cost_usd" ++ dq ++ ": 0.25, "
      ++ dq ++ "session_id" ++ dq ++ ": " ++ dq ++ "abc" ++ dq ++ ", "
      ++ dq ++ "num_turns" ++ dq ++ ": 3}".

(** [json.loads] on the texts of the sample runs; every other text used
    there ("not json", the empty text) is not JSON. *)
Definition json_loads (s : string) : Executor.json_outcome :=
  if String.eqb s failure_report then
    Executor.Decoded (Py.PDict [("result", Py.PStr "Budget exceeded");
                                ("cost_usd", Py.PFloat (1 # 50))])
  else if String.eqb s success_report then
    Executor.Decoded (Py.PDict [("result", Py.PStr "All containers are up");
                                ("cost_usd", Py.PFloat (1 # 4));
                                ("session_id", Py.PStr "abc");
                                ("num_turns", Py.PInt 3)])
  else Executor.JSONDecodeError.

Definition empty_world : Executor.world :=
  {| Executor.files := ∅; Executor.procs := []; Executor.clock := 0 |}.

(** A call in which everything around the child works: the temporary file
    is created, written and removed, the child starts. *)
Definition call (run_us : Z) (out err : string) (rc : Z) : Executor.call_env :=
  {| Executor.tmp_create := Py.Ok "/tmp/tmpq1w2e3.md";
     Executor.tmp_write := None;
     Executor.spawn := None;
     Executor.run_us := run_us;
     Executor.stdout_text := out;
     Executor.stderr_text := err;
     Executor.returncode := rc;
     Executor.unlink := None |}.

(** The engine reports a failure in JSON, exits with status 1 after two
    seconds and says why on standard error. *)
Definition failing_call : Executor.call_env :=
  call 2000000 failure_report "Error: budget exceeded" 1.

(** The engine answers in JSON after two seconds. *)
Definition successful_call : Executor.call_env :=
  call 2000000 success_report EmptyString 0.

(** The engine sleeps for five seconds. *)
Definition sleeping_call : Executor.call_env :=
  call 5000000 EmptyString EmptyString 0.

(** The [claude] executable is missing. *)
Definition missing_executable_call : Executor.call_env :=
  {| Executor.tmp_create := Py.Ok "/tmp/tmpq1w2e3.md";
     Executor.tmp_write := None;
     Executor.spawn :=
       Some (Py.mkExn Py.FileNotFoundError "[Errno 2] No such file or directory: 'claude'");
     Executor.run_us := 0;
     Executor.stdout_text := EmptyString;
     Executor.stderr_text := EmptyString;
     Executor.returncode := 0;
     Executor.unlink := None |}.

Definition cwd : string := "/app/codebase".

(** A call of [execute] with a time-out of one second. *)
Definition one_second_args : Executor.exec_args :=
  {| Executor.prompt := "Is Harbor up?";
     Executor.allowed_tools := None;
     Executor.disallowed_tools := Some ["AskUserQuestion"];
     Executor.max_budget_usd := "1.0";
     Executor.timeout := 1;
     Executor.skip_permissions := false;
     Executor.session_id := None;
     Executor.resume_session := false |}.

Definition dev_config : Config.Config :=
  {| Config.environment := "dev"; Config.codebase_path := cwd;
     Config.auto_respond := true; Config.auto_remediate := false |}.

Definition prod_config : Config.Config :=
  {| Config.environment := "prod"; Config.codebase_path := cwd;
     Config.auto_respond := true; Config.auto_remediate := true |}.

(** Prompt texts cut down to their headline and the title or request they
    are about. *)
Definition templates : Agent.templates :=
  {| Agent.investigate_prompt := fun a => "Investigate: " ++ Agent.title a;
     Agent.diagnostics_prompt := fun a _ => "Diagnose: " ++ Agent.title a;
     Agent.remediation_prompt := fun a _ => "Remediate: " ++ Agent.title a;
     Agent.conversation_prompt := fun _ author content => author ++ ": " ++ content;
     Agent.analysis_prompt := fun action => "Analyze: " ++ action;
     Agent.execute_prompt := fun action => "Execute: " ++ action |}.

Definition disk_full : Agent.alert :=
  {| Agent.title := "Disk full"; Agent.level := "critical";
     Agent.description := "/var is at 98%"; Agent.channel := "alerts";
     Agent.fields := []; Agent.timestamp := "2024-01-01T12:00:00+00:00" |}.

Definition harbor_down : Agent.alert :=
  {| Agent.title := "Harbor down"; Agent.level := "critical";
     Agent.description := "registry.dev does not answer"; Agent.channel := "alerts";
     Agent.fields := []; Agent.timestamp := "2024-01-01T12:00:00+00:00" |}.

Definition initial_state (cfg : Config.Config) : Agent.state :=
  {| Agent.bot := Agent.init cfg; Agent.world := empty_world; Agent.views := [];
     Agent.n_exec := 0; Agent.n_discord := 0; Agent.log := [] |}.

(** Discord accepts every call. *)
Definition discord_ok : nat -> option Py.exn := fun _ => None.

(** Every child answers in JSON, Discord accepts every call. *)
Definition calm_env : Agent.environment :=
  {| Agent.exec_env := fun _ => successful_call; Agent.discord_env := discord_ok |}.

(** The engine fails at every call, Discord accepts every call. *)
Definition failing_env : Agent.environment :=
  {| Agent.exec_env := fun _ => failing_call; Agent.discord_env := discord_ok |}.

(** The agent right after it accepted the disk alert. *)
Definition alerted_state : Agent.state :=
  snd (Agent.handle_alert failing_env (Some disk_full)
         1704110400000001 1704110400000002 (initial_state dev_config)).

(** The incident of that alert. *)
Definition alerted_incident : Agent.incident :=
  {| Agent.inc_id := "INC-20240101120000"; Agent.inc_alert := disk_full;
     Agent.status := "investigating"; Agent.started_at := 1704110400000002;
     Agent.thread := Some (Agent.IncidentThread "INC-20240101120000");
     Agent.cost_usd := 0 |}.

End Samples.


(* ===================================================================== *)
(** * More sample inputs                                                  *)
(* ===================================================================== *)

Module MoreSamples.
Import Samples.

(** [json.loads] that also knows two JSON texts that are not objects. *)
Definition json_loads_values (s : string) : Executor.json_outcome :=
  if String.eqb s "[1, 2]" then Executor.Decoded (Py.PList [Py.PInt 1; Py.PInt 2])
  else if String.eqb s "42" then Executor.Decoded (Py.PInt 42)
  else json_loads s.

(** A call in which the temporary directory is missing. *)
Definition no_tmp_dir_call : Executor.call_env :=
  {| Executor.tmp_create :=
       Py.Raises (Py.mkExn Py.FileNotFoundError
                    "[Errno 2] No usable temporary directory found");
     Executor.tmp_write := None;
     Executor.spawn := None;
     Executor.run_us := 0;
     Executor.stdout_text := EmptyString;
     Executor.stderr_text := EmptyString;
     Executor.returncode := 0;
     Executor.unlink := None |}.

(** A configuration in which alerts wait for [/investigate]. *)
Definition manual_config : Config.Config :=
  {| Config.environment := "prod"; Config.codebase_path := cwd;
     Config.auto_respond := false; Config.auto_remediate := false |}.

(** [str.upper], on ASCII text. *)
Definition upper_ascii (a : ascii) : ascii :=
  let n := nat_of_ascii a in
  if ((97 <=? n) && (n <=? 122))%nat then ascii_of_nat (n - 32) else a.

Fixpoint upper (s : string) : string :=
  match s with
  | EmptyString => EmptyString
  | String a s' => String (upper_ascii a) (upper s')
  end.

(** The values of [discord.Color.red()] and [discord.Color.orange()]. *)
Definition red : Z := 15158332.
Definition orange : Z := 15105570.

(** A configuration that monitors one channel and converses in another. *)
Definition monitored : gmap string Z := <["ai_agent" := 7]> {["alerts" := 42]}.

(** An alert of the monitoring bot, as an embed. *)
Definition disk_alert_message : Alerts.message :=
  {| Alerts.author_is_self := false;
     Alerts.author_name := "grafana";
     Alerts.channel_id := 42;
     Alerts.channel_name := "alerts";
     Alerts.content := EmptyString;
     Alerts.embeds := [ {| Alerts.e_title := Some "Disk full";
                           Alerts.e_description := Some "/var is at 98%";
                           Alerts.e_fields := [("host", "vault")];
                           Alerts.e_color := Some red |} ];
     Alerts.created_at := "2024-01-01T12:00:00+00:00" |}.

(** [int] on the texts made of decimal digits only. *)
Definition digit (a : ascii) : option Z :=
  let n := nat_of_ascii a in
  if ((48 <=? n) && (n <=? 57))%nat then Some (Z.of_nat (n - 48)) else None.

Fixpoint digits (acc : Z) (s : string) : option Z :=
  match s with
  | EmptyString => Some acc
  | String a s' =>
      match digit a with
      | Some d => digits (10 * acc + d) s'
      | None => None
      end
  end.

Definition int_of_digits (s : string) : Py.outcome Z :=
  match s, digits 0 s with
  | String _ _, Some n => Py.Ok n
  | _, _ => Py.Raises (Py.mkExn (Py.OtherException "ValueError")
                         "invalid literal for int() with base 10")
  end.

(** The variables of a production deployment. *)
Definition production_environ : gmap string string :=
  <["DISCORD_TOKEN" := "token"]>
    (<["ENVIRONMENT" := "prod"]>
       (<["CHANNEL_ALERTS" := "42"]>
          (<["CHANNEL_AI_AGENT" := "7"]>
             (<["CHANNEL_STATUS" := EmptyString]>
                (<["AUTO_RESPOND" := "yes"]>
                   {["AUTO_REMEDIATE" := "True"]}))))).

(** What [from_env] loads from them. *)
Definition production_loaded : Env.FullConfig :=
  {| Env.discord_token := "token";
     Env.guild_id := None;
     Env.command_prefix := "!";
     Env.environment := "prod";
     Env.channels := monitored;
     Env.auto_provision_channels := true;
     Env.agent_category_name := "AI Agent";
     Env.agent_channel_name := "claude-agent";
     Env.codebase_path := "/app/codebase";
     Env.auto_respond := false;
     Env.auto_remediate := true |}.

End MoreSamples.
(* ===================================================================== *)
(** * Properties of the session manager                                   *)
(* ===================================================================== *)

Import Samples.

Section SessionFacts.
Import Sessions.

Variable uuid4 : nat -> string.

(** The liveness test of [get_or_create_session], in microseconds: the
    division by 60 and the comparison with the time-out in minutes amount to
    comparing the idle time with [timeout * 60 * 10^6]. *)
Lemma is_live_spec (timeout : Z) (now : datetime) (s : ChannelSession) :
  is_live timeout now s = true <-> now - last_used s < timeout * 60000000.
Proof.
  unfold is_live, age_minutes.
  rewrite negb_true_iff, <- not_true_iff_false, Qle_bool_iff.
  set (d := now - last_used s).
  assert (E : (inject_Z d / inject_Z 1000000 / inject_Z 60 == d # 60000000)%Q).
  { unfold Qeq, Qdiv, Qmult, Qinv, inject_Z; simpl. lia. }
  rewrite E. unfold Qle, inject_Z; simpl. lia.
Qed.

Lemma is_live_false (timeout : Z) (now : datetime) (s : ChannelSession) :
  is_live timeout now s = false <-> timeout * 60000000 <= now - last_used s.
Proof.
  rewrite <- not_true_iff_false, is_live_spec. lia.
Qed.

Lemma get_or_create_session_cases now tc tl c m :
  (exists s, sessions m !! c = Some s /\ is_live (session_timeout m) now s = true /\
     get_or_create_session uuid4 now tc tl c m =
       ((session_id s, true),
        {| sessions :=
             <[c := {| session_id := session_id s; channel_id := channel_id s;
                       created_at := created_at s; last_used := now;
                       message_count := message_count s + 1;
                       total_cost := total_cost s |}]> (sessions m);
           session_timeout := session_timeout m;
           uuid_drawn := uuid_drawn m |}))
  \/ ((forall s, sessions m !! c = Some s -> is_live (session_timeout m) now s = false) /\
      get_or_create_session uuid4 now tc tl c m =
        ((uuid4 (uuid_drawn m), false),
         {| sessions := <[c := new_session (uuid4 (uuid_drawn m)) c tc tl]> (sessions m);
            session_timeout := session_timeout m;
            uuid_drawn := S (uuid_drawn m) |})).
Proof.
  unfold get_or_create_session.
  destruct (sessions m !! c) as [s|] eqn:Hs.
  - destruct (is_live (session_timeout m) now s) eqn:Hl.
    + left. exists s. auto.
    + right. split; [|reflexivity]. intros s' [= <-]. exact Hl.
  - right. split; [|reflexivity]. intros s' [=].
Qed.

Lemma run_call_timeout k m : session_timeout (run_call uuid4 k m) = session_timeout m.
Proof.
  destruct k as [now tc tl c|tc tl c|c cost|c]; simpl; try reflexivity.
  - destruct (get_or_create_session_cases now tc tl c m)
      as [(s & _ & _ & ->)|[_ ->]]; reflexivity.
  - unfold update_cost. destruct (sessions m !! c); reflexivity.
Qed.

Lemma run_call_well_keyed k m : well_keyed m -> well_keyed (run_call uuid4 k m).
Proof.
  intros Hm. destruct k as [now tc tl c|tc tl c|c cost|c]; simpl.
  - destruct (get_or_create_session_cases now tc tl c m)
      as [(s & Hs & _ & ->)|[_ ->]]; simpl; intros c' s' H';
      destruct (decide (c = c')) as [<-|Hne]; simplify_map_eq; simpl; auto.
    + destruct (Hm _ _ Hs). split; [assumption|lia].
    + split; [reflexivity|lia].
  - intros c' s' H'. destruct (decide (c = c')) as [<-|Hne]; simplify_map_eq; auto.
    simpl; split; [reflexivity|lia].
  - unfold update_cost. destruct (sessions m !! c) as [s|] eqn:Hs; [|assumption].
    simpl. intros c' s' H'.
    destruct (decide (c = c')) as [<-|Hne]; simplify_map_eq; simpl; auto.
  - assumption.
Qed.

Lemma tokens_issued_weaken (m : SessionManager) (n : nat) c s :
  tokens_issued uuid4 m -> sessions m !! c = Some s -> (uuid_drawn m <= n)%nat ->
  exists i, (i < n)%nat /\ session_id s = uuid4 i.
Proof.
  intros Hm Hs Hn. destruct (Hm _ _ Hs) as (i & Hi & E).
  exists i. split; [lia|assumption].
Qed.

Lemma run_call_tokens_issued k m : tokens_issued uuid4 m -> tokens_issued uuid4 (run_call uuid4 k m).
Proof.
  intros Hm. destruct k as [now tc tl c|tc tl c|c cost|c]; simpl.
  - destruct (get_or_create_session_cases now tc tl c m)
      as [(s & Hs & _ & ->)|[_ ->]]; simpl; intros c' s' H';
      destruct (decide (c = c')) as [<-|Hne]; simplify_map_eq; simpl;
      eauto using tokens_issued_weaken.
  - intros c' s' H'. destruct (decide (c = c')) as [<-|Hne]; simplify_map_eq; simpl;
      eauto using tokens_issued_weaken.
  - unfold update_cost. destruct (sessions m !! c) as [s|] eqn:Hs; [|assumption].
    simpl. intros c' s' H'.
    destruct (decide (c = c')) as [<-|Hne]; simplify_map_eq; simpl;
      eauto using tokens_issued_weaken.
  - assumption.
Qed.

Lemma reachable_well_keyed timeout m : reachable uuid4 timeout m -> well_keyed m.
Proof.
  induction 1 as [|k m _ IH].
  - intros c s H. simpl in H. rewrite lookup_empty in H. discriminate.
  - apply run_call_well_keyed, IH.
Qed.

Lemma reachable_tokens_issued timeout m : reachable uuid4 timeout m -> tokens_issued uuid4 m.
Proof.
  induction 1 as [|k m _ IH].
  - intros c s H. simpl in H. rewrite lookup_empty in H. discriminate.
  - apply run_call_tokens_issued, IH.
Qed.


End SessionFacts.

Lemma sample_uuid4_distinct (i j : nat) : sample_uuid4 i = sample_uuid4 j -> i = j.
Proof.
  unfold sample_uuid4. cbv beta iota delta [String.append]. intros H.
  injection H as H.
  apply (f_equal NilEmpty.uint_of_string) in H.
  rewrite !NilEmpty.usu in H. injection H as H.
  apply (f_equal Nat.of_uint) in H.
  now rewrite !DecimalNat.Unsigned.of_to in H.
Qed.

Section SessionClaims.
Import Sessions.

Variable uuid4 : nat -> string.

(** [uuid4] is taken at its word: no two draws give the same value. *)
Hypothesis uuid4_distinct : forall i j, uuid4 i = uuid4 j -> i = j.


End SessionClaims.


(** The scenario of a first turn in a channel followed at once by a second
    one: a new token, then the same token resumed with two messages. *)
Example conversation_two_turns :
  let r1 := Sessions.get_or_create_session sample_uuid4 1000 1001 1002 7 (Sessions.init 30) in
  let r2 := Sessions.get_or_create_session sample_uuid4 2000 2001 2002 7 (snd r1) in
  fst r1 = ("session-0", false) /\ fst r2 = ("session-0", true) /\
  Sessions.message_count <$> (Sessions.sessions (snd r2) !! 7) = Some 2.
Proof. vm_compute. auto. Qed.

(** Thirty minutes of idleness, to the microsecond, end the session. *)
Example conversation_expiry_boundary :
  let r1 := Sessions.get_or_create_session sample_uuid4 0 0 0 7 (Sessions.init 30) in
  fst (Sessions.get_or_create_session sample_uuid4 1799999999 0 0 7 (snd r1))
    = ("session-0", true) /\
  fst (Sessions.get_or_create_session sample_uuid4 1800000000 0 0 7 (snd r1))
    = ("session-1", false).
Proof. vm_compute. auto. Qed.

Section SessionInvariant.
Import Sessions.

Variable uuid4 : nat -> string.

(** C10.  In every manager reachable through [get_or_create_session],
    [reset_session], [update_cost] and [get_session_info]: a stored session
    carries the channel it is stored under, two entries never belong to one
    channel, and every message count is at least one; [get_session_info]
    and [update_cost] leave every token and message count as they were. *)
Theorem session_manager_invariant (timeout : Z) (m : SessionManager) :
  reachable uuid4 timeout m ->
  (forall c s, sessions m !! c = Some s -> channel_id s = c /\ 1 <= message_count s)
  /\ (forall c1 c2 s1 s2,
        sessions m !! c1 = Some s1 -> sessions m !! c2 = Some s2 ->
        channel_id s1 = channel_id s2 -> c1 = c2 /\ s1 = s2)
  /\ (forall c c',
        token_and_count <$> (sessions (snd (get_session_info c m)) !! c')
        = token_and_count <$> (sessions m !! c'))
  /\ (forall c cost c',
        token_and_count <$> (sessions (update_cost c cost m) !! c')
        = token_and_count <$> (sessions m !! c')).
Proof.
  intros Hm. pose proof (reachable_well_keyed uuid4 _ _ Hm) as Hk.
  split; [exact Hk|]. split; [|split].
  - intros c1 c2 s1 s2 H1 H2 E.
    destruct (Hk _ _ H1) as [E1 _]. destruct (Hk _ _ H2) as [E2 _].
    assert (c1 = c2) as -> by congruence.
    split; [reflexivity|congruence].
  - reflexivity.
  - intros c cost c'. unfold update_cost.
    destruct (sessions m !! c) as [s|] eqn:Hs; [|reflexivity]. simpl.
    destruct (decide (c = c')) as [<-|Hne].
    + rewrite lookup_insert_eq, Hs. reflexivity.
    + rewrite lookup_insert_ne by assumption. reflexivity.
Qed.

Lemma reachable_run_calls timeout ks m :
  reachable uuid4 timeout m -> reachable uuid4 timeout (run_calls uuid4 ks m).
Proof.
  revert m. induction ks as [|k ks IH]; intros m Hm; simpl; [assumption|].
  apply IH. constructor. assumption.
Qed.

End SessionInvariant.

Lemma session_manager_invariant_witness :
  (forall c s, Sessions.sessions sample_manager !! c = Some s ->
     Sessions.channel_id s = c /\ 1 <= Sessions.message_count s)
  /\ (forall c1 c2 s1 s2,
        Sessions.sessions sample_manager !! c1 = Some s1 ->
        Sessions.sessions sample_manager !! c2 = Some s2 ->
        Sessions.channel_id s1 = Sessions.channel_id s2 -> c1 = c2 /\ s1 = s2)
  /\ (forall c c',
        Sessions.token_and_count
          <$> (Sessions.sessions (snd (Sessions.get_session_info c sample_manager)) !! c')
        = Sessions.token_and_count <$> (Sessions.sessions sample_manager !! c'))
  /\ (forall c cost c',
        Sessions.token_and_count
          <$> (Sessions.sessions (Sessions.update_cost c cost sample_manager) !! c')
        = Sessions.token_and_count <$> (Sessions.sessions sample_manager !! c')).
Proof.
  apply (session_manager_invariant sample_uuid4 30 sample_manager).
  apply reachable_run_calls, Sessions.reach_init.
Defined.

Example sample_manager_sessions :
  Sessions.token_and_count <$> (Sessions.sessions sample_manager !! 7) = Some ("session-2", 1) /\
  Sessions.token_and_count <$> (Sessions.sessions sample_manager !! 9) = Some ("session-1", 1) /\
  Sessions.sessions sample_manager !! 8 = None.
Proof. vm_compute. auto. Qed.

(* ===================================================================== *)
(** * Properties of the executor                                          *)
(* ===================================================================== *)

Section ExecutorFacts.
Import Py Executor.

Variable json_loads : string -> json_outcome.

(** How [execute] goes, by what the environment does. *)

Lemma execute_tmp_raises cwd a env w e :
  tmp_create env = Raises e ->
  execute json_loads cwd a env w = (on_exception (timeout a) e, w).
Proof. intros H. unfold execute. rewrite H. reflexivity. Qed.

Lemma execute_spawn_raises cwd a env w name e :
  tmp_create env = Ok name -> spawn env = Some e ->
  execute json_loads cwd a env w =
    (on_exception (timeout a) e,
     {| files := {[name]} ∪ files w; procs := procs w; clock := clock w |}).
Proof. intros H1 H2. unfold execute. rewrite H1, H2. reflexivity. Qed.

Lemma execute_times_out cwd a env w name :
  tmp_create env = Ok name -> spawn env = None ->
  completes_in_time env (timeout a) = false ->
  execute json_loads cwd a env w =
    (on_exception (timeout a) (mkExn TimeoutError EmptyString),
     {| files := {[name]} ∪ files w;
        procs := (procs w ++ [{| p_cmd := full_cmd a env name; p_cwd := cwd;
                                 p_status := Running |}])%list;
        clock := clock w + Z.max 0 (timeout a * 1000000) |}).
Proof.
  intros H1 H2 H3. unfold execute, full_cmd. rewrite H1, H2. simpl. rewrite H3.
  destruct (tmp_write env); reflexivity.
Qed.

Lemma set_status_last ps p st :
  set_status (List.length ps) st (ps ++ [p])%list =
  (ps ++ [{| p_cmd := p_cmd p; p_cwd := p_cwd p; p_status := st |}])%list.
Proof.
  unfold set_status.
  rewrite lookup_app_r by lia. rewrite Nat.sub_diag. simpl.
  rewrite insert_app_r_alt by lia. rewrite Nat.sub_diag. reflexivity.
Qed.

Lemma execute_completes cwd a env w name :
  tmp_create env = Ok name -> spawn env = None ->
  completes_in_time env (timeout a) = true ->
  execute json_loads cwd a env w =
    (parse_output json_loads a env,
     {| files := match unlink env with
                 | None => ({[name]} ∪ files w) ∖ {[name]}
                 | Some _ => {[name]} ∪ files w
                 end;
        procs := (procs w ++ [{| p_cmd := full_cmd a env name; p_cwd := cwd;
                                 p_status := Exited (returncode env) |}])%list;
        clock := clock w + run_us env |}).
Proof.
  intros H1 H2 H3. unfold execute, full_cmd. rewrite H1, H2. simpl. rewrite H3.
  rewrite set_status_last. simpl.
  destruct (tmp_write env), (unlink env); reflexivity.
Qed.

(** Every dictionary [execute] returns has the key [success], holding a
    boolean. *)
Lemma on_exception_success timeout e :
  on_exception timeout e !! "success" = Some (PBool false).
Proof. unfold on_exception. destruct (exn_cls e); reflexivity. Qed.

Lemma on_exception_error timeout e :
  exists msg, on_exception timeout e !! "error" = Some (PStr msg).
Proof. unfold on_exception. destruct (exn_cls e); eexists; reflexivity. Qed.

Lemma error_msg_nonempty env :
  returncode env <> 0 ->
  exists msg, error_msg env = PStr msg /\ msg <> EmptyString.
Proof.
  intros Hrc. unfold error_msg.
  apply Z.eqb_neq in Hrc. rewrite Hrc. simpl.
  destruct (stderr_text env) as [|c s] eqn:Herr; simpl.
  - destruct (stdout_text env) as [|c' s'] eqn:Hout; simpl;
      eexists; (split; [reflexivity|]);
      cbv beta iota delta [String.append]; discriminate.
  - eexists. split; [reflexivity|discriminate].
Qed.

(** The sibling of the path C1 is about: when the output of a failed child
    is not JSON, the result does carry a cause. *)
Lemma execute_decode_failure_has_error cwd a env w name :
  tmp_create env = Ok name -> spawn env = None ->
  completes_in_time env (timeout a) = true ->
  json_loads (stdout_text env) = JSONDecodeError ->
  returncode env <> 0 ->
  let r := fst (execute json_loads cwd a env w) in
  r !! "success" = Some (PBool false) /\
  exists msg, r !! "error" = Some (PStr msg) /\ msg <> EmptyString.
Proof.
  intros H1 H2 H3 Hj Hrc r. subst r.
  rewrite (execute_completes cwd a env w name H1 H2 H3). simpl.
  unfold parse_output. rewrite Hj.
  destruct (error_msg_nonempty env Hrc) as (msg & E & Hne).
  apply Z.eqb_neq in Hrc.
  split.
  - vm_compute. vm_compute in Hrc. rewrite Hrc. reflexivity.
  - exists msg. split; [|exact Hne]. rewrite <- E. reflexivity.
Qed.

(** C1.  The path on which the claim fails: the child exits with a
    non-zero status after printing a JSON object.  The result says
    [success = False] and has no [error] key at all, whatever the child
    wrote on standard error. *)
Theorem execute_json_failure_without_error cwd a env w name d :
  tmp_create env = Ok name -> spawn env = None ->
  completes_in_time env (timeout a) = true ->
  json_loads (stdout_text env) = Decoded (PDict d) ->
  returncode env <> 0 ->
  let r := fst (execute json_loads cwd a env w) in
  r !! "success" = Some (PBool false) /\ succeeded r = false /\ r !! "error" = None.
Proof.
  intros H1 H2 H3 Hj Hrc r. subst r.
  rewrite (execute_completes cwd a env w name H1 H2 H3). simpl.
  unfold parse_output. rewrite Hj.
  apply Z.eqb_neq in Hrc.
  assert (E : (list_to_map
                 [("success", PBool (returncode env =? 0));
                  ("output", dict_get d "result" (PStr (stdout_text env)));
                  ("cost", dict_get d "cost_usd" (PInt 0));
                  ("session_id", dict_get d "session_id" (PStr EmptyString));
                  ("num_turns", dict_get d "num_turns" (PInt 0));
                  ("raw", PDict d)] : gmap string pyval) !! "success"
              = Some (PBool (returncode env =? 0))) by reflexivity.
  split; [|split].
  - rewrite E, Hrc. reflexivity.
  - unfold succeeded, get. rewrite E, Hrc. reflexivity.
  - reflexivity.
Qed.

(** The sibling of the paths C9 is about: once the child has exited, the
    system prompt file is removed (unless [os.unlink] itself fails). *)
Lemma execute_removes_prompt_file cwd a env w name :
  tmp_create env = Ok name -> spawn env = None ->
  completes_in_time env (timeout a) = true ->
  unlink env = None ->
  name ∉ files (snd (execute json_loads cwd a env w)).
Proof.
  intros H1 H2 H3 H4.
  rewrite (execute_completes cwd a env w name H1 H2 H3). simpl. rewrite H4.
  intros Hin. apply elem_of_difference in Hin. destruct Hin as [_ Hn].
  apply Hn, elem_of_singleton. reflexivity.
Qed.

(** C9.  The paths on which the claim fails: when the child cannot be
    started (executable not found, or any other exception of the spawn) or
    does not finish in time, [execute] returns with the system prompt file
    still in place. *)
Theorem execute_leaves_prompt_file cwd a env w name :
  tmp_create env = Ok name ->
  is_Some (spawn env) \/ completes_in_time env (timeout a) = false ->
  name ∈ files (snd (execute json_loads cwd a env w)).
Proof.
  intros H1 H. destruct (spawn env) as [e|] eqn:H2.
  - rewrite (execute_spawn_raises cwd a env w name e H1 H2). simpl.
    apply elem_of_union_l, elem_of_singleton. reflexivity.
  - destruct H as [[e He]|H3]; [discriminate|].
    rewrite (execute_times_out cwd a env w name H1 H2 H3). simpl.
    apply elem_of_union_l, elem_of_singleton. reflexivity.
Qed.

(** C3, as the code has it.  When the child has not finished after the
    [timeout] seconds of the call, [execute] returns [success = False] with
    the error text naming the time-out, having waited no longer than the
    time-out; the child itself is not ended by [execute]: it is still
    running when the call returns. *)
Theorem execute_timeout_result cwd a env w name :
  tmp_create env = Ok name -> spawn env = None ->
  timeout a * 1000000 <= run_us env ->
  let r := fst (execute json_loads cwd a env w) in
  let w' := snd (execute json_loads cwd a env w) in
  r !! "success" = Some (PBool false) /\
  r !! "output" = Some (PStr EmptyString) /\
  r !! "error" =
    Some (PStr ("Claude CLI timed out after " ++ str_of_int (timeout a) ++ " seconds")) /\
  clock w' = clock w + Z.max 0 (timeout a * 1000000) /\
  (exists p, procs w' !! List.length (procs w) = Some p /\ p_status p = Running) /\
  ~ terminated w' (List.length (procs w)).
Proof.
  intros H1 H2 Hrun r w'. subst r w'.
  assert (H3 : completes_in_time env (timeout a) = false)
    by (unfold completes_in_time; apply Z.ltb_ge; exact Hrun).
  rewrite (execute_times_out cwd a env w name H1 H2 H3). simpl.
  assert (Hp : (procs w ++ [{| p_cmd := full_cmd a env name; p_cwd := cwd;
                               p_status := Running |}])%list !! List.length (procs w)
               = Some {| p_cmd := full_cmd a env name; p_cwd := cwd;
                         p_status := Running |}).
  { rewrite lookup_app_r by lia. rewrite Nat.sub_diag. reflexivity. }
  repeat split; try reflexivity.
  - eexists. split; [exact Hp|reflexivity].
  - intros (p & rc & Hp' & Hst). simpl in Hp'. rewrite Hp in Hp'.
    injection Hp' as <-. discriminate.
Qed.

End ExecutorFacts.

Lemma execute_json_failure_without_error_witness :
  let r := fst (Executor.execute json_loads cwd (Executor.default_args "Is Harbor up?")
                  failing_call empty_world) in
  r !! "success" = Some (Py.PBool false) /\ Executor.succeeded r = false /\
  r !! "error" = None.
Proof.
  apply (execute_json_failure_without_error json_loads cwd
           (Executor.default_args "Is Harbor up?") failing_call empty_world
           "/tmp/tmpq1w2e3.md"
           [("result", Py.PStr "Budget exceeded"); ("cost_usd", Py.PFloat (1 # 50))]);
    try reflexivity.
  discriminate.
Defined.

Lemma execute_leaves_prompt_file_witness :
  "/tmp/tmpq1w2e3.md" ∈
    Executor.files (snd (Executor.execute json_loads cwd one_second_args
                           sleeping_call empty_world)).
Proof.
  apply (execute_leaves_prompt_file json_loads cwd one_second_args sleeping_call
           empty_world "/tmp/tmpq1w2e3.md").
  - reflexivity.
  - right. reflexivity.
Defined.

(** The same for a missing executable. *)
Example execute_not_found_leaves_file :
  let '(r, w) := Executor.execute json_loads cwd (Executor.default_args "Is Harbor up?")
                   missing_executable_call empty_world in
  r !! "error" = Some (Py.PStr "Claude CLI not found. Ensure it is installed and in PATH.")
  /\ elements (Executor.files w) = ["/tmp/tmpq1w2e3.md"].
Proof. vm_compute. auto. Qed.

(** C3 as stated fails: a child that sleeps five seconds under a time-out
    of one second is not ended; it is listed as running when [execute]
    returns. *)
Lemma execute_timeout_child_not_terminated :
  let w' := snd (Executor.execute json_loads cwd one_second_args
                   sleeping_call empty_world) in
  Executor.completes_in_time sleeping_call (Executor.timeout one_second_args) = false /\
  Executor.p_status <$> (Executor.procs w' !! 0%nat) = Some Executor.Running /\
  ~ Executor.terminated w' 0.
Proof.
  split; [reflexivity|]. split; [reflexivity|].
  intros (p & rc & Hp & Hst). vm_compute in Hp. injection Hp as <-. discriminate.
Defined.

Lemma execute_timeout_result_witness :
  let r := fst (Executor.execute json_loads cwd one_second_args sleeping_call empty_world) in
  let w' := snd (Executor.execute json_loads cwd one_second_args sleeping_call empty_world) in
  r !! "success" = Some (Py.PBool false) /\
  r !! "output" = Some (Py.PStr EmptyString) /\
  r !! "error" = Some (Py.PStr "Claude CLI timed out after 1 seconds") /\
  Executor.clock w' = 1000000 /\
  (exists p, Executor.procs w' !! 0%nat = Some p /\ Executor.p_status p = Executor.Running) /\
  ~ Executor.terminated w' 0.
Proof.
  apply (execute_timeout_result json_loads cwd one_second_args sleeping_call
           empty_world "/tmp/tmpq1w2e3.md").
  - reflexivity.
  - reflexivity.
  - vm_compute. discriminate.
Defined.

(** The scenario of a text that is not JSON with exit status 0. *)
Example execute_not_json_exit_0 :
  let r := fst (Executor.execute json_loads cwd (Executor.default_args "Is Harbor up?")
                  (call 2000000 "not json" EmptyString 0) empty_world) in
  r !! "success" = Some (Py.PBool true) /\ r !! "output" = Some (Py.PStr "not json") /\
  r !! "cost" = Some (Py.PInt 0) /\ r !! "error" = Some Py.PNone.
Proof. vm_compute. auto. Qed.

(* ===================================================================== *)
(** * Properties of the agent                                             *)
(* ===================================================================== *)

Section DeniedTools.
Import Py Executor.

(** What [_get_disallowed_tools] returns always names the interactive
    question tool. *)
Lemma get_disallowed_tools_asks_no_questions (cfg : Config.Config) :
  exists l, _get_disallowed_tools cfg = Some l /\ In "AskUserQuestion" l.
Proof.
  unfold _get_disallowed_tools.
  destruct (Config.allow_edit_tools cfg); eexists; (split; [reflexivity|]);
    simpl; auto.
Qed.

Variable tpl : Agent.templates.

(** So do the calls that pass it on: the incident phases, the conversation
    turns, and the execution phase of [/remediate]. *)
Lemma other_calls_deny_questions (cfg : Config.Config) (al : Agent.alert)
    (shown : pyval) (author content sid action : string) (resume : bool) :
  Forall (fun a => exists l, disallowed_tools a = Some l /\ In "AskUserQuestion" l)
    [Agent.investigate_args tpl cfg al; Agent.diagnostics_args tpl cfg al shown;
     Agent.remediation_args tpl cfg al shown;
     Agent.conversation_args tpl cfg author content sid resume;
     Agent.remediation_exec_args tpl cfg action].
Proof.
  repeat constructor; simpl; apply get_disallowed_tools_asks_no_questions.
Qed.

(** C6.  The call on which the claim fails: the analysis phase of
    [/remediate] passes its own list, which lacks the interactive question
    tool, and the argument list of the child carries that list as it is. *)
Theorem remediate_analysis_allows_questions (action : string) :
  let a := Agent.analysis_args tpl action in
  disallowed_tools a = Some ["Write"; "Edit"; "MultiEdit"] /\
  ~ In "AskUserQuestion" ["Write"; "Edit"; "MultiEdit"] /\
  arg_of "--disallowedTools" (build_cmd a) = Some "Write,Edit,MultiEdit" /\
  str_contains "AskUserQuestion" "Write,Edit,MultiEdit" = false.
Proof.
  simpl. split; [reflexivity|]. split; [|split; reflexivity].
  intros [H|[H|[H|[]]]]; discriminate.
Qed.

End DeniedTools.

(** A run of [/remediate]: the first child is started without the
    interactive question tool in its denied list. *)
Example remediate_first_child :
  let st := snd (Agent.remediate_command json_loads templates
                   {| Agent.exec_env := fun _ => successful_call;
                      Agent.discord_env := discord_ok |}
                   "@admin" "restart harbor" true [] false
                   (initial_state prod_config)) in
  (Executor.arg_of "--disallowedTools" <$> (Executor.p_cmd <$> Executor.procs (Agent.world st)))
  = [Some "Write,Edit,MultiEdit"; Some "AskUserQuestion,Write,Edit,MultiEdit"].
Proof. vm_compute. reflexivity. Qed.

Section Incidents.
Import Py Agent.

Variable json_loads : string -> Executor.json_outcome.
Variable tpl : templates.
Variable env : environment.

(** The identifier only depends on the second of the instant. *)
Lemma incident_id_same_second (t1 t2 : Z) :
  t1 / 1000000 = t2 / 1000000 -> incident_id_at t1 = incident_id_at t2.
Proof.
  intros H. unfold incident_id_at, Calendar.strftime_YmdHMS. rewrite H. reflexivity.
Qed.

(** What [handle_alert] does to the incident map: one entry, under the
    identifier of the instant, for the alert. *)
Lemma handle_alert_incidents (a : alert) (now started : Z) (st : state) :
  exists i,
    active_incidents (bot (snd (handle_alert env (Some a) now started st)))
    = <[incident_id_at now := i]> (active_incidents (bot st))
    /\ inc_alert i = a /\ status i = "investigating".
Proof.
  unfold handle_alert.
  set (id := incident_id_at now).
  unfold bind, try_except, modify, read, ret, set_incident_thread, discord, with_bot.
  cbn -[insert alter].
  repeat match goal with
    | |- context [discord_env env ?n] => destruct (discord_env env n); cbn -[insert alter]
    | |- context [auto_respond ?b] => destruct (auto_respond b); cbn -[insert alter]
    end;
    rewrite ?alter_insert_eq; eexists; (split; [reflexivity|split; reflexivity]).
Qed.

(** C8.  Two alerts handled within the same second get the same incident
    identifier, and the incident map gains one entry, not two: the entry
    of the first alert is replaced by that of the second. *)
Theorem handle_alert_same_second_collides (a1 a2 : alert) (now1 started1 now2 started2 : Z)
    (st : state) :
  now1 / 1000000 = now2 / 1000000 ->
  let st1 := snd (handle_alert env (Some a1) now1 started1 st) in
  let st2 := snd (handle_alert env (Some a2) now2 started2 st1) in
  incident_id_at now1 = incident_id_at now2 /\
  dom (active_incidents (bot st2)) = {[incident_id_at now1]} ∪ dom (active_incidents (bot st)) /\
  inc_alert <$> (active_incidents (bot st2) !! incident_id_at now1) = Some a2.
Proof.
  intros Hsec st1 st2. subst st1 st2.
  pose proof (incident_id_same_second _ _ Hsec) as Hid.
  destruct (handle_alert_incidents a1 now1 started1 st) as (i1 & E1 & _ & _).
  destruct (handle_alert_incidents a2 now2 started2
              (snd (handle_alert env (Some a1) now1 started1 st))) as (i2 & E2 & Ha2 & _).
  rewrite E2, E1, <- Hid. rewrite insert_insert_eq.
  split; [reflexivity|]. split.
  - apply dom_insert_L.
  - rewrite lookup_insert_eq. simpl. rewrite Ha2. reflexivity.
Qed.

End Incidents.

Lemma handle_alert_same_second_collides_witness :
  let st1 := snd (Agent.handle_alert calm_env (Some disk_full)
                    1704110400000001 1704110400000002 (initial_state dev_config)) in
  let st2 := snd (Agent.handle_alert calm_env (Some harbor_down)
                    1704110400900001 1704110400900002 st1) in
  Agent.incident_id_at 1704110400000001 = Agent.incident_id_at 1704110400900001 /\
  dom (Agent.active_incidents (Agent.bot st2))
    = {[Agent.incident_id_at 1704110400000001]}
      ∪ dom (Agent.active_incidents (Agent.bot (initial_state dev_config))) /\
  Agent.inc_alert <$> (Agent.active_incidents (Agent.bot st2)
                         !! Agent.incident_id_at 1704110400000001) = Some harbor_down.
Proof.
  apply (handle_alert_same_second_collides calm_env disk_full harbor_down
           1704110400000001 1704110400000002 1704110400900001 1704110400900002
           (initial_state dev_config)).
  reflexivity.
Defined.

(** The same run, evaluated: both alerts are accepted, both get the
    identifier of 2024-01-01 12:00:00, and one incident is left. *)
Example two_alerts_one_incident :
  let r1 := Agent.handle_alert calm_env (Some disk_full)
              1704110400000001 1704110400000002 (initial_state dev_config) in
  let r2 := Agent.handle_alert calm_env (Some harbor_down)
              1704110400900001 1704110400900002 (snd r1) in
  fst r1 = Py.Ok (Some "INC-20240101120000") /\
  fst r2 = Py.Ok (Some "INC-20240101120000") /\
  size (Agent.active_incidents (Agent.bot (snd r2))) = 1%nat /\
  Agent.title <$> (Agent.inc_alert <$>
     (Agent.active_incidents (Agent.bot (snd r2)) !! "INC-20240101120000"))
  = Some "Harbor down".
Proof. vm_compute. auto. Qed.

Section IncidentRuns.
Import Py Agent.

Variable json_loads : string -> Executor.json_outcome.
Variable tpl : templates.
Variable env : environment.

(** The run of [_investigate_incident] in which step 1 is reported as
    failed: the issue is posted and the method returns.  Nothing else is
    written: not the status of the incident, not the total cost. *)
Lemma investigation_failure_run (incident_id : string) (i : incident) (st : state)
    (r : Executor.result) (w' : Executor.world) (q : Q) :
  active_incidents (bot st) !! incident_id = Some i ->
  discord_env env (n_discord st) = None ->
  discord_env env (S (n_discord st)) = None ->
  Executor.execute json_loads (Config.codebase_path (config (bot st)))
    (investigate_args tpl (config (bot st)) (inc_alert i))
    (exec_env env (n_exec st)) (world st) = (r, w') ->
  Executor.succeeded r = false ->
  float_add (cost_usd i) (Executor.get r "cost" (PInt 0)) = Ok q ->
  _investigate_incident json_loads tpl env incident_id st =
    (Ok tt,
     {| bot := set_incidents (<[incident_id := set_cost q i]> (active_incidents (bot st)))
                 (bot st);
        world := w'; views := views st;
        n_exec := S (n_exec st); n_discord := S (S (n_discord st));
        log := (log st ++ [Sent "Step 1"]
                       ++ [Executed (investigate_args tpl (config (bot st)) (inc_alert i))]
                       ++ [Sent "Investigation Issue"])%list |}).
Proof.
  intros Hi Hd1 Hd2 Hex Hfail Hcost.
  unfold _investigate_incident, bind, read, try_except, investigate_alert, get_config,
    execute, add_incident_cost, discord, with_bot.
  cbn -[insert alter Executor.execute investigate_args].
  rewrite Hi. cbn -[insert alter Executor.execute investigate_args].
  rewrite Hd1. cbn -[insert alter Executor.execute investigate_args].
  rewrite Hex. cbn -[insert alter Executor.execute investigate_args].
  rewrite Hi, Hcost. cbn -[insert alter Executor.execute investigate_args].
  rewrite Hfail. cbn -[insert alter Executor.execute investigate_args].
  rewrite Hd2. cbn -[insert alter Executor.execute investigate_args].
  rewrite <- !app_assoc. reflexivity.
Qed.

Lemma executions_app l1 l2 : executions (l1 ++ l2)%list = (executions l1 ++ executions l2)%list.
Proof. unfold executions. apply omap_app. Qed.

(** C2.  The run on which the claim fails: step 1 returns
    [success = False] and Discord accepts the two messages.  No call for
    step 2 or step 3 is made, as the claim says, but the incident is left
    in the status it had, [investigating] for a new incident, and not set
    to [error]. *)
Theorem investigation_failure_keeps_status (incident_id : string) (i : incident)
    (st : state) (c : Q) :
  active_incidents (bot st) !! incident_id = Some i ->
  status i = "investigating" ->
  discord_env env (n_discord st) = None ->
  discord_env env (S (n_discord st)) = None ->
  Executor.succeeded (fst (first_call json_loads tpl env i st)) = false ->
  as_number (Executor.get (fst (first_call json_loads tpl env i st)) "cost" (PInt 0)) = Some c ->
  let st' := snd (_investigate_incident json_loads tpl env incident_id st) in
  status <$> (active_incidents (bot st') !! incident_id) = Some "investigating" /\
  status <$> (active_incidents (bot st') !! incident_id) <> Some "error" /\
  executions (log st')
  = (executions (log st) ++ [investigate_args tpl (config (bot st)) (inc_alert i)])%list.
Proof.
  intros Hi Hst Hd1 Hd2 Hfail Hc st'. subst st'.
  destruct (first_call json_loads tpl env i st) as [r w'] eqn:Hex. unfold first_call in Hex.
  simpl in Hfail, Hc.
  rewrite (investigation_failure_run incident_id i st r w' (cost_usd i + c)%Q
             Hi Hd1 Hd2 Hex Hfail) by (unfold float_add; rewrite Hc; reflexivity).
  cbn -[insert]. rewrite lookup_insert_eq. cbn. rewrite Hst.
  split; [reflexivity|]. split; [discriminate|].
  rewrite !executions_app. cbn. rewrite ?app_nil_r. reflexivity.
Qed.

(** C7.  The same run, for the costs: the cost step 1 reported is added
    to the incident, and the total of the process stays as it was. *)
Theorem investigation_failure_cost_not_in_total (incident_id : string) (i : incident)
    (st : state) (c : Q) :
  active_incidents (bot st) !! incident_id = Some i ->
  discord_env env (n_discord st) = None ->
  discord_env env (S (n_discord st)) = None ->
  Executor.succeeded (fst (first_call json_loads tpl env i st)) = false ->
  as_number (Executor.get (fst (first_call json_loads tpl env i st)) "cost" (PInt 0)) = Some c ->
  (0 < c)%Q ->
  let st' := snd (_investigate_incident json_loads tpl env incident_id st) in
  cost_usd <$> (active_incidents (bot st') !! incident_id) = Some (cost_usd i + c)%Q /\
  total_cost_usd (bot st') = total_cost_usd (bot st) /\
  ~ (total_cost_usd (bot st') == total_cost_usd (bot st) + c)%Q.
Proof.
  intros Hi Hd1 Hd2 Hfail Hc Hpos st'. subst st'.
  destruct (first_call json_loads tpl env i st) as [r w'] eqn:Hex. unfold first_call in Hex.
  simpl in Hfail, Hc.
  rewrite (investigation_failure_run incident_id i st r w' (cost_usd i + c)%Q
             Hi Hd1 Hd2 Hex Hfail) by (unfold float_add; rewrite Hc; reflexivity).
  cbn -[insert]. rewrite lookup_insert_eq. cbn.
  split; [reflexivity|]. split; [reflexivity|].
  intros E. lra.
Qed.

End IncidentRuns.

Lemma investigation_failure_keeps_status_witness :
  let st' := snd (Agent._investigate_incident json_loads templates failing_env
                    "INC-20240101120000" alerted_state) in
  Agent.status <$> (Agent.active_incidents (Agent.bot st') !! "INC-20240101120000")
    = Some "investigating" /\
  Agent.status <$> (Agent.active_incidents (Agent.bot st') !! "INC-20240101120000")
    <> Some "error" /\
  Agent.executions (Agent.log st')
  = (Agent.executions (Agent.log alerted_state)
     ++ [Agent.investigate_args templates (Agent.config (Agent.bot alerted_state))
           (Agent.inc_alert alerted_incident)])%list.
Proof.
  apply (investigation_failure_keeps_status json_loads templates failing_env
           "INC-20240101120000" alerted_incident alerted_state (1 # 50));
    reflexivity.
Defined.

Lemma investigation_failure_cost_not_in_total_witness :
  let st' := snd (Agent._investigate_incident json_loads templates failing_env
                    "INC-20240101120000" alerted_state) in
  Agent.cost_usd <$> (Agent.active_incidents (Agent.bot st') !! "INC-20240101120000")
    = Some (Agent.cost_usd alerted_incident + (1 # 50))%Q /\
  Agent.total_cost_usd (Agent.bot st') = Agent.total_cost_usd (Agent.bot alerted_state) /\
  ~ (Agent.total_cost_usd (Agent.bot st')
     == Agent.total_cost_usd (Agent.bot alerted_state) + (1 # 50))%Q.
Proof.
  apply (investigation_failure_cost_not_in_total json_loads templates failing_env
           "INC-20240101120000" alerted_incident alerted_state (1 # 50));
    reflexivity.
Defined.

(** The failing run, evaluated: one call of [execute], the issue posted,
    the incident still [investigating] with a cost of 0.02, and a total
    of 0. *)
Example failed_investigation_run :
  let r := Agent._investigate_incident json_loads templates failing_env
             "INC-20240101120000" alerted_state in
  fst r = Py.Ok tt /\
  Agent.log (snd r)
  = [Agent.Sent "create_thread"; Agent.Sent "Claude AI Agent Investigating";
     Agent.Scheduled "INC-20240101120000"; Agent.Sent "Step 1";
     Agent.Executed (Agent.investigate_args templates dev_config disk_full);
     Agent.Sent "Investigation Issue"] /\
  (fun i => (Agent.status i, Agent.cost_usd i))
    <$> (Agent.active_incidents (Agent.bot (snd r)) !! "INC-20240101120000")
  = Some ("investigating", (0 + (1 # 50))%Q) /\
  Agent.total_cost_usd (Agent.bot (snd r)) = 0%Q.
Proof. vm_compute. auto. Qed.

Section ApprovalFacts.
Import Approval.

(** Presses of the details button leave the view as it is. *)
Lemma deliver_no_decision (ks : list click) (v : ApprovalView) :
  forallb (fun k => negb (is_decision k)) ks = true -> deliver ks v = v.
Proof.
  revert v. induction ks as [|k ks IH]; intros v H; simpl; [reflexivity|].
  simpl in H. apply andb_true_iff in H. destruct H as [Hk Hks].
  destruct (finished v); [reflexivity|].
  destruct k; simpl in Hk; try discriminate. simpl. apply IH, Hks.
Qed.

(** A view nobody decided on times out; whatever the order in which the
    waiting command and [on_timeout] run, the command sees no approval and
    no responder, and the view ends denied, with no responder. *)
Lemma wait_no_decision (ks : list click) (timeout_first : bool)
    (action : string) (command : Py.pyval) (deadline : Z) :
  forallb (fun k => negb (is_decision k)) ks = true ->
  let w := wait ks timeout_first (init action command deadline) in
  timed_out w = true /\
  approved (final w) = Some false /\ responder (final w) = None /\
  approved (seen w) = (if timeout_first then Some false else None) /\
  responder (seen w) = None.
Proof.
  intros H w. subst w. unfold wait. rewrite (deliver_no_decision _ _ H). simpl.
  destruct timeout_first; repeat split; reflexivity.
Qed.

End ApprovalFacts.

Section Remediate.
Import Py Agent.

Variable json_loads : string -> Executor.json_outcome.
Variable tpl : templates.
Variable env : environment.

Lemma executions_sent (l : list event) (label : string) :
  executions (l ++ [Sent label])%list = executions l.
Proof. rewrite executions_app. cbn. apply app_nil_r. Qed.

(** Phase 2 of [/remediate] when nobody presses approve or deny: no
    approval comes out of it, the view it opened (if Discord let it open
    one) ends denied with no responder, and no child is started. *)
Lemma request_approval_no_decision (invoker : Approval.user) (action : string)
    (analysis_output : pyval) (clicks : list Approval.click) (timeout_first : bool)
    (st : state) :
  forallb (fun k => negb (Approval.is_decision k)) clicks = true ->
  let r := request_approval env invoker action false analysis_output clicks
             timeout_first st in
  (fst r = Ok None \/ fst r = Ok (Some (false, None)) \/ exists e, fst r = Raises e) /\
  (views (snd r) = views st \/
   exists v, views (snd r) = (views st ++ [v])%list /\
             Approval.approved v = Some false /\ Approval.responder v = None) /\
  executions (log (snd r)) = executions (log st) /\
  bot (snd r) = bot st /\ world (snd r) = world st /\ n_exec (snd r) = n_exec st.
Proof.
  intros Hks r. subst r. unfold request_approval.
  unfold bind, lift, discord, record_view, ret.
  destruct (slice_to 2000 analysis_output) as [shown|e]; cbn -[Approval.wait];
    [|intuition eauto].
  destruct (slice_to 1900 analysis_output) as [command|e]; cbn -[Approval.wait];
    [|intuition eauto].
  destruct (discord_env env (n_discord st)) as [e|]; cbn -[Approval.wait];
    [intuition eauto|].
  destruct (wait_no_decision clicks timeout_first action command 300 Hks)
    as (_ & Hfa & Hfr & Hsa & Hsr).
  rewrite Hsa, Hsr.
  destruct timeout_first; cbn -[Approval.wait].
  - rewrite executions_sent. intuition eauto.
  - destruct (discord_env env (S (n_discord st))) as [e|]; cbn -[Approval.wait];
      rewrite ?executions_sent; intuition eauto.
Qed.

(** C5.  In a run of [/remediate] that asks for approval and in which
    nobody presses approve or deny, the deadline of the view fires: a view
    the run opened ends with [approved = False] and no responder (never
    approved, never left undecided), and the only child the run may have
    started is the one of the analysis: the remediation is not executed. *)
Theorem approval_deadline_denies (invoker : Approval.user) (action : string)
    (clicks : list Approval.click) (timeout_first : bool) (st : state) :
  forallb (fun k => negb (Approval.is_decision k)) clicks = true ->
  let st' := snd (remediate_command json_loads tpl env invoker action false
                    clicks timeout_first st) in
  (views st' = views st \/
   exists v, views st' = (views st ++ [v])%list /\
             Approval.approved v = Some false /\ Approval.responder v = None) /\
  (executions (log st') = executions (log st) \/
   executions (log st') = (executions (log st) ++ [analysis_args tpl action])%list) /\
  (n_exec st' <= S (n_exec st))%nat.
Proof.
  intros Hks st'.
  destruct (remediate_command json_loads tpl env invoker action false clicks
              timeout_first st) as [o s] eqn:E.
  subst st'. cbn [snd]. unfold remediate_command in E.
  unfold bind at 1 in E. unfold discord at 1 in E.
  destruct (discord_env env (n_discord st)) as [e|].
  { injection E as _ <-. cbn. auto. }
  unfold bind at 1 in E. unfold discord at 1 in E.
  cbn [n_discord views log n_exec bot world] in E.
  destruct (discord_env env (S (n_discord st))) as [e|].
  { injection E as _ <-. cbn [with_bot views log n_exec]. rewrite executions_sent. auto. }
  unfold bind at 1 in E. unfold execute at 1 in E.
  cbn [n_discord views log n_exec bot world] in E.
  match type of E with
  | context [Executor.execute ?j ?c ?a ?e ?w] =>
      destruct (Executor.execute j c a e w) as [r w']
  end.
  set (l1 := ((((log st ++ [Sent "defer"]) ++ [Sent "Oracle Analyzing"])
                ++ [Executed (analysis_args tpl action)])%list)) in E.
  assert (Hl1 : executions l1 = (executions (log st) ++ [analysis_args tpl action])%list).
  { subst l1. rewrite executions_app, !executions_sent. reflexivity. }
  clearbody l1.
  unfold bind at 1 in E. unfold add_total_cost at 1 in E.
  cbn [n_discord views log n_exec bot world] in E.
  destruct (float_add (total_cost_usd (bot st)) (Executor.get r "cost" (PInt 0)))
    as [q|e].
  2:{ injection E as _ <-. cbn [with_bot views log n_exec]. rewrite Hl1. auto. }
  cbn [with_bot bot world views n_exec n_discord log] in E.
  destruct (Executor.succeeded r); cbn [negb] in E.
  2:{ unfold discord in E. cbn [with_bot n_discord views log n_exec bot world] in E.
      destruct (discord_env env (S (S (n_discord st)))) as [e|];
        injection E as _ <-; cbn [with_bot views log n_exec];
        rewrite ?executions_sent, Hl1; auto. }
  unfold bind at 1 in E. unfold lift at 1 in E.
  destruct (Executor.item r "output") as [analysis_output|e].
  2:{ injection E as _ <-. cbn [with_bot views log n_exec]. rewrite Hl1. auto. }
  unfold bind at 1 in E.
  match type of E with
  | context [request_approval env invoker action false analysis_output clicks
               timeout_first ?s0] =>
      pose proof (request_approval_no_decision invoker action analysis_output clicks
                    timeout_first s0 Hks) as H;
      destruct (request_approval env invoker action false analysis_output clicks
                  timeout_first s0) as [d st4]
  end.
  cbn [with_bot fst snd views log n_exec] in H.
  destruct H as (Ho & Hv & Hl & _ & _ & Hn).
  assert (Hgoal : (views st4 = views st \/
             exists v, views st4 = (views st ++ [v])%list /\
                       Approval.approved v = Some false /\ Approval.responder v = None) /\
            (executions (log st4) = executions (log st) \/
             executions (log st4) = (executions (log st) ++ [analysis_args tpl action])%list) /\
            (n_exec st4 <= S (n_exec st))%nat).
  { split; [exact Hv|]. split; [right; rewrite Hl; exact Hl1|]. rewrite Hn. lia. }
  destruct Ho as [->|[->|[e ->]]]; cbn [ret] in E; injection E as _ <-; exact Hgoal.
Qed.

End Remediate.

Lemma approval_deadline_denies_witness :
  let st' := snd (Agent.remediate_command json_loads templates calm_env
                    "@admin" "restart harbor" false
                    [Approval.ClickDetails "@guest" true] false
                    (initial_state prod_config)) in
  (Agent.views st' = Agent.views (initial_state prod_config) \/
   exists v, Agent.views st' = (Agent.views (initial_state prod_config) ++ [v])%list /\
             Approval.approved v = Some false /\ Approval.responder v = None) /\
  (Agent.executions (Agent.log st') = Agent.executions (Agent.log (initial_state prod_config)) \/
   Agent.executions (Agent.log st')
   = (Agent.executions (Agent.log (initial_state prod_config))
      ++ [Agent.analysis_args templates "restart harbor"])%list) /\
  (Agent.n_exec st' <= S (Agent.n_exec (initial_state prod_config)))%nat.
Proof.
  apply (approval_deadline_denies json_loads templates calm_env
           "@admin" "restart harbor" [Approval.ClickDetails "@guest" true] false
           (initial_state prod_config)).
  reflexivity.
Defined.

(** That run, evaluated, in both orders of the time-out: an approval is
    asked for, nobody decides, the view ends denied with no responder and
    the analysis is the only call of [execute]. *)
Example remediate_times_out :
  forall timeout_first : bool,
  let r := Agent.remediate_command json_loads templates calm_env
             "@admin" "restart harbor" false
             [Approval.ClickDetails "@guest" true] timeout_first
             (initial_state prod_config) in
  fst r = Py.Ok tt /\
  (fun v => (Approval.approved v, Approval.responder v)) <$> Agent.views (snd r)
  = [(Some false, None)] /\
  Agent.executions (Agent.log (snd r)) = [Agent.analysis_args templates "restart harbor"] /\
  In (Agent.Sent "Remediation Approval Required") (Agent.log (snd r)).
Proof. intros [|]; vm_compute; auto 10. Qed.

(** With an approval, the remediation is executed. *)
Example remediate_approved :
  let r := Agent.remediate_command json_loads templates calm_env
             "@admin" "restart harbor" false
             [Approval.ClickApprove "@operator" true] false
             (initial_state prod_config) in
  fst r = Py.Ok tt /\
  (fun v => (Approval.approved v, Approval.responder v)) <$> Agent.views (snd r)
  = [(Some true, Some "@operator")] /\
  Agent.executions (Agent.log (snd r))
  = [Agent.analysis_args templates "restart harbor";
     Agent.remediation_exec_args templates prod_config "restart harbor"].
Proof. vm_compute. auto. Qed.

(* ===================================================================== *)
(** * Whole runs                                                          *)
(* ===================================================================== *)

(** An alert is accepted and investigated with automatic remediation off:
    two calls of [execute], the incident ends as [needs_action], and its
    cost, the sum of the two phases, is added to the total. *)
Example incident_needs_action :
  let st0 := snd (Agent.handle_alert calm_env (Some disk_full)
                    1704110400000001 1704110400000002 (initial_state dev_config)) in
  let r := Agent._investigate_incident json_loads templates calm_env
             "INC-20240101120000" st0 in
  fst r = Py.Ok tt /\
  Agent.status <$> (Agent.active_incidents (Agent.bot (snd r)) !! "INC-20240101120000")
    = Some "needs_action" /\
  List.length (Agent.executions (Agent.log (snd r))) = 2%nat /\
  (fun i => Qeq_bool (Agent.cost_usd i) (1 # 2))
    <$> (Agent.active_incidents (Agent.bot (snd r)) !! "INC-20240101120000")
    = Some true /\
  Qeq_bool (Agent.total_cost_usd (Agent.bot (snd r))) (1 # 2) = true.
Proof. vm_compute. auto 10. Qed.

(** The same with automatic remediation on: three calls, [resolved]. *)
Example incident_resolved :
  let st0 := snd (Agent.handle_alert calm_env (Some disk_full)
                    1704110400000001 1704110400000002 (initial_state prod_config)) in
  let r := Agent._investigate_incident json_loads templates calm_env
             "INC-20240101120000" st0 in
  fst r = Py.Ok tt /\
  Agent.status <$> (Agent.active_incidents (Agent.bot (snd r)) !! "INC-20240101120000")
    = Some "resolved" /\
  Agent.executions (Agent.log (snd r))
  = [Agent.investigate_args templates prod_config disk_full;
     Agent.diagnostics_args templates prod_config disk_full (Py.PStr "All containers are up");
     Agent.remediation_args templates prod_config disk_full (Py.PStr "All containers are up")] /\
  Qeq_bool (Agent.total_cost_usd (Agent.bot (snd r))) (3 # 4) = true.
Proof. vm_compute. auto 10. Qed.

(** When Discord refuses a message during step 1, the handler of the
    method marks the incident as [error]. *)
Example incident_error_on_fault :
  let st0 := snd (Agent.handle_alert calm_env (Some disk_full)
                    1704110400000001 1704110400000002 (initial_state dev_config)) in
  let flaky := {| Agent.exec_env := fun _ => successful_call;
                  Agent.discord_env := fun k =>
                    if (k =? 2)%nat
                    then Some (Py.mkExn (Py.OtherException "HTTPException") "503")
                    else None |} in
  let r := Agent._investigate_incident json_loads templates flaky
             "INC-20240101120000" st0 in
  fst r = Py.Ok tt /\
  Agent.status <$> (Agent.active_incidents (Agent.bot (snd r)) !! "INC-20240101120000")
    = Some "error" /\
  Agent.executions (Agent.log (snd r)) = [].
Proof. vm_compute. auto. Qed.

(** Two turns of a conversation: the first starts a session, the second
    resumes it with the [-r] flag, and both deny the interactive tool. *)
Example conversation_commands :
  let turn now := Agent._handle_agent_conversation json_loads sample_uuid4 templates
                    calm_env "alice" "is harbor up?" 7 now now now in
  let st1 := snd (turn 1000 (initial_state prod_config)) in
  let st2 := snd (turn 2000 st1) in
  Executor.p_cmd <$> Executor.procs (Agent.world st2)
  = [["claude"; "--print"; "--output-format"; "json"; "--session-id"; "session-0";
      "--max-turns"; "15"; "--model"; "claude-opus-4-5-20250514";
      "--disallowedTools"; "AskUserQuestion,Write,Edit,MultiEdit";
      "--max-budget-usd"; "1.0"; "--system-prompt"; "/tmp/tmpq1w2e3.md";
      "alice: is harbor up?"];
     ["claude"; "--print"; "--output-format"; "json"; "-r"; "--session-id"; "session-0";
      "--max-turns"; "15"; "--model"; "claude-opus-4-5-20250514";
      "--disallowedTools"; "AskUserQuestion,Write,Edit,MultiEdit";
      "--max-budget-usd"; "1.0"; "--system-prompt"; "/tmp/tmpq1w2e3.md";
      "alice: is harbor up?"]] /\
  Sessions.token_and_count
    <$> (Sessions.sessions (Agent.session_manager (Agent.bot st2)) !! 7)
  = Some ("session-0", 2).
Proof. vm_compute. auto. Qed.

(* ===================================================================== *)
(** * Further properties of the session manager                           *)
(* ===================================================================== *)

Import MoreSamples.

Section SessionExtras.
Import Sessions.

Variable uuid4 : nat -> string.
Hypothesis uuid4_distinct : forall i j, uuid4 i = uuid4 j -> i = j.

(** [reset_session] replaces whatever the channel had, live or not: the
    token it returns is carried by no session stored before, the new
    session starts at one message and no cost, and the other channels keep
    their sessions. *)
Theorem reset_session_fresh (timeout : Z) (m : SessionManager) (c : Z)
    (tc tl : datetime) :
  reachable uuid4 timeout m ->
  let r := reset_session uuid4 tc tl c m in
  (forall c' s', sessions m !! c' = Some s' -> session_id s' <> fst r) /\
  sessions (snd r) !! c
  = Some {| session_id := fst r; channel_id := c; created_at := tc; last_used := tl;
            message_count := 1; total_cost := 0 |} /\
  (forall c', c' <> c -> sessions (snd r) !! c' = sessions m !! c').
Proof.
  intros Hm r. subst r. unfold reset_session. simpl.
  pose proof (reachable_tokens_issued uuid4 _ _ Hm) as Htok.
  split; [|split].
  - intros c' s' Hs' Heq. destruct (Htok _ _ Hs') as (i & Hi & E).
    rewrite E in Heq. apply uuid4_distinct in Heq. lia.
  - apply lookup_insert_eq.
  - intros c' Hne. apply lookup_insert_ne. congruence.
Qed.

End SessionExtras.

Lemma reset_session_fresh_witness :
  let r := Sessions.reset_session sample_uuid4 50 51 7 sample_manager in
  (forall c' s', Sessions.sessions sample_manager !! c' = Some s' ->
                 Sessions.session_id s' <> fst r) /\
  Sessions.sessions (snd r) !! 7
  = Some {| Sessions.session_id := fst r; Sessions.channel_id := 7;
            Sessions.created_at := 50; Sessions.last_used := 51;
            Sessions.message_count := 1; Sessions.total_cost := 0 |} /\
  (forall c', c' <> 7 -> Sessions.sessions (snd r) !! c' = Sessions.sessions sample_manager !! c').
Proof.
  apply (reset_session_fresh sample_uuid4 sample_uuid4_distinct 30 sample_manager 7 50 51).
  apply reachable_run_calls, Sessions.reach_init.
Defined.

Section SessionFrame.
Import Sessions.

Variable uuid4 : nat -> string.

(** A call for one channel never touches the session of another channel,
    and never changes the time-out of the manager. *)
Theorem session_calls_are_local (k : call) (m : SessionManager) (c' : Z) :
  c' <> SessionCalls.channel_of k ->
  sessions (run_call uuid4 k m) !! c' = sessions m !! c' /\
  session_timeout (run_call uuid4 k m) = session_timeout m.
Proof.
  intros Hne. split; [|apply run_call_timeout].
  destruct k as [now tc tl c|tc tl c|c cost|c]; simpl in *.
  - destruct (get_or_create_session_cases uuid4 now tc tl c m)
      as [(s & _ & _ & ->)|[_ ->]]; simpl; apply lookup_insert_ne; congruence.
  - apply lookup_insert_ne. congruence.
  - unfold update_cost. destruct (sessions m !! c); [|reflexivity].
    simpl. apply lookup_insert_ne. congruence.
  - reflexivity.
Qed.

(** [update_cost] does nothing for a channel without a session; for a
    channel with one it adds the amount to the session's total and leaves
    the rest of the session alone, so that two updates add up. *)
Theorem update_cost_accumulates (c : Z) (a b : Q) (m : SessionManager) :
  (sessions m !! c = None -> update_cost c a m = m) /\
  (forall s, sessions m !! c = Some s ->
     exists s1 s2,
       sessions (update_cost c a m) !! c = Some s1 /\
       total_cost s1 = (total_cost s + a)%Q /\
       (session_id s1, channel_id s1, created_at s1, last_used s1, message_count s1)
       = (session_id s, channel_id s, created_at s, last_used s, message_count s) /\
       sessions (update_cost c b (update_cost c a m)) !! c = Some s2 /\
       (total_cost s2 == total_cost s + (a + b))%Q).
Proof.
  split.
  - intros H. unfold update_cost. rewrite H. reflexivity.
  - intros s Hs. unfold update_cost at 1 3. rewrite Hs.
    eexists. eexists. split; [apply lookup_insert_eq|]. simpl.
    split; [reflexivity|]. split; [reflexivity|].
    unfold update_cost. simpl. rewrite lookup_insert_eq. simpl.
    split; [apply lookup_insert_eq|]. simpl. ring.
Qed.

(** The edges of the time-out window.  With a time-out of zero minutes or
    less, a call whose clock reading is not before [last_used] never
    resumes; with a positive time-out, a call whose clock reading is not
    after [last_used] (the clock was set back) resumes. *)
Theorem session_window_edges (now tc tl : datetime) (c : Z) (m : SessionManager)
    (s : ChannelSession) :
  sessions m !! c = Some s ->
  (session_timeout m <= 0 -> last_used s <= now ->
   snd (fst (get_or_create_session uuid4 now tc tl c m)) = false) /\
  (0 < session_timeout m -> now <= last_used s ->
   fst (get_or_create_session uuid4 now tc tl c m) = (session_id s, true)).
Proof.
  intros Hs. split.
  - intros Hto Hnow.
    destruct (get_or_create_session_cases uuid4 now tc tl c m)
      as [(s' & Hs' & Hlive & _)|[_ ->]]; [|reflexivity].
    rewrite Hs in Hs'. injection Hs' as <-. apply is_live_spec in Hlive. lia.
  - intros Hto Hnow.
    destruct (get_or_create_session_cases uuid4 now tc tl c m)
      as [(s' & Hs' & _ & ->)|[Hdead _]].
    + rewrite Hs in Hs'. injection Hs' as <-. reflexivity.
    + specialize (Hdead _ Hs). apply is_live_false in Hdead. lia.
Qed.

End SessionFrame.

Lemma session_calls_are_local_witness :
  Sessions.sessions (Sessions.run_call sample_uuid4 (Sessions.Reset 50 51 7) sample_manager) !! 9
  = Sessions.sessions sample_manager !! 9 /\
  Sessions.session_timeout (Sessions.run_call sample_uuid4 (Sessions.Reset 50 51 7) sample_manager)
  = Sessions.session_timeout sample_manager.
Proof.
  apply (session_calls_are_local sample_uuid4 (Sessions.Reset 50 51 7) sample_manager 9).
  discriminate.
Defined.

Lemma session_window_edges_witness :
  (Sessions.session_timeout sample_manager <= 0 -> 21 <= 10 ->
   snd (fst (Sessions.get_or_create_session sample_uuid4 10 31 32 9 sample_manager)) = false) /\
  (0 < Sessions.session_timeout sample_manager -> 10 <= 21 ->
   fst (Sessions.get_or_create_session sample_uuid4 10 31 32 9 sample_manager)
   = ("session-1", true)).
Proof.
  apply (session_window_edges sample_uuid4 10 31 32 9 sample_manager
           {| Sessions.session_id := "session-1"; Sessions.channel_id := 9;
              Sessions.created_at := 20; Sessions.last_used := 21;
              Sessions.message_count := 1; Sessions.total_cost := 0 |}).
  reflexivity.
Defined.

(* ===================================================================== *)
(** * Further properties of the executor                                  *)
(* ===================================================================== *)

Section ExecutorExtras.
Import Py Executor.

Variable json_loads : string -> json_outcome.

Lemma parse_output_shape a env :
  exists b, parse_output json_loads a env !! "success" = Some (PBool b) /\
            is_Some (parse_output json_loads a env !! "output").
Proof.
  unfold parse_output.
  destruct (json_loads (stdout_text env)) as [v| |e].
  - destruct v; try (exists false; split; [apply on_exception_success|];
                     unfold on_exception; simpl; eexists; reflexivity).
    eexists. split; [reflexivity|]. eexists. reflexivity.
  - eexists. split; [reflexivity|]. eexists. reflexivity.
  - exists false. split; [apply on_exception_success|].
    unfold on_exception. destruct (exn_cls e); eexists; reflexivity.
Qed.

Lemma on_exception_output timeout e :
  on_exception timeout e !! "output" = Some (PStr EmptyString).
Proof. unfold on_exception. destruct (exn_cls e); reflexivity. Qed.

(** Whatever happens, the dictionary [execute] returns has a boolean under
    ['success'] and a value under ['output']: the subscripts
    [result['success']] and [result['output']] of the callers cannot raise
    [KeyError]. *)
Theorem execute_result_shape cwd a env w :
  let r := fst (execute json_loads cwd a env w) in
  (exists b, r !! "success" = Some (PBool b)) /\
  (exists v, item r "output" = Ok v) /\
  succeeded r = from_opt false (match r !! "success" with
                                | Some (PBool b) => Some b | _ => None end).
Proof.
  intros r. subst r.
  assert (H : exists b, fst (execute json_loads cwd a env w) !! "success" = Some (PBool b) /\
                        is_Some (fst (execute json_loads cwd a env w) !! "output")).
  { destruct (tmp_create env) as [name|e] eqn:H1.
    - destruct (spawn env) as [e|] eqn:H2.
      + rewrite (execute_spawn_raises json_loads cwd a env w name e H1 H2). simpl.
        exists false. rewrite on_exception_success, on_exception_output. eauto.
      + destruct (completes_in_time env (timeout a)) eqn:H3.
        * rewrite (execute_completes json_loads cwd a env w name H1 H2 H3). simpl.
          apply parse_output_shape.
        * rewrite (execute_times_out json_loads cwd a env w name H1 H2 H3). simpl.
          exists false. rewrite on_exception_success, on_exception_output. eauto.
    - rewrite (execute_tmp_raises json_loads cwd a env w e H1). simpl.
      exists false. rewrite on_exception_success, on_exception_output. eauto. }
  destruct H as (b & Hb & v & Hv).
  split; [eauto|]. split.
  - unfold item. rewrite Hv. eauto.
  - unfold succeeded, get. rewrite Hb. reflexivity.
Qed.

(** [execute] reports success only for a child that was started, exited
    within the time-out with status 0, and printed either a JSON object or
    something that is not JSON at all. *)
Theorem execute_success_means_exit_0 cwd a env w :
  succeeded (fst (execute json_loads cwd a env w)) = true ->
  (exists name, tmp_create env = Ok name) /\ spawn env = None /\
  completes_in_time env (timeout a) = true /\ returncode env = 0 /\
  ((exists d, json_loads (stdout_text env) = Decoded (PDict d)) \/
   json_loads (stdout_text env) = JSONDecodeError).
Proof.
  assert (Hexc : forall e, succeeded (on_exception (timeout a) e) = false).
  { intros e. unfold succeeded, get. rewrite on_exception_success. reflexivity. }
  intros H.
  destruct (tmp_create env) as [name|e] eqn:H1.
  2:{ rewrite (execute_tmp_raises json_loads cwd a env w e H1) in H. simpl in H.
      rewrite Hexc in H. discriminate. }
  destruct (spawn env) as [e|] eqn:H2.
  { rewrite (execute_spawn_raises json_loads cwd a env w name e H1 H2) in H. simpl in H.
    rewrite Hexc in H. discriminate. }
  destruct (completes_in_time env (timeout a)) eqn:H3.
  2:{ rewrite (execute_times_out json_loads cwd a env w name H1 H2 H3) in H. simpl in H.
      rewrite Hexc in H. discriminate. }
  rewrite (execute_completes json_loads cwd a env w name H1 H2 H3) in H. simpl in H.
  unfold parse_output in H.
  split; [eauto|]. split; [reflexivity|]. split; [reflexivity|].
  destruct (json_loads (stdout_text env)) as [v| |e].
  - destruct v; try (rewrite Hexc in H; discriminate).
    unfold succeeded, get in H.
    change (truthy (PBool (returncode env =? 0)) = true) in H. simpl in H.
    apply Z.eqb_eq in H. split; [exact H|]. left. eauto.
  - unfold succeeded, get in H.
    change (truthy (PBool (returncode env =? 0)) = true) in H. simpl in H.
    apply Z.eqb_eq in H. split; [exact H|]. right. reflexivity.
  - rewrite Hexc in H. discriminate.
Qed.

(** Valid JSON that is not an object (a list, a number, a string, [null])
    makes [execute] fail, also when the child exited with status 0: the
    lookup of the fields raises and the generic handler answers, with
    empty output and the text of the [AttributeError]. *)
Theorem execute_json_not_an_object cwd a env w name v :
  tmp_create env = Ok name -> spawn env = None ->
  completes_in_time env (timeout a) = true ->
  json_loads (stdout_text env) = Decoded v ->
  (forall d, v <> PDict d) ->
  let r := fst (execute json_loads cwd a env w) in
  r !! "success" = Some (PBool false) /\
  r !! "output" = Some (PStr EmptyString) /\
  r !! "error" = Some (PStr ("'" ++ type_name v ++ "' object has no attribute 'get'")) /\
  r !! "cost" = None.
Proof.
  intros H1 H2 H3 Hj Hv r. subst r.
  rewrite (execute_completes json_loads cwd a env w name H1 H2 H3). simpl.
  unfold parse_output. rewrite Hj.
  destruct v; try (repeat split; reflexivity).
  exfalso. eapply Hv. reflexivity.
Qed.

(** Output that is not JSON from a child that exited with status 0 is a
    success: the raw text is the output, the cost is 0 and the session
    empty; the error field holds standard error, or [None] when that is
    empty. *)
Theorem execute_raw_text_succeeds cwd a env w name :
  tmp_create env = Ok name -> spawn env = None ->
  completes_in_time env (timeout a) = true ->
  json_loads (stdout_text env) = JSONDecodeError ->
  returncode env = 0 ->
  let r := fst (execute json_loads cwd a env w) in
  r !! "success" = Some (PBool true) /\
  r !! "output" = Some (PStr (stdout_text env)) /\
  r !! "cost" = Some (PInt 0) /\
  r !! "session_id" = Some (PStr EmptyString) /\
  r !! "error" = Some (if (String.length (stderr_text env) =? 0)%nat
                       then PNone else PStr (stderr_text env)).
Proof.
  intros H1 H2 H3 Hj Hrc r. subst r.
  rewrite (execute_completes json_loads cwd a env w name H1 H2 H3). simpl.
  unfold parse_output. rewrite Hj.
  assert (E : error_msg env = if (String.length (stderr_text env) =? 0)%nat
                              then PNone else PStr (stderr_text env)).
  { unfold error_msg. rewrite Hrc. reflexivity. }
  rewrite <- E.
  repeat split; try reflexivity.
  change (Some (PBool (returncode env =? 0)) = Some (PBool true)). rewrite Hrc. reflexivity.
Qed.

(** When the temporary file cannot be created nothing else is attempted:
    no child is started and the world is as before.  The error text is
    chosen by the class of the exception alone, so a [FileNotFoundError]
    of the temporary directory is reported as a missing Claude CLI. *)
Theorem execute_tmp_failure cwd a env w e :
  tmp_create env = Raises e ->
  snd (execute json_loads cwd a env w) = w /\
  (exn_cls e = FileNotFoundError ->
   fst (execute json_loads cwd a env w) !! "error"
   = Some (PStr "Claude CLI not found. Ensure it is installed and in PATH.")) /\
  (forall n, exn_cls e = OtherException n ->
   fst (execute json_loads cwd a env w) !! "error" = Some (PStr (exn_msg e))).
Proof.
  intros H. rewrite (execute_tmp_raises json_loads cwd a env w e H). simpl.
  split; [reflexivity|]. unfold on_exception.
  split; [intros ->; reflexivity | intros n ->; reflexivity].
Qed.

(** What [execute] does to the world, on every path: it starts at most one
    child, in the code base directory, with a command that begins with
    [claude --print --output-format json] and ends with the prompt; it
    never touches the children started before; and the only file it may
    leave behind or remove is its own temporary file. *)
Theorem execute_world_frame cwd a env w :
  let w' := snd (execute json_loads cwd a env w) in
  (procs w' = procs w \/
   exists p mid, procs w' = (procs w ++ [p])%list /\ p_cwd p = cwd /\
     p_cmd p = (["claude"; "--print"; "--output-format"; "json"] ++ mid ++ [prompt a])%list) /\
  (forall f, tmp_create env <> Ok f -> (f ∈ files w' <-> f ∈ files w)).
Proof.
  intros w'. subst w'.
  assert (Hcmd : forall name, exists mid,
             full_cmd a env name
             = (["claude"; "--print"; "--output-format"; "json"] ++ mid ++ [prompt a])%list).
  { intros name. unfold full_cmd.
    set (R := drop 4 (build_cmd a)).
    assert (Hb : build_cmd a
                 = (["claude"; "--print"; "--output-format"; "json"] ++ R)%list)
      by reflexivity.
    clearbody R. rewrite Hb.
    destruct (tmp_write env);
      [exists R | exists (R ++ ["--system-prompt"; name])%list];
      rewrite <- !app_assoc; reflexivity. }
  destruct (tmp_create env) as [name|e] eqn:H1.
  2:{ rewrite (execute_tmp_raises json_loads cwd a env w e H1). simpl.
      split; [left; reflexivity|]. tauto. }
  assert (Hfile : forall (X : gset string) f, Ok name <> Ok f ->
            (f ∈ ({[name]} ∪ X) <-> f ∈ X) /\ (f ∈ (({[name]} ∪ X) ∖ {[name]}) <-> f ∈ X)).
  { intros X f Hne. assert (f <> name) by congruence.
    rewrite elem_of_difference, elem_of_union, !elem_of_singleton. tauto. }
  destruct (spawn env) as [e|] eqn:H2.
  { rewrite (execute_spawn_raises json_loads cwd a env w name e H1 H2). simpl.
    split; [left; reflexivity|]. intros f Hf. apply Hfile, Hf. }
  destruct (Hcmd name) as (mid & Hmid).
  destruct (completes_in_time env (timeout a)) eqn:H3.
  - rewrite (execute_completes json_loads cwd a env w name H1 H2 H3). simpl.
    split.
    + right. eexists. exists mid. split; [reflexivity|]. simpl. auto.
    + intros f Hf. destruct (unlink env); apply Hfile, Hf.
  - rewrite (execute_times_out json_loads cwd a env w name H1 H2 H3). simpl.
    split.
    + right. eexists. exists mid. split; [reflexivity|]. simpl. auto.
    + intros f Hf. apply Hfile, Hf.
Qed.

(** On every path the wait of [execute] is bounded by the time-out: the
    clock never moves back and advances by at most [timeout] seconds (by
    nothing for a time-out that is not positive). *)
Theorem execute_wait_bounded cwd a env w :
  0 <= run_us env ->
  let w' := snd (execute json_loads cwd a env w) in
  clock w <= clock w' <= clock w + Z.max 0 (timeout a * 1000000).
Proof.
  intros Hrun w'. subst w'.
  destruct (tmp_create env) as [name|e] eqn:H1.
  2:{ rewrite (execute_tmp_raises json_loads cwd a env w e H1). simpl. lia. }
  destruct (spawn env) as [e|] eqn:H2.
  { rewrite (execute_spawn_raises json_loads cwd a env w name e H1 H2). simpl. lia. }
  destruct (completes_in_time env (timeout a)) eqn:H3.
  - rewrite (execute_completes json_loads cwd a env w name H1 H2 H3). simpl.
    unfold completes_in_time in H3. apply Z.ltb_lt in H3. lia.
  - rewrite (execute_times_out json_loads cwd a env w name H1 H2 H3). simpl. lia.
Qed.

End ExecutorExtras.

Lemma execute_success_means_exit_0_witness :
  (exists name, Executor.tmp_create successful_call = Py.Ok name) /\
  Executor.spawn successful_call = None /\
  Executor.completes_in_time successful_call
    (Executor.timeout (Executor.default_args "Is Harbor up?")) = true /\
  Executor.returncode successful_call = 0 /\
  ((exists d, json_loads (Executor.stdout_text successful_call)
              = Executor.Decoded (Py.PDict d)) \/
   json_loads (Executor.stdout_text successful_call) = Executor.JSONDecodeError).
Proof.
  apply (execute_success_means_exit_0 json_loads cwd
           (Executor.default_args "Is Harbor up?") successful_call empty_world).
  reflexivity.
Defined.

Lemma execute_json_not_an_object_witness :
  let r := fst (Executor.execute json_loads_values cwd (Executor.default_args "Is Harbor up?")
                  (call 2000000 "[1, 2]" EmptyString 0) empty_world) in
  r !! "success" = Some (Py.PBool false) /\
  r !! "output" = Some (Py.PStr EmptyString) /\
  r !! "error" = Some (Py.PStr "'list' object has no attribute 'get'") /\
  r !! "cost" = None.
Proof.
  apply (execute_json_not_an_object json_loads_values cwd
           (Executor.default_args "Is Harbor up?")
           (call 2000000 "[1, 2]" EmptyString 0) empty_world "/tmp/tmpq1w2e3.md"
           (Py.PList [Py.PInt 1; Py.PInt 2])); try reflexivity.
  discriminate.
Defined.

Lemma execute_raw_text_succeeds_witness :
  let r := fst (Executor.execute json_loads cwd (Executor.default_args "Is Harbor up?")
                  (call 2000000 "not json" "warning: slow" 0) empty_world) in
  r !! "success" = Some (Py.PBool true) /\
  r !! "output" = Some (Py.PStr "not json") /\
  r !! "cost" = Some (Py.PInt 0) /\
  r !! "session_id" = Some (Py.PStr EmptyString) /\
  r !! "error" = Some (Py.PStr "warning: slow").
Proof.
  apply (execute_raw_text_succeeds json_loads cwd (Executor.default_args "Is Harbor up?")
           (call 2000000 "not json" "warning: slow" 0) empty_world "/tmp/tmpq1w2e3.md");
    reflexivity.
Defined.

Lemma execute_tmp_failure_witness :
  snd (Executor.execute json_loads cwd one_second_args no_tmp_dir_call empty_world)
  = empty_world /\
  (Py.exn_cls (Py.mkExn Py.FileNotFoundError "[Errno 2] No usable temporary directory found")
   = Py.FileNotFoundError ->
   fst (Executor.execute json_loads cwd one_second_args no_tmp_dir_call empty_world) !! "error"
   = Some (Py.PStr "Claude CLI not found. Ensure it is installed and in PATH.")) /\
  (forall n,
   Py.exn_cls (Py.mkExn Py.FileNotFoundError "[Errno 2] No usable temporary directory found")
   = Py.OtherException n ->
   fst (Executor.execute json_loads cwd one_second_args no_tmp_dir_call empty_world) !! "error"
   = Some (Py.PStr "[Errno 2] No usable temporary directory found")).
Proof.
  apply (execute_tmp_failure json_loads cwd one_second_args no_tmp_dir_call empty_world
           (Py.mkExn Py.FileNotFoundError "[Errno 2] No usable temporary directory found")).
  reflexivity.
Defined.

Lemma execute_wait_bounded_witness :
  let w' := snd (Executor.execute json_loads cwd one_second_args sleeping_call empty_world) in
  Executor.clock empty_world <= Executor.clock w'
  <= Executor.clock empty_world + Z.max 0 (Executor.timeout one_second_args * 1000000).
Proof.
  apply (execute_wait_bounded json_loads cwd one_second_args sleeping_call empty_world).
  vm_compute. discriminate.
Defined.

Section ToolPolicy.
Import Py Executor.

Variable tpl : Agent.templates.

(** The environment decides which tools the incident phases, the
    conversation turns and the execution phase of [/remediate] deny.  In an
    environment whose name is [dev] in any letter case only the interactive
    question tool is denied; in every other environment the three editing
    tools are denied as well, and the child is told so. *)
Theorem tool_policy_by_environment (cfg : Config.Config) (al : Agent.alert)
    (shown : pyval) (author content sid action : string) (resume : bool) :
  let calls := [Agent.investigate_args tpl cfg al; Agent.diagnostics_args tpl cfg al shown;
                Agent.remediation_args tpl cfg al shown;
                Agent.conversation_args tpl cfg author content sid resume;
                Agent.remediation_exec_args tpl cfg action] in
  let denies (l : list string) (a : exec_args) :=
    disallowed_tools a = Some l /\
    (session_id a = None ->
     arg_of "--disallowedTools" (build_cmd a) = Some (join "," l)) in
  (Config.lower (Config.environment cfg) = "dev" ->
   Forall (denies ["AskUserQuestion"]) calls) /\
  (Config.lower (Config.environment cfg) <> "dev" ->
   Forall (denies ["AskUserQuestion"; "Write"; "Edit"; "MultiEdit"]) calls).
Proof.
  intros calls denies. subst calls denies.
  split; intros Henv.
  - assert (Hd : _get_disallowed_tools cfg = Some ["AskUserQuestion"]).
    { unfold _get_disallowed_tools, Config.allow_edit_tools. rewrite Henv. reflexivity. }
    repeat constructor; try exact Hd; try discriminate; intros _;
      unfold build_cmd;
      cbn [Agent.investigate_args Agent.diagnostics_args Agent.remediation_args
           Agent.remediation_exec_args disallowed_tools];
      rewrite Hd; reflexivity.
  - assert (Hd : _get_disallowed_tools cfg
                 = Some ["AskUserQuestion"; "Write"; "Edit"; "MultiEdit"]).
    { unfold _get_disallowed_tools, Config.allow_edit_tools.
      destruct (String.eqb_spec (Config.lower (Config.environment cfg)) "dev");
        [contradiction|reflexivity]. }
    repeat constructor; try exact Hd; try discriminate; intros _;
      unfold build_cmd;
      cbn [Agent.investigate_args Agent.diagnostics_args Agent.remediation_args
           Agent.remediation_exec_args disallowed_tools];
      rewrite Hd; reflexivity.
Qed.

End ToolPolicy.

(* ===================================================================== *)
(** * Rules for runs of the agent                                         *)
(* ===================================================================== *)

Section RunRules.
Import Py Agent AgentLogic.

Variable json_loads : string -> Executor.json_outcome.
Variable env : environment.

Context {A B : Type}.

Lemma wp_ret (a : A) Q E st : Q a st -> wp (ret a) Q E st.
Proof. intros H. exact H. Qed.

Lemma wp_raise (e : exn) (Q : A -> state -> Prop) E st : E e st -> wp (raise e) Q E st.
Proof. intros H. exact H. Qed.

Lemma wp_lift (o : outcome A) Q E st :
  match o with Ok a => Q a st | Raises e => E e st end -> wp (lift o) Q E st.
Proof. intros H. unfold wp, lift. destruct o; exact H. Qed.

Lemma wp_read (f : state -> A) Q E st : Q (f st) st -> wp (read f) Q E st.
Proof. intros H. exact H. Qed.

Lemma wp_bind (m : M A) (k : A -> M B) Q E st :
  wp m (fun a st' => wp (k a) Q E st') E st -> wp (bind m k) Q E st.
Proof.
  unfold wp, bind. destruct (m st) as [[a|e] st']; intros H; exact H.
Qed.

Lemma wp_try_except (m : M A) (h : exn -> M A) Q E st :
  wp m Q (fun e st' => wp (h e) Q E st') st -> wp (try_except m h) Q E st.
Proof.
  unfold wp, try_except. destruct (m st) as [[a|e] st']; intros H; exact H.
Qed.

(** Post-conditions that hold everywhere hold after any run. *)
Lemma wp_any (m : M A) (Q : A -> state -> Prop) (E : exn -> state -> Prop) st :
  (forall a st', Q a st') -> (forall e st', E e st') -> wp m Q E st.
Proof. intros HQ HE. unfold wp. destruct (m st) as [[a|e] st']; auto. Qed.

Lemma wp_weaken (m : M A) (Q Q' : A -> state -> Prop) (E E' : exn -> state -> Prop) st :
  wp m Q E st -> (forall a st', Q a st' -> Q' a st') -> (forall e st', E e st' -> E' e st') ->
  wp m Q' E' st.
Proof. unfold wp. destruct (m st) as [[a|e] st']; auto. Qed.

End RunRules.

Section RunRulesPrimitives.
Import Py Agent AgentLogic.

Variable json_loads : string -> Executor.json_outcome.
Variable env : environment.

Lemma wp_modify (f : state -> state) Q E st : Q tt (f st) -> wp (modify f) Q E st.
Proof. intros H. exact H. Qed.

Lemma wp_discord (label : string) Q E st :
  match discord_env env (n_discord st) with
  | Some e => E e (refused st)
  | None => Q tt (sent label st)
  end ->
  wp (discord env label) Q E st.
Proof.
  unfold wp, discord. destruct (discord_env env (n_discord st)); intros H; exact H.
Qed.

Lemma wp_execute (a : Executor.exec_args) Q E st :
  (forall r w',
     Executor.execute json_loads (Config.codebase_path (config (bot st))) a
       (exec_env env (n_exec st)) (world st) = (r, w') ->
     Q r (executed a w' st)) ->
  wp (execute json_loads env a) Q E st.
Proof.
  unfold wp, execute. intros H.
  destruct (Executor.execute json_loads (Config.codebase_path (config (bot st))) a
              (exec_env env (n_exec st)) (world st)) as [r w'] eqn:Hx.
  exact (H r w' eq_refl).
Qed.

Lemma wp_add_incident_cost (incident_id : string) (v : pyval) Q E st :
  match active_incidents (bot st) !! incident_id with
  | None => Q tt st
  | Some i =>
      match float_add (cost_usd i) v with
      | Ok q => Q tt (with_bot (set_incidents
                        (<[incident_id := set_cost q i]> (active_incidents (bot st)))) st)
      | Raises e => E e st
      end
  end ->
  wp (add_incident_cost incident_id v) Q E st.
Proof.
  unfold wp, add_incident_cost.
  destruct (active_incidents (bot st) !! incident_id) as [i|]; [|auto].
  destruct (float_add (cost_usd i) v); auto.
Qed.

Lemma wp_add_total_cost (v : pyval) Q E st :
  match float_add (total_cost_usd (bot st)) v with
  | Ok q => Q tt (with_bot (set_total_cost q) st)
  | Raises e => E e st
  end ->
  wp (add_total_cost v) Q E st.
Proof.
  unfold wp, add_total_cost. destruct (float_add (total_cost_usd (bot st)) v); auto.
Qed.

End RunRulesPrimitives.

(** Symbolic execution of a run, one construct at a time. *)
Ltac wp_simpl :=
  cbv beta;
  cbn [Agent.bot Agent.world Agent.views Agent.n_exec Agent.n_discord Agent.log
       Agent.config Agent.active_incidents Agent.auto_respond Agent.total_cost_usd
       Agent.session_manager
       AgentLogic.refused AgentLogic.sent AgentLogic.executed
       Agent.with_bot Agent.set_incidents Agent.set_total_cost
       Agent.set_session_manager fst snd];
  repeat match goal with
         | H : ?l !! ?k = _ |- context [?l !! ?k] => rewrite H
         end;
  cbv beta iota.

Ltac wp_step :=
  lazymatch goal with
  | |- AgentLogic.wp (Agent.bind _ _) _ _ _ => apply wp_bind
  | |- AgentLogic.wp (Agent.try_except _ _) _ _ _ => apply wp_try_except
  | |- AgentLogic.wp (Agent.ret _) _ _ _ => apply wp_ret
  | |- AgentLogic.wp (Agent.raise _) _ _ _ => apply wp_raise
  | |- AgentLogic.wp (Agent.read _) _ _ _ => apply wp_read
  | |- AgentLogic.wp (Agent.modify _) _ _ _ => apply wp_modify
  | |- AgentLogic.wp (Agent.lift ?o) _ _ _ => apply wp_lift; destruct o eqn:?
  | |- AgentLogic.wp (Agent.discord ?env _) _ _ ?st =>
      apply wp_discord; wp_simpl;
      lazymatch goal with
      | |- match ?x with _ => _ end => destruct x eqn:?
      end
  | |- AgentLogic.wp (Agent.execute _ _ _) _ _ _ => apply wp_execute; intros ? ? ?
  | |- AgentLogic.wp (Agent.add_incident_cost _ _) _ _ _ =>
      apply wp_add_incident_cost; wp_simpl;
      rewrite ?lookup_insert_eq;
      repeat match goal with
             | H : Agent.active_incidents (Agent.bot _) !! _ = _ |- _ => rewrite H
             end;
      cbv beta iota;
      lazymatch goal with
      | |- context [Py.float_add ?q ?v] => destruct (Py.float_add q v) eqn:?
      | |- _ => idtac
      end
  | |- AgentLogic.wp (Agent.add_total_cost _) _ _ _ =>
      apply wp_add_total_cost; wp_simpl;
      lazymatch goal with
      | |- context [Py.float_add ?q ?v] => destruct (Py.float_add q v) eqn:?
      end
  | |- AgentLogic.wp (Agent.set_incident_status _ _) _ _ _ => unfold Agent.set_incident_status
  | |- AgentLogic.wp (Agent.set_incident_thread _ _) _ _ _ => unfold Agent.set_incident_thread
  | |- AgentLogic.wp Agent.get_config _ _ _ => unfold Agent.get_config
  | |- AgentLogic.wp (Agent.investigate_alert _ _ _ _) _ _ _ => unfold Agent.investigate_alert
  | |- AgentLogic.wp (Agent.run_diagnostics _ _ _ _ _) _ _ _ => unfold Agent.run_diagnostics
  | |- AgentLogic.wp (Agent.attempt_remediation _ _ _ _ _) _ _ _ =>
      unfold Agent.attempt_remediation
  | |- AgentLogic.wp (Agent.report_phase _ _ _ _) _ _ _ => unfold Agent.report_phase
  | |- AgentLogic.wp (Agent.after_investigation _ _ _ _ _ _) _ _ _ =>
      unfold Agent.after_investigation
  | |- AgentLogic.wp (Agent.record_view _) _ _ _ => unfold Agent.record_view
  | |- AgentLogic.wp (if ?b then _ else _) _ _ _ => destruct b eqn:?
  | |- AgentLogic.wp (match ?x with _ => _ end) _ _ _ => destruct x eqn:?
  end.

Ltac wp_run := repeat (wp_simpl; wp_step).

Section InvestigationRuns.
Import Py Agent AgentLogic.

Variable json_loads : string -> Executor.json_outcome.
Variable tpl : templates.
Variable env : environment.

(** A run of [_investigate_incident] is confined to its incident: the
    configuration, the flags, the sessions, the approval views and every
    other incident are as before, and of its own incident only the cost
    and the status may have changed.  This holds for every behaviour of the
    executor and of Discord, also when the run ends with an exception. *)
Theorem investigation_is_confined (incident_id : string) (i : incident) (st : state) :
  active_incidents (bot st) !! incident_id = Some i ->
  investigation_frame incident_id i st
    (snd (_investigate_incident json_loads tpl env incident_id st)).
Proof.
  intros Hi.
  assert (H : wp (_investigate_incident json_loads tpl env incident_id)
                (fun _ st' => investigation_frame incident_id i st st')
                (fun _ st' => investigation_frame incident_id i st st') st).
  { unfold _investigate_incident. wp_run.
    all: unfold investigation_frame; wp_simpl.
    all: repeat split; try reflexivity.
    all: try (intros id' Hne; rewrite ?lookup_alter_ne, ?lookup_insert_ne by congruence;
              reflexivity).
    all: rewrite ?lookup_alter_eq, ?lookup_insert_eq, ?Hi; simpl;
         eexists; split; reflexivity. }
  unfold wp in H.
  destruct (_investigate_incident json_loads tpl env incident_id st) as [[[]|e] st'];
    exact H.
Qed.

(** The lifecycle of an incident, for every behaviour of the executor and
    of Discord.  A run of [_investigate_incident] leaves the status as it
    was (when step 1 is reported as failed, or the error notice cannot be
    posted), or sets it to [error], or, with [auto_remediate] off, to
    [needs_action], or, with [auto_remediate] on, to [resolved] or
    [needs_review].  It calls [execute] at most three times, and at most
    twice with [auto_remediate] off: nothing is remediated then. *)
Theorem investigation_lifecycle (incident_id : string) (i : incident) (st : state) :
  active_incidents (bot st) !! incident_id = Some i ->
  investigation_outcome incident_id i st
    (snd (_investigate_incident json_loads tpl env incident_id st)).
Proof.
  intros Hi.
  assert (H : wp (_investigate_incident json_loads tpl env incident_id)
                (fun _ st' => investigation_outcome incident_id i st st')
                (fun _ st' => investigation_outcome incident_id i st st') st).
  { unfold _investigate_incident. wp_run.
    all: unfold investigation_outcome; wp_simpl.
    all: try destruct (Config.auto_remediate (config (bot st))) eqn:Hauto.
    all: try discriminate.
    all: (split; [|lia]).
    all: rewrite ?lookup_alter_eq, ?lookup_insert_eq, ?Hi; simpl;
         eexists; (split; [reflexivity|]); simpl.
    all: first [ left; reflexivity
               | right; left; reflexivity
               | right; right; left; split; reflexivity
               | right; right; right; split;
                 [reflexivity | first [left; reflexivity | right; reflexivity]] ]. }
  unfold wp in H.
  destruct (_investigate_incident json_loads tpl env incident_id st) as [[[]|e] st'];
    exact H.
Qed.

Lemma investigation_ledger_run (incident_id : string) (i : incident) (st : state) :
  active_incidents (bot st) !! incident_id = Some i ->
  investigation_ledger incident_id i st
    (snd (_investigate_incident json_loads tpl env incident_id st)).
Proof.
  intros Hi.
  assert (H : wp (_investigate_incident json_loads tpl env incident_id)
                (fun _ st' => investigation_ledger incident_id i st st')
                (fun _ st' => investigation_ledger incident_id i st st') st).
  { unfold _investigate_incident. wp_run.
    all: unfold investigation_ledger; wp_simpl.
    all: rewrite ?lookup_alter_eq, ?lookup_insert_eq, ?Hi; simpl;
         eexists; (split; [reflexivity|]); simpl.
    all: first [ left; split; [reflexivity | first [left; reflexivity | right; reflexivity]]
               | right; apply Qeq_refl ]. }
  unfold wp in H.
  destruct (_investigate_incident json_loads tpl env incident_id st) as [[[]|e] st'];
    exact H.
Qed.

(** The cost an investigation accumulated reaches the total of the
    process whenever the run gets to a final status: if an incident that
    was [investigating] is [resolved], [needs_review] or [needs_action]
    after the run, the total has grown by exactly the cost recorded on the
    incident.  In every case the total is either untouched or has grown by
    that cost. *)
Theorem investigation_cost_reaches_total (incident_id : string) (i : incident) (st : state) :
  active_incidents (bot st) !! incident_id = Some i ->
  status i = "investigating" ->
  let st' := snd (_investigate_incident json_loads tpl env incident_id st) in
  exists i', active_incidents (bot st') !! incident_id = Some i' /\
    (total_cost_usd (bot st') = total_cost_usd (bot st) \/
     (total_cost_usd (bot st') == total_cost_usd (bot st) + cost_usd i')%Q) /\
    (status i' = "resolved" \/ status i' = "needs_review" \/ status i' = "needs_action" ->
     (total_cost_usd (bot st') == total_cost_usd (bot st) + cost_usd i')%Q).
Proof.
  intros Hi Hst st'. subst st'.
  destruct (investigation_ledger_run incident_id i st Hi) as (i' & Hi' & H).
  exists i'. split; [exact Hi'|]. split.
  - destruct H as [[H _]|H]; auto.
  - intros Hfinal. destruct H as [[_ H]|H]; [|exact H].
    rewrite Hst in H. destruct H as [H|H]; rewrite H in Hfinal;
      destruct Hfinal as [F|[F|F]]; discriminate.
Qed.

End InvestigationRuns.

Lemma investigation_is_confined_witness :
  AgentLogic.investigation_frame "INC-20240101120000" alerted_incident alerted_state
    (snd (Agent._investigate_incident json_loads templates failing_env
            "INC-20240101120000" alerted_state)).
Proof.
  apply (investigation_is_confined json_loads templates failing_env
           "INC-20240101120000" alerted_incident alerted_state).
  reflexivity.
Defined.

Lemma investigation_lifecycle_witness :
  AgentLogic.investigation_outcome "INC-20240101120000" alerted_incident alerted_state
    (snd (Agent._investigate_incident json_loads templates calm_env
            "INC-20240101120000" alerted_state)).
Proof.
  apply (investigation_lifecycle json_loads templates calm_env
           "INC-20240101120000" alerted_incident alerted_state).
  reflexivity.
Defined.

Lemma investigation_cost_reaches_total_witness :
  let st' := snd (Agent._investigate_incident json_loads templates calm_env
                    "INC-20240101120000" alerted_state) in
  exists i', Agent.active_incidents (Agent.bot st') !! "INC-20240101120000" = Some i' /\
    (Agent.total_cost_usd (Agent.bot st') = Agent.total_cost_usd (Agent.bot alerted_state) \/
     (Agent.total_cost_usd (Agent.bot st')
      == Agent.total_cost_usd (Agent.bot alerted_state) + Agent.cost_usd i')%Q) /\
    (Agent.status i' = "resolved" \/ Agent.status i' = "needs_review" \/
     Agent.status i' = "needs_action" ->
     (Agent.total_cost_usd (Agent.bot st')
      == Agent.total_cost_usd (Agent.bot alerted_state) + Agent.cost_usd i')%Q).
Proof.
  apply (investigation_cost_reaches_total json_loads templates calm_env
           "INC-20240101120000" alerted_incident alerted_state);
    reflexivity.
Defined.

Section AlertRuns.
Import Py Agent AgentLogic.

Variable json_loads : string -> Executor.json_outcome.
Variable tpl : templates.
Variable env : environment.

(** No fault of a phase escapes [_investigate_incident]: the run returns
    normally, or it raises the exception with which Discord refused the
    last call of the run, the error notice of the handler.  Failures of
    the executor and type errors on its results are always absorbed. *)
Theorem investigation_contains_faults (incident_id : string) (st : state) :
  match _investigate_incident json_loads tpl env incident_id st with
  | (Ok _, _) => True
  | (Raises e, st') =>
      exists k, n_discord st' = S k /\ discord_env env k = Some e
  end.
Proof.
  change (wp (_investigate_incident json_loads tpl env incident_id)
            (fun _ _ => True)
            (fun e st' => exists k, n_discord st' = S k /\ discord_env env k = Some e) st).
  unfold _investigate_incident.
  wp_simpl. wp_step. wp_simpl. wp_step.
  destruct (active_incidents (bot st) !! incident_id) as [i|]; [|exact I].
  apply wp_try_except.
  apply wp_any; [auto|].
  intros e st'. wp_run; eauto.
Qed.

Lemma scheduled_sent (l : list event) (label : string) :
  scheduled (l ++ [Sent label])%list = scheduled l.
Proof. unfold scheduled. rewrite omap_app. cbn. apply app_nil_r. Qed.

Lemma scheduled_scheduled (l : list event) (id : string) :
  scheduled (l ++ [Scheduled id])%list = (scheduled l ++ [id])%list.
Proof. unfold scheduled. rewrite omap_app. reflexivity. Qed.

Lemma handle_alert_run (a : alert) (now started : Z) (st : state) :
  let id := incident_id_at now in
  let r := handle_alert env (Some a) now started st in
  (exists t, (t = IncidentThread id \/ t = SourceChannel) /\
     active_incidents (bot (snd r)) !! id
     = Some {| inc_id := id; inc_alert := a; status := "investigating";
               started_at := started; thread := Some t; cost_usd := 0 |}) /\
  (forall id', id' <> id ->
     active_incidents (bot (snd r)) !! id' = active_incidents (bot st) !! id') /\
  (if auto_respond (bot st)
   then fst r = Ok (Some id) /\
        scheduled (log (snd r)) = (scheduled (log st) ++ [id])%list
   else scheduled (log (snd r)) = scheduled (log st)).
Proof.
  intros id r. subst r.
  set (post := fun (st' : state) =>
    (exists t, (t = IncidentThread id \/ t = SourceChannel) /\
       active_incidents (bot st') !! id
       = Some {| inc_id := id; inc_alert := a; status := "investigating";
                 started_at := started; thread := Some t; cost_usd := 0 |}) /\
    (forall id', id' <> id ->
       active_incidents (bot st') !! id' = active_incidents (bot st) !! id')).
  assert (H : wp (handle_alert env (Some a) now started)
                (fun o st' => post st' /\
                   o = Some id /\ auto_respond (bot st) = true /\
                   scheduled (log st') = (scheduled (log st) ++ [id])%list
                   \/ post st' /\ auto_respond (bot st) = false /\
                      scheduled (log st') = scheduled (log st))
                (fun _ st' => post st' /\ auto_respond (bot st) = false /\
                              scheduled (log st') = scheduled (log st)) st).
  { unfold handle_alert. fold id. wp_run.
    all: subst post; wp_simpl.
    all: rewrite ?scheduled_scheduled, ?scheduled_sent.
    all: first [ left; split; [|solve [repeat split; auto]]
               | right; split; [|solve [repeat split; auto]]
               | split; [|solve [repeat split; auto]] ].
    all: split;
      [ rewrite ?lookup_alter_eq, ?lookup_insert_eq; simpl; eexists;
        (split; [|reflexivity]); auto
      | intros id' Hne; rewrite ?lookup_alter_ne, ?lookup_insert_ne by congruence;
        reflexivity ]. }
  unfold wp in H.
  destruct (handle_alert env (Some a) now started st) as [[o|e] st']; simpl.
  - destruct H as [(Hp & -> & Ha & Hs)|(Hp & Ha & Hs)]; rewrite Ha;
      destruct Hp; auto.
  - destruct H as (Hp & Ha & Hs). rewrite Ha. destruct Hp; auto.
Qed.

(** An alert that was parsed is always tracked, whatever Discord does: the
    incident is stored under the identifier of the instant, [investigating],
    at cost 0, reporting to its own thread or, when the thread could not be
    opened or greeted, to the channel of the alert; the other incidents are
    untouched.  With [auto_respond] on, [handle_alert] cannot raise and
    schedules the investigation, once; with [auto_respond] off it
    schedules nothing. *)
Theorem handle_alert_tracks (a : alert) (now started : Z) (st : state) :
  let id := incident_id_at now in
  let r := handle_alert env (Some a) now started st in
  (exists t, (t = IncidentThread id \/ t = SourceChannel) /\
     active_incidents (bot (snd r)) !! id
     = Some {| inc_id := id; inc_alert := a; status := "investigating";
               started_at := started; thread := Some t; cost_usd := 0 |}) /\
  (forall id', id' <> id ->
     active_incidents (bot (snd r)) !! id' = active_incidents (bot st) !! id') /\
  (if auto_respond (bot st)
   then fst r = Ok (Some id) /\
        scheduled (log (snd r)) = (scheduled (log st) ++ [id])%list
   else scheduled (log (snd r)) = scheduled (log st)).
Proof.
  exact (handle_alert_run a now started st).
Qed.

End AlertRuns.

(* ===================================================================== *)
(** * Further properties of the approval gate                             *)
(* ===================================================================== *)

Section ApprovalExtras.
Import Approval ApprovalLogic.



(** Without a press of approve the waiting command never sees an
    approval, whatever else is pressed and however the deadline and the
    command are ordered. *)
Lemma wait_without_approve (ks : list click) (timeout_first : bool)
    (action : string) (command : Py.pyval) (deadline : Z) :
  forallb (fun k => negb (is_approve k)) ks = true ->
  approved (seen (wait ks timeout_first (init action command deadline))) <> Some true.
Proof.
  intros H.
  assert (Hd : forall ks v, forallb (fun k => negb (is_approve k)) ks = true ->
            approved v <> Some true -> approved (deliver ks v) <> Some true).
  { induction ks0 as [|k ks0 IH]; intros v Hks Hv; simpl; [exact Hv|].
    simpl in Hks. apply andb_true_iff in Hks. destruct Hks as [Hk Hks].
    destruct (finished v); [exact Hv|]. apply IH; [exact Hks|].
    destruct k as [u s|u [|]|u s]; simpl in *; try discriminate; auto. }
  unfold wait.
  specialize (Hd ks (init action command deadline) H).
  destruct (finished (deliver ks (init action command deadline)));
    simpl; [apply Hd; discriminate|].
  destruct timeout_first; simpl; [discriminate|apply Hd; discriminate].
Qed.

End ApprovalExtras.


(* ===================================================================== *)
(** * Further properties of the [/remediate] command                      *)
(* ===================================================================== *)

Lemma executions_executed (l : list Agent.event) (a : Executor.exec_args) :
  Agent.executions (l ++ [Agent.Executed a])%list = (Agent.executions l ++ [a])%list.
Proof. rewrite executions_app. reflexivity. Qed.

Ltac wp_simpl_hyps :=
  repeat match goal with
         | H : Executor.execute _ _ _ _ _ = _ |- _ =>
             progress cbn [Agent.bot Agent.world Agent.views Agent.n_exec Agent.n_discord
                           Agent.log Agent.config Agent.active_incidents Agent.auto_respond
                           Agent.total_cost_usd Agent.session_manager
                           AgentLogic.refused AgentLogic.sent AgentLogic.executed
                           Agent.with_bot Agent.set_incidents Agent.set_total_cost
                           Agent.set_session_manager fst snd] in H
         end.

Ltac log_simpl :=
  repeat first [ rewrite executions_sent | rewrite executions_executed ].

Section RemediateExtras.
Import Py Agent AgentLogic.

Variable json_loads : string -> Executor.json_outcome.
Variable tpl : templates.
Variable env : environment.

Lemma seen_approval_was_pressed (ks : list Approval.click) (timeout_first : bool)
    (action : string) (command : pyval) (deadline : Z) :
  Approval.approved
    (Approval.seen (Approval.wait ks timeout_first (Approval.init action command deadline)))
  = Some true ->
  existsb ApprovalLogic.is_approve ks = true.
Proof.
  intros H. destruct (existsb ApprovalLogic.is_approve ks) eqn:Hex; [reflexivity|].
  exfalso. apply (wait_without_approve ks timeout_first action command deadline); [|exact H].
  clear H. induction ks as [|k ks IH]; [reflexivity|].
  simpl in *. apply orb_false_iff in Hex. destruct Hex as [-> Hks].
  simpl. apply IH, Hks.
Qed.

(** The gate of [/remediate], for every behaviour of the executor, of
    Discord and of the people at the buttons.  The remediation is executed
    only after an analysis that succeeded and with either the bypass of
    the invoking administrator or a press of the approve button; the
    command calls [execute] for nothing else than the analysis and the
    remediation; and it opens an approval view only without the bypass and
    after a successful analysis. *)
Theorem remediation_needs_approval (invoker : Approval.user) (action : string)
    (skip_approval : bool) (clicks : list Approval.click) (timeout_first : bool)
    (st : state) :
  remediation_gate json_loads tpl env action skip_approval clicks st
    (snd (remediate_command json_loads tpl env invoker action skip_approval clicks
            timeout_first st)).
Proof.
  assert (H : wp (remediate_command json_loads tpl env invoker action skip_approval clicks
                    timeout_first)
                (fun _ st' => remediation_gate json_loads tpl env action skip_approval
                                clicks st st')
                (fun _ st' => remediation_gate json_loads tpl env action skip_approval
                                clicks st st') st).
  { unfold remediate_command, request_approval. cbv zeta. wp_run.
    all: unfold remediation_gate, analysis_call; wp_simpl; wp_simpl_hyps.
    all: log_simpl.
    all: repeat match goal with
                | H : Executor.execute _ _ (analysis_args _ _) _ _ = _ |- _ =>
                    rewrite H; clear H
                end; cbn [fst].
    all: repeat match goal with
                | H : negb ?b = _ |- _ => destruct b eqn:?; simpl in H; try discriminate H;
                                          clear H
                end.
    all: repeat match goal with
                | H : Approval.approved (Approval.seen _) = Some true |- _ =>
                    apply seen_approval_was_pressed in H
                end.
    all: split;
      [ first [ exists []; split; [symmetry; apply app_nil_r | left; reflexivity]
              | eexists; split; [rewrite <- ?app_assoc; reflexivity|];
                first [ right; left; reflexivity
                      | right; right; split; [reflexivity|]; split; [reflexivity|];
                        first [left; reflexivity | right; assumption] ] ]
      | first [ left; reflexivity
              | right; split; [reflexivity|]; split; [reflexivity|];
                eexists; reflexivity ] ]. }
  unfold wp in H.
  destruct (remediate_command json_loads tpl env invoker action skip_approval clicks
              timeout_first st) as [[[]|e] st']; exact H.
Qed.


End RemediateExtras.


(* ===================================================================== *)
(** * Further properties of the conversation turns and of the commands    *)
(* ===================================================================== *)

Section ConversationExtras.
Import Py Agent AgentLogic.

Variable json_loads : string -> Executor.json_outcome.
Variable uuid4 : nat -> string.
Variable tpl : templates.
Variable env : environment.



End ConversationExtras.


Section CommandExtras.
Import Py Agent AgentLogic Commands.

Variable json_loads : string -> Executor.json_outcome.
Variable env : environment.
Variable ask_prompt : string -> string.



End CommandExtras.


Section ToggleExtras.
Import Py Agent AgentLogic Commands.

Variable env : environment.

(** What [toggle_auto_command] does to the two flags. *)
Lemma toggle_flags (feature : string) (st : state) :
  let st' := snd (toggle_auto_command env feature st) in
  auto_respond (bot st')
  = (if String.eqb feature "respond" then negb (auto_respond (bot st))
     else auto_respond (bot st)) /\
  Config.auto_remediate (config (bot st'))
  = (if String.eqb feature "respond" then Config.auto_remediate (config (bot st))
     else if String.eqb feature "remediate"
          then negb (Config.auto_remediate (config (bot st)))
          else Config.auto_remediate (config (bot st))) /\
  (Config.environment (config (bot st')), Config.codebase_path (config (bot st')),
   Config.auto_respond (config (bot st')))
  = (Config.environment (config (bot st)), Config.codebase_path (config (bot st)),
     Config.auto_respond (config (bot st))) /\
  (active_incidents (bot st'), session_manager (bot st'), total_cost_usd (bot st'),
   views st', world st')
  = (active_incidents (bot st), session_manager (bot st), total_cost_usd (bot st),
     views st, world st).
Proof.
  unfold toggle_auto_command.
  destruct (String.eqb feature "respond"); [|destruct (String.eqb feature "remediate")];
    unfold bind, modify, discord, ret; cbn;
    try destruct (discord_env env (n_discord st)); cbn; auto.
Qed.

(** [/toggle-auto] flips the flag it names and nothing else, also when the
    confirmation cannot be sent; a feature it does not know changes
    nothing; and toggling the same feature twice restores both flags. *)
Theorem toggle_auto_flips_one_flag (feature : string) (st : state) :
  let st1 := snd (toggle_auto_command env feature st) in
  let st2 := snd (toggle_auto_command env feature st1) in
  (feature = "respond" ->
   auto_respond (bot st1) = negb (auto_respond (bot st)) /\
   Config.auto_remediate (config (bot st1)) = Config.auto_remediate (config (bot st))) /\
  (feature = "remediate" ->
   Config.auto_remediate (config (bot st1)) = negb (Config.auto_remediate (config (bot st))) /\
   auto_respond (bot st1) = auto_respond (bot st)) /\
  (feature <> "respond" -> feature <> "remediate" ->
   toggle_auto_command env feature st = (Ok tt, st)) /\
  auto_respond (bot st2) = auto_respond (bot st) /\
  Config.auto_remediate (config (bot st2)) = Config.auto_remediate (config (bot st)).
Proof.
  intros st1 st2.
  destruct (toggle_flags feature st) as (H1 & H2 & _).
  destruct (toggle_flags feature st1) as (H3 & H4 & _).
  fold st1 in H1, H2. fold st2 in H3, H4.
  split; [|split; [|split; [|split]]].
  - intros ->. rewrite H1, H2. auto.
  - intros ->. rewrite H1, H2. auto.
  - intros Hr Hm. unfold toggle_auto_command.
    apply String.eqb_neq in Hr, Hm. rewrite Hr, Hm. reflexivity.
  - rewrite H3, H1. destruct (String.eqb feature "respond"); [apply negb_involutive|reflexivity].
  - rewrite H4, H2. destruct (String.eqb feature "respond"); [reflexivity|].
    destruct (String.eqb feature "remediate"); [apply negb_involutive|reflexivity].
Qed.

Lemma incident_id_nonempty (now : Z) :
  (String.length (incident_id_at now) =? 0)%nat = false.
Proof.
  unfold incident_id_at. cbv beta iota delta [String.append]. reflexivity.
Qed.

(** With [auto_respond] off an alert is tracked and nothing is scheduled;
    [/investigate] with the identifier of the incident then schedules its
    investigation, once the interaction is deferred, while [/investigate]
    without an identifier, or with one that names no incident, schedules
    nothing. *)
Theorem manual_investigation (a : alert) (now started : Z) (other : option string)
    (st : state) :
  auto_respond (bot st) = false ->
  let id := incident_id_at now in
  let st1 := snd (handle_alert env (Some a) now started st) in
  scheduled (log st1) = scheduled (log st) /\
  is_Some (active_incidents (bot st1) !! id) /\
  (discord_env env (n_discord st1) = None ->
   scheduled (log (snd (investigate_command env (Some id) st1)))
   = (scheduled (log st) ++ [id])%list) /\
  (match other with
   | Some id' => active_incidents (bot st1) !! id' = None
   | None => True
   end ->
   scheduled (log (snd (investigate_command env other st1))) = scheduled (log st)).
Proof.
  intros Hauto id st1.
  destruct (handle_alert_run env a now started st) as ((t & _ & Hi) & _ & Hs).
  rewrite Hauto in Hs. fold id st1 in Hi, Hs.
  split; [exact Hs|]. split; [rewrite Hi; eauto|]. split.
  - intros Hd. unfold investigate_command, bind, discord, read, modify. rewrite Hd.
    cbn -[incident_id_at]. rewrite Hi.
    subst id. rewrite incident_id_nonempty. cbn -[incident_id_at].
    repeat (cbn -[incident_id_at];
            match goal with
            | |- context [discord_env env ?n] => destruct (discord_env env n)
            end);
      cbn -[incident_id_at];
      rewrite ?scheduled_sent, scheduled_scheduled, scheduled_sent, Hs; reflexivity.
  - intros Hother. unfold investigate_command, bind, discord, read, modify.
    destruct (discord_env env (n_discord st1)); cbn -[incident_id_at]; [exact Hs|].
    assert (Hk : match other with
                 | Some id0 => negb (String.length id0 =? 0)%nat
                               && bool_decide (is_Some (active_incidents (bot st1) !! id0))
                 | None => false
                 end = false).
    { destruct other as [id'|]; [|reflexivity]. rewrite Hother.
      rewrite bool_decide_eq_false_2 by (intros [? ?]; discriminate).
      apply andb_false_r. }
    rewrite Hk.
    repeat (cbn -[incident_id_at];
            match goal with
            | |- context [discord_env env ?n] => destruct (discord_env env n)
            end);
      cbn -[incident_id_at]; rewrite ?scheduled_sent; exact Hs.
Qed.

End ToggleExtras.

Lemma manual_investigation_witness :
  let id := Agent.incident_id_at 1704110400000000 in
  let st1 := snd (Agent.handle_alert calm_env (Some disk_full) 1704110400000000
                    1704110400000000 (initial_state manual_config)) in
  AgentLogic.scheduled (Agent.log st1) = [] /\
  is_Some (Agent.active_incidents (Agent.bot st1) !! id) /\
  AgentLogic.scheduled (Agent.log (snd (Commands.investigate_command calm_env (Some id) st1)))
  = [id] /\
  AgentLogic.scheduled
    (Agent.log (snd (Commands.investigate_command calm_env (Some "INC-0") st1))) = [].
Proof.
  destruct (manual_investigation calm_env disk_full 1704110400000000 1704110400000000
              (Some "INC-0") (initial_state manual_config) eq_refl)
    as (H1 & H2 & H3 & H4).
  split; [exact H1|]. split; [exact H2|]. split.
  - exact (H3 eq_refl).
  - apply H4. vm_compute. reflexivity.
Defined.

(* ===================================================================== *)
(** * Routing of incoming messages                                        *)
(* ===================================================================== *)

Section MessageExtras.
Import Py Agent AgentLogic Alerts.

Variable upper : string -> string.
Variable red orange : Z.
Variable json_loads : string -> Executor.json_outcome.
Variable uuid4 : nat -> string.
Variable tpl : templates.
Variable env : environment.

Lemma wp_snd {A} (m : M A) (P : state -> Prop) (st : state) :
  wp m (fun _ => P) (fun _ => P) st -> P (snd (m st)).
Proof. unfold wp. destruct (m st) as [[a|e] st']; auto. Qed.

(** [handle_alert] runs no child and touches neither the costs, the
    sessions nor the file system. *)
Lemma handle_alert_frame (a : alert) (now started : Z) (st : state) :
  let st' := snd (handle_alert env (Some a) now started st) in
  executions (log st') = executions (log st) /\
  total_cost_usd (bot st') = total_cost_usd (bot st) /\
  session_manager (bot st') = session_manager (bot st) /\
  world st' = world st.
Proof.
  apply (wp_snd (handle_alert env (Some a) now started)
           (fun st' => executions (log st') = executions (log st) /\
                       total_cost_usd (bot st') = total_cost_usd (bot st) /\
                       session_manager (bot st') = session_manager (bot st) /\
                       world st' = world st)).
  unfold handle_alert. wp_run.
  all: wp_simpl; rewrite ?executions_app; cbn; rewrite ?app_nil_r; auto.
Qed.

Lemma set_id_match (o : option Z) (c : Z) :
  set_id o && (c =? Executor.from_opt 0 o) = true <-> o = Some c /\ c <> 0.
Proof.
  destruct o as [z|]; cbn.
  - rewrite andb_true_iff, negb_true_iff, Z.eqb_neq, Z.eqb_eq. split.
    + intros [Hz ->]. auto.
    + intros [[= ->] Hc]. auto.
  - split; [discriminate|intros [[=] _]].
Qed.

Lemma in_alert_channel_spec (channels : gmap string Z) (m : message) :
  in_alert_channel channels m = true <->
  channel_id m <> 0 /\
  exists key, In key ["alerts"; "critical"; "infrastructure"; "docker"] /\
              channels !! key = Some (channel_id m).
Proof.
  unfold in_alert_channel. rewrite existsb_exists. split.
  - intros (o & Hin & Ho). apply set_id_match in Ho as [-> Hc]. split; [exact Hc|].
    cbn in Hin. destruct Hin as [H|[H|[H|[H|[]]]]]; eexists; (split; [|exact H]); cbn; auto.
  - intros (Hc & key & Hin & Hk).
    exists (Some (channel_id m)). split; [|apply set_id_match; auto].
    cbn in Hin. destruct Hin as [<-|[<-|[<-|[<-|[]]]]]; rewrite <- Hk; cbn; auto.
Qed.

Lemma discord_frame (label : string) (st : state) :
  let st' := snd (discord env label st) in
  bot st' = bot st /\ world st' = world st /\ views st' = views st /\
  executions (log st') = executions (log st) /\
  scheduled (log st') = scheduled (log st).
Proof.
  unfold discord. destruct (discord_env env (n_discord st)); cbn;
    rewrite ?executions_sent, ?scheduled_sent; auto.
Qed.

(** What [on_message] does with a message that is no conversation turn:
    what [handle_alert] does when the message is tracked, and then the
    library's command processing. *)
Lemma on_message_other (channels : gmap string Z) (command_prefix : string)
    (m : message) (now t1 t2 : Z) (st : state) :
  author_is_self m = false ->
  is_conversation channels command_prefix m = false ->
  let st' := snd (on_message upper red orange json_loads uuid4 tpl env channels
                    command_prefix m now t1 t2 st) in
  let tracked := in_alert_channel channels m
                 && (negb (List.length (embeds m) =? 0)%nat || _is_alert_message upper m) in
  let st1 := if tracked
             then snd (handle_alert env (Some (_parse_alert upper red orange m)) now t1 st)
             else st in
  bot st' = bot st1 /\ world st' = world st1 /\
  executions (log st') = executions (log st1) /\
  scheduled (log st') = scheduled (log st1).
Proof.
  intros Hself Hconv. unfold on_message. rewrite Hself, Hconv.
  destruct (in_alert_channel channels m); cbn [andb];
    [destruct (negb (List.length (embeds m) =? 0)%nat || _is_alert_message upper m)|].
  - unfold bind, ret.
    destruct (handle_alert env (Some (_parse_alert upper red orange m)) now t1 st)
      as [[o|e] s1]; cbn [snd].
    + destruct (discord_frame "process_commands" s1) as (? & ? & _ & ? & ?). auto.
    + auto.
  - unfold bind, ret.
    destruct (discord_frame "process_commands" st) as (? & ? & _ & ? & ?). auto.
  - unfold bind, ret.
    destruct (discord_frame "process_commands" st) as (? & ? & _ & ? & ?). auto.
Qed.

(** The bot ignores its own messages.  A message that is no conversation
    turn (another channel, or a command in the agent channel) starts no
    child and leaves the costs, the sessions and the file system alone.  If
    moreover no monitored key of the configuration carries the channel of
    the message, or the channel is 0, no incident is created or changed
    and nothing is scheduled: it only reaches the command processing. *)
Theorem on_message_routing (channels : gmap string Z) (command_prefix : string)
    (m : message) (now t1 t2 : Z) (st : state) :
  let st' := snd (on_message upper red orange json_loads uuid4 tpl env channels
                    command_prefix m now t1 t2 st) in
  (author_is_self m = true -> st' = st) /\
  (is_conversation channels command_prefix m = false ->
   executions (log st') = executions (log st) /\
   total_cost_usd (bot st') = total_cost_usd (bot st) /\
   session_manager (bot st') = session_manager (bot st) /\
   world st' = world st) /\
  (is_conversation channels command_prefix m = false ->
   channel_id m = 0 \/
   (forall key, In key ["alerts"; "critical"; "infrastructure"; "docker"] ->
                channels !! key <> Some (channel_id m)) ->
   bot st' = bot st /\ scheduled (log st') = scheduled (log st)).
Proof.
  intros st'. split; [|split].
  - intros Hself. subst st'. unfold on_message. rewrite Hself. reflexivity.
  - intros Hconv. destruct (author_is_self m) eqn:Hself.
    { subst st'. unfold on_message. rewrite Hself. cbn. auto. }
    destruct (on_message_other channels command_prefix m now t1 t2 st Hself Hconv)
      as (Hb & Hw & He & _).
    fold st' in Hb, Hw, He. rewrite Hb, Hw, He.
    destruct (in_alert_channel channels m
              && (negb (List.length (embeds m) =? 0)%nat || _is_alert_message upper m));
      [|auto].
    destruct (handle_alert_frame (_parse_alert upper red orange m) now t1 st)
      as (? & ? & ? & ?). auto.
  - intros Hconv Hch. destruct (author_is_self m) eqn:Hself.
    { subst st'. unfold on_message. rewrite Hself. cbn. auto. }
    destruct (on_message_other channels command_prefix m now t1 t2 st Hself Hconv)
      as (Hb & _ & _ & Hs).
    fold st' in Hb, Hs. rewrite Hb, Hs.
    assert (Hno : in_alert_channel channels m = false).
    { apply not_true_is_false. intros Hin.
      apply in_alert_channel_spec in Hin as (Hc & key & Hk & Hl).
      destruct Hch as [H0|Hall]; [auto|exact (Hall key Hk Hl)]. }
    rewrite Hno. cbn. auto.
Qed.

(** A message of somebody else in a monitored channel (one that a
    monitored key of the configuration carries and that is not 0), with an
    embed or an alert word, that is no conversation turn, is tracked: the
    incident of the instant holds the alert [_parse_alert] reads off the
    message; and with [auto_respond] on its investigation is scheduled,
    once. *)
Theorem on_message_tracks_alert (channels : gmap string Z) (command_prefix key : string)
    (m : message) (now t1 t2 : Z) (st : state) :
  author_is_self m = false ->
  is_conversation channels command_prefix m = false ->
  In key ["alerts"; "critical"; "infrastructure"; "docker"] ->
  channels !! key = Some (channel_id m) ->
  channel_id m <> 0 ->
  embeds m <> [] \/ _is_alert_message upper m = true ->
  let st' := snd (on_message upper red orange json_loads uuid4 tpl env channels
                    command_prefix m now t1 t2 st) in
  let id := incident_id_at now in
  (exists t, (t = IncidentThread id \/ t = SourceChannel) /\
     active_incidents (bot st') !! id
     = Some {| inc_id := id; inc_alert := _parse_alert upper red orange m;
               status := "investigating"; started_at := t1; thread := Some t;
               cost_usd := 0 |}) /\
  (forall id', id' <> id ->
     active_incidents (bot st') !! id' = active_incidents (bot st) !! id') /\
  scheduled (log st')
  = (scheduled (log st) ++ (if auto_respond (bot st) then [id] else []))%list.
Proof.
  intros Hself Hconv Hkey Hch Hc Halert st' id.
  destruct (on_message_other channels command_prefix m now t1 t2 st Hself Hconv)
    as (Hb & _ & _ & Hs).
  fold st' in Hb, Hs.
  assert (Hin : in_alert_channel channels m = true).
  { apply in_alert_channel_spec. split; [exact Hc|]. exists key. auto. }
  assert (Hal : negb (List.length (embeds m) =? 0)%nat || _is_alert_message upper m = true).
  { destruct Halert as [He|Hi]; [|rewrite Hi; apply orb_true_r].
    destruct (embeds m); [congruence|reflexivity]. }
  rewrite Hin, Hal in Hb, Hs. cbn [andb] in Hb, Hs. rewrite Hb, Hs.
  destruct (handle_alert_run env (_parse_alert upper red orange m) now t1 st)
    as (Ht & Ho & Hsch).
  split; [exact Ht|]. split; [exact Ho|].
  destruct (auto_respond (bot st)).
  - apply Hsch.
  - rewrite app_nil_r. exact Hsch.
Qed.

End MessageExtras.

Lemma on_message_tracks_alert_witness :
  let now := 1704110400000000 in
  let st := initial_state prod_config in
  let st' := snd (Alerts.on_message upper red orange json_loads sample_uuid4 templates
                    calm_env monitored "!" disk_alert_message now now now st) in
  let id := Agent.incident_id_at now in
  (exists t, (t = Agent.IncidentThread id \/ t = Agent.SourceChannel) /\
     Agent.active_incidents (Agent.bot st') !! id
     = Some {| Agent.inc_id := id;
               Agent.inc_alert := Alerts._parse_alert upper red orange disk_alert_message;
               Agent.status := "investigating"; Agent.started_at := now;
               Agent.thread := Some t; Agent.cost_usd := 0 |}) /\
  (forall id', id' <> id ->
     Agent.active_incidents (Agent.bot st') !! id'
     = Agent.active_incidents (Agent.bot st) !! id') /\
  AgentLogic.scheduled (Agent.log st')
  = (AgentLogic.scheduled (Agent.log st)
     ++ (if Agent.auto_respond (Agent.bot st) then [id] else []))%list.
Proof.
  apply (on_message_tracks_alert upper red orange json_loads sample_uuid4 templates
           calm_env monitored "!" "alerts" disk_alert_message
           1704110400000000 1704110400000000 1704110400000000
           (initial_state prod_config)).
  - reflexivity.
  - reflexivity.
  - cbn. auto.
  - reflexivity.
  - discriminate.
  - left. discriminate.
Defined.

(* ===================================================================== *)
(** * What is read off an alert                                           *)
(* ===================================================================== *)

Section ParseExtras.
Import Py Agent Alerts.

Variable upper : string -> string.
Variable red orange : Z.

Lemma text_or_nonempty (default : string) (o : option string) :
  default <> EmptyString -> text_or default o <> EmptyString.
Proof.
  intros Hd. destruct o as [[|c s]|]; cbn; auto; discriminate.
Qed.

Lemma level_by_cases (e : embed) :
  In (_determine_alert_level upper red orange e) ["critical"; "warning"; "info"].
Proof.
  unfold _determine_alert_level.
  repeat match goal with
         | |- context [match ?x with _ => _ end] => destruct x
         end; cbn; auto.
Qed.

(** Every alert read off a message has a title that is not empty and one
    of the three levels.  Without an embed the level is [warning] and the
    title is the start of the text.  With embeds only the first one counts,
    and its colour goes before its title: red is [critical] and (when it is
    no red) orange is [warning], whatever the title says. *)
Theorem parsed_alert_shape (m : message) :
  let a := _parse_alert upper red orange m in
  title a <> EmptyString /\
  In (level a) ["critical"; "warning"; "info"] /\
  channel a = channel_name m /\ timestamp a = created_at m /\
  (embeds m = [] ->
   level a = "warning" /\ description a = content m /\ fields a = [] /\
   (content m <> EmptyString -> title a = str_prefix 100 (content m))) /\
  (forall e rest, embeds m = e :: rest ->
     a = _parse_alert upper red orange
           {| author_is_self := author_is_self m; author_name := author_name m;
              channel_id := channel_id m; channel_name := channel_name m;
              content := EmptyString; embeds := [e]; created_at := created_at m |} /\
     (e_color e = Some red -> level a = "critical") /\
     (e_color e = Some orange -> red <> orange -> level a = "warning")).
Proof.
  intros a. subst a. unfold _parse_alert.
  destruct (embeds m) as [|e rest] eqn:He; cbn [title level channel timestamp description fields].
  - assert (Ht : (if (String.length (content m) =? 0)%nat then "Unknown Alert"
                  else str_prefix 100 (content m)) <> EmptyString).
    { destruct (content m) as [|c s]; cbn; discriminate. }
    repeat apply conj; auto.
    + cbn. auto.
    + intros _. repeat apply conj; auto.
      intros Hc. destruct (content m); [congruence|reflexivity].
    + intros e rest [=].
  - repeat apply conj; auto.
    + apply text_or_nonempty. discriminate.
    + apply level_by_cases.
    + intros [=].
    + intros e' rest' [= <- <-]. repeat apply conj; [reflexivity| |].
      * intros Hc. unfold _determine_alert_level. rewrite Hc, Z.eqb_refl. reflexivity.
      * intros Hc Hne. unfold _determine_alert_level. rewrite Hc, Z.eqb_refl.
        apply not_eq_sym, Z.eqb_neq in Hne. rewrite Hne. reflexivity.
Qed.

End ParseExtras.

(* ===================================================================== *)
(** * Cutting long texts into messages                                    *)
(* ===================================================================== *)

Section TextExtras.
Import Py Text.

Lemma list_of_append (s1 s2 : string) :
  list_ascii_of_string (s1 ++ s2)
  = (list_ascii_of_string s1 ++ list_ascii_of_string s2)%list.
Proof.
  induction s1 as [|c s1 IH]; [reflexivity|].
  change (c :: list_ascii_of_string (s1 ++ s2)
          = c :: (list_ascii_of_string s1 ++ list_ascii_of_string s2)%list).
  rewrite IH. reflexivity.
Qed.

Lemma list_of_length (s : string) :
  List.length (list_ascii_of_string s) = String.length s.
Proof. induction s as [|c s IH]; cbn; auto. Qed.

Lemma list_of_substring (i n : nat) (s : string) :
  list_ascii_of_string (String.substring i n s)
  = take n (drop i (list_ascii_of_string s)).
Proof.
  revert i n. induction s as [|c s IH]; intros [|i] [|n]; cbn; auto;
    rewrite IH; reflexivity.
Qed.

Lemma list_of_inj (s1 s2 : string) :
  list_ascii_of_string s1 = list_ascii_of_string s2 -> s1 = s2.
Proof.
  intros H. rewrite <- (string_of_list_ascii_of_string s1),
              <- (string_of_list_ascii_of_string s2), H. reflexivity.
Qed.

(** The texts of a list, one after the other. *)
Lemma list_of_concat (l : list string) :
  list_ascii_of_string (fold_right String.append EmptyString l)
  = List.concat (map list_ascii_of_string l).
Proof.
  induction l as [|s l IH]; cbn [fold_right map List.concat]; [reflexivity|].
  rewrite list_of_append, IH. reflexivity.
Qed.

Lemma slices_take {A} (n : nat) (l : list A) (m : nat) :
  List.concat (map (fun k => take n (drop (k * n) l)) (seq 0 m)) = take (m * n) l.
Proof.
  induction m as [|m IH].
  - cbn. rewrite take_0. reflexivity.
  - rewrite seq_S, map_app, concat_app, IH. cbn [map List.concat Nat.add].
    rewrite app_nil_r, take_take_drop. f_equal. lia.
Qed.

Lemma chunks_list (n : nat) (s : string) :
  map list_ascii_of_string (chunks n s)
  = map (fun k => take n (drop (k * n) (list_ascii_of_string s)))
        (seq 0 ((String.length s + n - 1) / n)).
Proof.
  unfold chunks. rewrite map_map. apply map_ext. intros k. apply list_of_substring.
Qed.

Lemma firstn_seq (k start len : nat) : firstn k (seq start len) = seq start (Nat.min k len).
Proof.
  revert start len. induction k as [|k IH]; intros start [|len]; cbn; auto.
  rewrite IH. reflexivity.
Qed.

Lemma ceil_covers (len n : nat) : (0 < n -> len <= (len + n - 1) / n * n)%nat.
Proof.
  intros Hn. pose proof (Nat.div_mod_eq (len + n - 1) n) as E.
  pose proof (Nat.mod_upper_bound (len + n - 1) n) as B. nia.
Qed.

Lemma first_chunks (k n : nat) (s : string) :
  (0 < n)%nat ->
  fold_right String.append EmptyString (firstn k (chunks n s)) = str_prefix (k * n) s.
Proof.
  intros Hn. apply list_of_inj. unfold str_prefix.
  rewrite list_of_concat, list_of_substring, drop_0.
  unfold chunks. rewrite firstn_map, firstn_seq, map_map.
  rewrite (map_ext _ (fun j => take n (drop (j * n) (list_ascii_of_string s))))
    by (intros j; apply list_of_substring).
  rewrite slices_take.
  pose proof (ceil_covers (String.length s) n Hn) as Hc.
  destruct (Nat.min_spec k ((String.length s + n - 1) / n)) as [[Hlt ->]|[Hle ->]];
    [reflexivity|].
  rewrite !take_ge; [reflexivity| |]; rewrite list_of_length; nia.
Qed.

Lemma fold_right_tail (l : list string) (t : string) :
  fold_right String.append t l = fold_right String.append EmptyString l ++ t.
Proof.
  induction l as [|c l IH]; [reflexivity|]. cbn [fold_right]. rewrite IH.
  apply list_of_inj. rewrite !list_of_append, app_assoc. reflexivity.
Qed.

Lemma chunks_length (n : nat) (s : string) :
  List.length (chunks n s) = ((String.length s + n - 1) / n)%nat.
Proof. unfold chunks. rewrite length_map, length_seq. reflexivity. Qed.

Lemma chunks_sizes (n : nat) (s : string) :
  (0 < n)%nat -> Forall (fun c => (1 <= String.length c <= n)%nat) (chunks n s).
Proof.
  intros Hn. unfold chunks. apply Forall_map, Forall_forall. intros k Hk.
  apply in_seq in Hk. cbn in Hk.
  rewrite <- list_of_length, list_of_substring, length_take, length_drop, list_of_length.
  assert (k * n < String.length s)%nat; [|lia].
  pose proof (Nat.div_mod_eq (String.length s + n - 1) n) as E.
  pose proof (Nat.mod_upper_bound (String.length s + n - 1) n) as B. nia.
Qed.

(** Chunks of a positive size lose nothing and fit: put one after the
    other they are the text, and the first [k] of them its first [k * n]
    characters; each one has at least one and at most [n] characters; and
    there are as many as the length divided by [n], rounded up. *)
Theorem chunks_cover (n k : nat) (s : string) :
  (0 < n)%nat ->
  fold_right String.append EmptyString (chunks n s) = s /\
  fold_right String.append EmptyString (firstn k (chunks n s)) = str_prefix (k * n) s /\
  Forall (fun c => (1 <= String.length c <= n)%nat) (chunks n s) /\
  (List.length (chunks n s) * n < String.length s + n)%nat /\
  (String.length s <= List.length (chunks n s) * n)%nat.
Proof.
  intros Hn. split; [|split; [|split; [|split]]].
  - apply list_of_inj. rewrite list_of_concat, chunks_list, slices_take.
    apply take_ge. rewrite list_of_length. apply ceil_covers, Hn.
  - apply first_chunks, Hn.
  - apply chunks_sizes, Hn.
  - rewrite chunks_length.
    pose proof (Nat.div_mod_eq (String.length s + n - 1) n) as E. nia.
  - rewrite chunks_length. apply ceil_covers, Hn.
Qed.

(** The reply to a conversation turn: as many messages as
    [_handle_agent_conversation] counts for the length of the output, each
    of at most 1900 characters; they carry the whole output when it has at
    most five times 1900 characters, and otherwise that many of its first
    characters followed by the marker. *)
Theorem reply_texts_fit (s : string) :
  List.length (reply_texts s) = List.length (Agent.reply_labels (String.length s)) /\
  Forall (fun t => (String.length t <= 1900)%nat) (reply_texts s) /\
  fold_right String.append EmptyString (reply_texts s)
  = (if (String.length s <=? 5 * 1900)%nat then s
     else str_prefix (5 * 1900) s ++ "... (response truncated)").
Proof.
  unfold reply_texts, Agent.reply_labels.
  assert (Hpos : (0 < 1900)%nat) by lia.
  pose proof (first_chunks 5 1900 s Hpos) as Hfirst.
  pose proof (chunks_sizes 1900 s Hpos) as Hsizes.
  pose proof (chunks_length 1900 s) as Hlen.
  pose proof (ceil_covers (String.length s) 1900 Hpos) as Hc.
  pose proof (Nat.div_mod_eq (String.length s + 1900 - 1) 1900) as E.
  pose proof (Nat.mod_upper_bound (String.length s + 1900 - 1) 1900) as B.
  replace (String.length s + 1899)%nat with (String.length s + 1900 - 1)%nat by lia.
  set (cs := chunks 1900 s) in *.
  set (m := ((String.length s + 1900 - 1) / 1900)%nat) in *.
  assert (Hmax : Forall (fun t => (String.length t <= 1900)%nat) cs).
  { apply Forall_forall. intros x Hx. rewrite Forall_forall in Hsizes.
    apply Hsizes in Hx. lia. }
  destruct (Nat.ltb_spec 1900 (String.length s)) as [Hlong|Hshort].
  - rewrite Hlen. destruct (Nat.ltb_spec 5 m) as [Hmany|Hfew]; split; [|split| |split].
    + rewrite !length_app, length_firstn, repeat_length, Hlen. cbn [List.length]. lia.
    + apply Forall_app. split; [apply Forall_take, Hmax|].
      constructor; [cbn [String.length]; lia|constructor].
    + rewrite fold_right_app. 
      destruct (Nat.leb_spec (String.length s) (5 * 1900)) as [Hle|Hgt]; [lia|].
      rewrite <- Hfirst, fold_right_tail. reflexivity.
    + rewrite !length_app, length_firstn, repeat_length, Hlen. cbn [List.length]. lia.
    + rewrite app_nil_r. apply Forall_take, Hmax.
    + rewrite app_nil_r, Hfirst.
      destruct (Nat.leb_spec (String.length s) (5 * 1900)) as [Hle|Hgt]; [|lia].
      apply list_of_inj. unfold str_prefix. rewrite list_of_substring, drop_0.
      apply take_ge. rewrite list_of_length. exact Hle.
  - split; [reflexivity|split].
    + constructor; [exact Hshort|constructor].
    + cbn [fold_right]. 
      destruct (Nat.leb_spec (String.length s) (5 * 1900)) as [Hle|Hgt]; [|lia].
      apply list_of_inj. rewrite list_of_append. apply app_nil_r.
Qed.

End TextExtras.

Lemma chunks_cover_witness :
  fold_right String.append EmptyString (Text.chunks 4 "disk is full") = "disk is full" /\
  fold_right String.append EmptyString (firstn 2 (Text.chunks 4 "disk is full"))
  = Py.str_prefix (2 * 4) "disk is full" /\
  Forall (fun c => (1 <= String.length c <= 4)%nat) (Text.chunks 4 "disk is full") /\
  (List.length (Text.chunks 4 "disk is full") * 4 < String.length "disk is full" + 4)%nat /\
  (String.length "disk is full" <= List.length (Text.chunks 4 "disk is full") * 4)%nat.
Proof.
  apply (chunks_cover 4 2 "disk is full"). lia.
Defined.

(* ===================================================================== *)
(** * Loading the configuration                                           *)
(* ===================================================================== *)

Section EnvExtras.
Import Py Env.

Variable int_of_str : string -> outcome Z.

Lemma load_channels_succeeds (environ : gmap string string)
    (mappings : list (string * string)) (channels : gmap string Z) :
  (exists chans, load_channels int_of_str environ mappings channels = Ok chans) <->
  Forall (fun kv => parses int_of_str environ (snd kv)) mappings.
Proof.
  revert channels. induction mappings as [|[key var] rest IH]; intros channels; cbn.
  - split; [constructor|eauto].
  - unfold parses at 1. rewrite Forall_cons_iff. cbn [snd].
    destruct (nonempty (environ !! var)).
    + destruct (int_of_str (getenv environ var EmptyString)) as [n|e].
      * rewrite IH. split; [intros H; split; eauto|intros [_ H]; exact H].
      * split; [intros [? [=]]|intros [H _]]. destruct (H eq_refl) as [? [=]].
    + rewrite IH. split; [intros H; split; [discriminate|exact H]|intros [_ H]; exact H].
Qed.

Lemma load_channels_lookup (environ : gmap string string)
    (mappings : list (string * string)) (channels chans : gmap string Z) :
  List.NoDup (map fst mappings) ->
  load_channels int_of_str environ mappings channels = Ok chans ->
  (forall key, ~ In key (map fst mappings) -> chans !! key = channels !! key) /\
  (forall key var, In (key, var) mappings ->
     if nonempty (environ !! var)
     then exists n, int_of_str (getenv environ var EmptyString) = Ok n /\
                    chans !! key = Some n
     else chans !! key = channels !! key).
Proof.
  revert channels. induction mappings as [|[key var] rest IH]; intros channels Hnd Hl.
  - cbn in Hl. injection Hl as <-. split; [auto|intros ? ? []].
  - cbn in Hnd. apply List.NoDup_cons_iff in Hnd as [Hkey Hnd]. cbn in Hl.
    destruct (nonempty (environ !! var)) eqn:Hne.
    + destruct (int_of_str (getenv environ var EmptyString)) as [n|e] eqn:Hn; [|discriminate].
      destruct (IH _ Hnd Hl) as [Hout Hin]. split.
      * intros k Hk. cbn in Hk. rewrite Hout by tauto.
        apply lookup_insert_ne. tauto.
      * intros k v [[= <- <-]|Hkv].
        -- rewrite Hne. exists n. split; [exact Hn|].
           rewrite Hout by exact Hkey. apply lookup_insert_eq.
        -- specialize (Hin k v Hkv). destruct (nonempty (environ !! v)); [exact Hin|].
           rewrite Hin. apply lookup_insert_ne. intros <-.
           apply Hkey. apply (in_map fst) in Hkv. exact Hkv.
    + destruct (IH _ Hnd Hl) as [Hout Hin]. split.
      * intros k Hk. cbn in Hk. apply Hout. tauto.
      * intros k v [[= <- <-]|Hkv].
        -- rewrite Hne. apply Hout, Hkey.
        -- apply Hin, Hkv.
Qed.

Lemma channel_keys_distinct : List.NoDup (map fst channel_mappings).
Proof.
  cbn. repeat (apply List.NoDup_cons; [cbn; intuition discriminate|]). apply List.NoDup_nil.
Qed.

Lemma nonempty_spec (o : option string) :
  nonempty o = true <-> exists v, o = Some v /\ v <> EmptyString.
Proof.
  destruct o as [[|c s]|]; cbn.
  - split; [discriminate|intros (v & [= <-] & H); congruence].
  - split; [intros _; eexists; split; [reflexivity|discriminate]|reflexivity].
  - split; [discriminate|intros (v & [=] & _)].
Qed.

(** What [from_env] returns. *)
Lemma from_env_cases (environ : gmap string string) (c : FullConfig) :
  from_env int_of_str environ = Ok c ->
  nonempty (environ !! "DISCORD_TOKEN") = true /\
  load_channels int_of_str environ channel_mappings ∅ = Ok (channels c) /\
  discord_token c = getenv environ "DISCORD_TOKEN" EmptyString /\
  environment c = getenv environ "ENVIRONMENT" "dev" /\
  auto_respond c
  = String.eqb (Config.lower (getenv environ "AUTO_RESPOND" "true")) "true" /\
  auto_remediate c
  = String.eqb (Config.lower (getenv environ "AUTO_REMEDIATE" "false")) "true" /\
  guild_id c
  = (if nonempty (environ !! "DISCORD_GUILD_ID")
     then match int_of_str (getenv environ "DISCORD_GUILD_ID" EmptyString) with
          | Ok n => Some n
          | Raises _ => None
          end
     else None).
Proof.
  unfold from_env. destruct (nonempty (environ !! "DISCORD_TOKEN")); [|discriminate].
  cbn [negb].
  destruct (nonempty (environ !! "DISCORD_GUILD_ID"));
    [destruct (int_of_str (getenv environ "DISCORD_GUILD_ID" EmptyString));
       [|discriminate]|];
    (destruct (load_channels int_of_str environ channel_mappings ∅); [|discriminate]);
    intros [= <-]; cbn; repeat split; reflexivity.
Qed.

(** The configuration loads exactly when the token is set and not empty
    and each of the guild and channel variables that is set and not empty
    holds an integer; without the token the error is the [ValueError] of
    the source, whatever the other variables hold. *)
Theorem from_env_succeeds_iff (environ : gmap string string) :
  ((exists c, from_env int_of_str environ = Ok c) <->
   nonempty (environ !! "DISCORD_TOKEN") = true /\
   Forall (parses int_of_str environ) ("DISCORD_GUILD_ID" :: map snd channel_mappings)) /\
  (nonempty (environ !! "DISCORD_TOKEN") = false ->
   from_env int_of_str environ
   = Raises (mkExn (OtherException "ValueError")
               "DISCORD_TOKEN environment variable is required")).
Proof.
  split.
  - rewrite Forall_cons_iff, Forall_map.
    rewrite <- (load_channels_succeeds environ channel_mappings ∅).
    unfold from_env, parses.
    destruct (nonempty (environ !! "DISCORD_TOKEN")); cbn [negb].
    2:{ split; [intros [? [=]]|intros [[=] _]]. }
    destruct (nonempty (environ !! "DISCORD_GUILD_ID")).
    + destruct (int_of_str (getenv environ "DISCORD_GUILD_ID" EmptyString)) as [n|e].
      * destruct (load_channels int_of_str environ channel_mappings ∅) as [chans|e].
        -- split; [intros _|eauto]. split; [reflexivity|]. split; eauto.
        -- split; [intros [? [=]]|intros (_ & _ & ? & [=])].
      * split; [intros [? [=]]|intros (_ & H & _)]. destruct (H eq_refl) as [? [=]].
    + destruct (load_channels int_of_str environ channel_mappings ∅) as [chans|e].
      * split; [intros _|eauto]. split; [reflexivity|]. split; [discriminate|eauto].
      * split; [intros [? [=]]|intros (_ & _ & ? & [=])].
  - intros Ht. unfold from_env. rewrite Ht. reflexivity.
Qed.

(** The channels of a loaded configuration: [get_channel] knows a name
    exactly when the variable of that name is set, not empty, and holds
    that integer; the six names of the source are the only ones. *)
Theorem from_env_channels (environ : gmap string string) (c : FullConfig)
    (name : string) (n : Z) :
  from_env int_of_str environ = Ok c ->
  get_channel c name = Some n <->
  exists var v, In (name, var) channel_mappings /\ environ !! var = Some v /\
                v <> EmptyString /\ int_of_str v = Ok n.
Proof.
  intros Hc. apply from_env_cases in Hc as (_ & Hl & _).
  destruct (load_channels_lookup environ channel_mappings ∅ (channels c)
              channel_keys_distinct Hl) as [Hout Hin].
  unfold get_channel. split.
  - intros Hn.
    destruct (in_dec string_dec name (map fst channel_mappings)) as [Hk|Hk].
    + apply in_map_iff in Hk as ([k var] & <- & Hkv). cbn [fst] in *.
      specialize (Hin k var Hkv). destruct (nonempty (environ !! var)) eqn:Hne.
      * destruct Hin as (n' & Hp & Hs). rewrite Hs in Hn. injection Hn as ->.
        apply nonempty_spec in Hne as (v & Hv & Hnz).
        exists var, v. unfold getenv in Hp. rewrite Hv in Hp. auto.
      * rewrite Hin, lookup_empty in Hn. discriminate.
    + rewrite (Hout name Hk), lookup_empty in Hn. discriminate.
  - intros (var & v & Hkv & Hv & Hnz & Hp).
    specialize (Hin name var Hkv).
    assert (Hne : nonempty (environ !! var) = true) by (apply nonempty_spec; eauto).
    rewrite Hne in Hin. destruct Hin as (n' & Hp' & Hs).
    unfold getenv in Hp'. rewrite Hv in Hp'. congruence.
Qed.

(** The switches of a loaded configuration.  Remediation without approval
    is on only when [AUTO_REMEDIATE] is set to a text that reads [true] in
    lower case; investigations start by themselves unless [AUTO_RESPOND]
    is set to any other text than that; and with [ENVIRONMENT] unset the
    environment is [dev], in which the children may edit files. *)
Theorem from_env_switches (environ : gmap string string) (c : FullConfig) :
  from_env int_of_str environ = Ok c ->
  (auto_remediate c = true <->
   exists v, environ !! "AUTO_REMEDIATE" = Some v /\ Config.lower v = "true") /\
  (auto_respond c = false <->
   exists v, environ !! "AUTO_RESPOND" = Some v /\ Config.lower v <> "true") /\
  (environ !! "ENVIRONMENT" = None ->
   environment c = "dev" /\
   Executor._get_disallowed_tools (to_config c) = Some ["AskUserQuestion"]) /\
  (forall v, environ !! "ENVIRONMENT" = Some v -> Config.lower v <> "dev" ->
   Executor._get_disallowed_tools (to_config c)
   = Some ["AskUserQuestion"; "Write"; "Edit"; "MultiEdit"]).
Proof.
  intros Hc. apply from_env_cases in Hc as (_ & _ & _ & He & Hr & Hm & _).
  unfold getenv in *. split; [|split; [|split]].
  - rewrite Hm. destruct (environ !! "AUTO_REMEDIATE") as [v|].
    + rewrite String.eqb_eq. split; [eauto|intros (? & [= <-] & H); exact H].
    + split; [discriminate|intros (? & [=] & _)].
  - rewrite Hr. destruct (environ !! "AUTO_RESPOND") as [v|].
    + rewrite String.eqb_neq. split; [eauto|intros (? & [= <-] & H); exact H].
    + split; [discriminate|intros (? & [=] & _)].
  - intros Hnone. rewrite Hnone in He. split; [exact He|].
    unfold Executor._get_disallowed_tools, Config.allow_edit_tools, to_config.
    cbn [Config.environment]. rewrite He. reflexivity.
  - intros v Hv Hnd. rewrite Hv in He.
    unfold Executor._get_disallowed_tools, Config.allow_edit_tools, to_config.
    cbn [Config.environment]. rewrite He.
    apply String.eqb_neq in Hnd. rewrite Hnd. reflexivity.
Qed.

End EnvExtras.

Lemma from_env_channels_witness :
  Env.get_channel production_loaded "alerts" = Some 42 <->
  exists var v, In ("alerts", var) Env.channel_mappings /\
                production_environ !! var = Some v /\
                v <> EmptyString /\ int_of_digits v = Py.Ok 42.
Proof.
  apply (from_env_channels int_of_digits production_environ production_loaded "alerts" 42).
  vm_compute. reflexivity.
Defined.

Lemma from_env_switches_witness :
  (Env.auto_remediate production_loaded = true <->
   exists v, production_environ !! "AUTO_REMEDIATE" = Some v /\ Config.lower v = "true") /\
  (Env.auto_respond production_loaded = false <->
   exists v, production_environ !! "AUTO_RESPOND" = Some v /\ Config.lower v <> "true") /\
  (production_environ !! "ENVIRONMENT" = None ->
   Env.environment production_loaded = "dev" /\
   Executor._get_disallowed_tools (Env.to_config production_loaded)
   = Some ["AskUserQuestion"]) /\
  (forall v, production_environ !! "ENVIRONMENT" = Some v -> Config.lower v <> "dev" ->
   Executor._get_disallowed_tools (Env.to_config production_loaded)
   = Some ["AskUserQuestion"; "Write"; "Edit"; "MultiEdit"]).
Proof.
  apply (from_env_switches int_of_digits production_environ production_loaded).
  vm_compute. reflexivity.
Defined.
